(** * go-readline-skk: the conversion controller of [main.go]

    A shallow embedding of the SKK add-on for go-readline-ny: the numeral
    abstraction of dictionary lookup, the candidate loop [henkanMode] with
    its registration and purge prompts, and the key-map snapshot of the
    mode switcher.

    Go strings are byte sequences, so a string is a Rocq [string] holding
    the UTF-8 bytes; a [rune] is a [Z].  The dictionaries are finite maps
    from readings to ordered candidate lists. *)

From Stdlib Require Import ZArith Ascii String List Bool Lia.
From stdpp Require Import base option list strings gmap pretty.

Local Open Scope Z_scope.

(** ** Go runtime: bytes, runes and UTF-8 *)

Module Utf8.

Definition rune := Z.

Definition byte_val (c : ascii) : Z := Z.of_N (N_of_ascii c).
Definition byte_of (z : Z) : ascii := ascii_of_N (Z.to_N (z mod 256)).

Definition RuneError : rune := 0xFFFD.
Definition MaxRune : rune := 0x10FFFF.
Definition locb : Z := 0x80.
Definition hicb : Z := 0xBF.

(** [first] and [acceptRanges] of package unicode/utf8: the size of the
    sequence announced by a leading byte and the range its second byte
    must lie in; [None] is an invalid leading byte. *)
Definition first (s0 : Z) : option (nat * (Z * Z)) :=
  if s0 <? 0xC2 then None
  else if s0 <? 0xE0 then Some (2%nat, (locb, hicb))
  else if s0 =? 0xE0 then Some (3%nat, (0xA0, hicb))
  else if s0 <? 0xED then Some (3%nat, (locb, hicb))
  else if s0 =? 0xED then Some (3%nat, (locb, 0x9F))
  else if s0 <? 0xF0 then Some (3%nat, (locb, hicb))
  else if s0 =? 0xF0 then Some (4%nat, (0x90, hicb))
  else if s0 <? 0xF4 then Some (4%nat, (locb, hicb))
  else if s0 =? 0xF4 then Some (4%nat, (locb, 0x8F))
  else None.

Definition cont (c : ascii) : Z := Z.land (byte_val c) 0x3F.
Definition is_cont (c : ascii) : bool :=
  (locb <=? byte_val c) && (byte_val c <=? hicb).

(** utf8.DecodeRuneInString: the rune at the head of [s] and its width in
    bytes; an invalid or short sequence decodes to [RuneError] of width 1. *)
Definition DecodeRuneInString (s : string) : rune * nat :=
  match s with
  | EmptyString => (RuneError, 0%nat)
  | String c0 t =>
    let s0 := byte_val c0 in
    if s0 <? 0x80 then (s0, 1%nat)
    else match first s0 with
    | None => (RuneError, 1%nat)
    | Some (sz, (lo, hi)) =>
      if (String.length s <? sz)%nat then (RuneError, 1%nat)
      else match t with
      | EmptyString => (RuneError, 1%nat)
      | String c1 t1 =>
        if (byte_val c1 <? lo) || (hi <? byte_val c1) then (RuneError, 1%nat)
        else if (sz <=? 2)%nat
        then (Z.lor (Z.shiftl (Z.land s0 0x1F) 6) (cont c1), 2%nat)
        else match t1 with
        | EmptyString => (RuneError, 1%nat)
        | String c2 t2 =>
          if negb (is_cont c2) then (RuneError, 1%nat)
          else if (sz <=? 3)%nat
          then (Z.lor (Z.shiftl (Z.land s0 0x0F) 12)
                  (Z.lor (Z.shiftl (cont c1) 6) (cont c2)), 3%nat)
          else match t2 with
          | EmptyString => (RuneError, 1%nat)
          | String c3 _ =>
            if negb (is_cont c3) then (RuneError, 1%nat)
            else (Z.lor (Z.shiftl (Z.land s0 0x07) 18)
                    (Z.lor (Z.shiftl (cont c1) 12)
                       (Z.lor (Z.shiftl (cont c2) 6) (cont c3))), 4%nat)
          end
        end
      end
    end
  end.

Definition bytes3 (r : rune) : string :=
  String (byte_of (Z.lor 0xE0 (Z.shiftr r 12)))
    (String (byte_of (Z.lor 0x80 (Z.land (Z.shiftr r 6) 0x3F)))
       (String (byte_of (Z.lor 0x80 (Z.land r 0x3F))) EmptyString)).

(** utf8.AppendRune, which [string(rune)] and [Builder.WriteRune] use: a
    negative rune, one past [MaxRune] or a surrogate is written as
    [RuneError]. *)
Definition EncodeRune (r : rune) : string :=
  if (0 <=? r) && (r <=? 0x7F) then String (byte_of r) EmptyString
  else if (0 <=? r) && (r <=? 0x7FF) then
    String (byte_of (Z.lor 0xC0 (Z.shiftr r 6)))
      (String (byte_of (Z.lor 0x80 (Z.land r 0x3F))) EmptyString)
  else if (r <? 0) || (MaxRune <? r) || ((0xD800 <=? r) && (r <=? 0xDFFF))
  then bytes3 RuneError
  else if r <=? 0xFFFF then bytes3 r
  else
    String (byte_of (Z.lor 0xF0 (Z.shiftr r 18)))
      (String (byte_of (Z.lor 0x80 (Z.land (Z.shiftr r 12) 0x3F)))
         (String (byte_of (Z.lor 0x80 (Z.land (Z.shiftr r 6) 0x3F)))
            (String (byte_of (Z.lor 0x80 (Z.land r 0x3F))) EmptyString))).

(** [for _, r := range s]: the runes of [s] in order.  [skip] counts the
    bytes of the rune being stepped over. *)
Fixpoint range_from (skip : nat) (s : string) : list rune :=
  match s with
  | EmptyString => []
  | String _ t =>
    match skip with
    | S k => range_from k t
    | O => let '(r, w) := DecodeRuneInString s in r :: range_from (Nat.pred w) t
    end
  end.

Definition range (s : string) : list rune := range_from 0 s.

End Utf8.

(** ** Go runtime: the string and slice operations the source uses *)

Module Go.

(** [s[lo:hi]] on strings. *)
Definition slice (s : string) (lo hi : nat) : string :=
  String.substring lo (hi - lo) s.

(** [s[i]]: the byte at [i]; [None] is the run-time panic. *)
Definition byte_at (s : string) (i : nat) : option ascii := String.get i s.

(** [l[i]] on slices, with Go's [int] index; [None] is the panic. *)
Definition at_ {A} (l : list A) (i : Z) : option A :=
  if 0 <=? i then l !! Z.to_nat i else None.

Definition len {A} (l : list A) : Z := Z.of_nat (length l).

(** A slice is modelled by its contents, and [copy(dst, src)] gives the
    contents of [dst] afterwards.  In the source the write goes to the
    backing array, which a slice read from a dictionary shares with that
    dictionary's entry: where [main.go] copies inside such a slice, the
    entry it was read from is written too (see [on_Purging]). *)
Definition copy {A} (dst src : list A) : list A :=
  take (length dst) src ++ drop (length src) dst.

(** strings.Index: the byte offset of the first [substr] in [s], or -1. *)
Fixpoint Index_from (n : nat) (s substr : string) : Z :=
  if String.prefix substr s then Z.of_nat n
  else match s with
       | EmptyString => -1
       | String _ t => Index_from (S n) t substr
       end.

Definition Index (s substr : string) : Z := Index_from 0 s substr.

(** strings.IndexByte. *)
Definition IndexByte (s : string) (c : ascii) : Z :=
  Index s (String c EmptyString).

(** strings.Cut: [before], [after] and [found]. *)
Definition Cut (s sep : string) : string * string * bool :=
  let i := Index s sep in
  if 0 <=? i
  then (slice s 0 (Z.to_nat i),
        slice s (Z.to_nat i + String.length sep) (String.length s), true)
  else (s, EmptyString, false).

Definition before (s sep : string) : string := fst (fst (Cut s sep)).

(** [string(b)] for a byte [b]. *)
Definition string_of_byte (b : ascii) : string :=
  Utf8.EncodeRune (Utf8.byte_val b).

(** The comparison [a < b] of strings: bytewise lexicographic. *)
Definition lt (a b : string) : bool := String.ltb a b.

Definition eq (a b : string) : bool := String.eqb a b.

End Go.

(** ** The numeral abstractor and the dictionaries *)

Module Skk.

Definition markerWhite : string := "▽".
Definition markerBlack : string := "▼".

Abbreviation Jisyo := (gmap string (list string)).

Definition is_digit (c : ascii) : bool :=
  (48 <=? Utf8.byte_val c) && (Utf8.byte_val c <=? 57).

(** The length of the digit run at the head of [s]. *)
Fixpoint digit_run (s : string) : nat :=
  match s with
  | EmptyString => O
  | String c t => if is_digit c then S (digit_run t) else O
  end.

(** [rxNumber.FindStringIndex] for the pattern [[0-9]+]: the leftmost
    digit run, as long as it goes; [None] is the [nil] of no match. *)
Fixpoint rxNumber_FindStringIndex_from (pos : nat) (s : string)
  : option (nat * nat) :=
  match s with
  | EmptyString => None
  | String c t =>
    if is_digit c then Some (pos, (pos + digit_run s)%nat)
    else rxNumber_FindStringIndex_from (S pos) t
  end.

Definition rxNumber_FindStringIndex (s : string) : option (nat * nat) :=
  rxNumber_FindStringIndex_from 0 s.

(** The character class of [rxToNumber], [[0123459]]. *)
Definition is_style (c : ascii) : bool :=
  0 <=? Go.IndexByte "0123459" c.

(** [rxToNumber.ReplaceAllStringFunc] for the pattern [#[0123459]]: the
    matches are taken left to right without overlap and each is replaced
    by [repl] of the matched text. *)
Fixpoint rxToNumber_ReplaceAllStringFunc (s : string)
    (repl : string -> string) : string :=
  match s with
  | EmptyString => EmptyString
  | String c t =>
    match t with
    | String d u =>
      if Ascii.eqb c "#" && is_style d
      then repl (String c (String d EmptyString))
             +:+ rxToNumber_ReplaceAllStringFunc u repl
      else String c (rxToNumber_ReplaceAllStringFunc t repl)
    | EmptyString => String c EmptyString
    end
  end.

Definition kansuji : gmap Z string :=
  list_to_map
    [ (48, "〇"); (49, "一"); (50, "二"); (51, "三"); (52, "四");
      (53, "五"); (54, "六"); (55, "七"); (56, "八"); (57, "九") ].

(** A Go map read [m[k]] gives the zero value for an absent key. *)
Definition numberToKanji (s : string) : string :=
  foldl (fun buffer r => buffer +:+ default EmptyString (kansuji !! r))
        EmptyString (Utf8.range s).

Definition hanToZen (c : Utf8.rune) : Utf8.rune :=
  if (c <? 32) || (127 <=? c) then c
  else if c =? 32 then 0x3000
  else c - 32 + 0xFF00.

Definition hanToZenString (s : string) : string :=
  foldl (fun buffer r => buffer +:+ Utf8.EncodeRune (hanToZen r))
        EmptyString (Utf8.range s).

(** The closure passed to [ReplaceAllStringFunc] in [lookup]; [ss] is a
    match, so [ss[1]] exists, and [number] is returned should it not. *)
Definition expand_style (number : string) (ss : string) : string :=
  match Go.byte_at ss 1 with
  | Some "0"%char => number
  | Some "1"%char => hanToZenString number
  | Some "2"%char => numberToKanji number
  | Some "3"%char => numberToKanji number
  | _ => number
  end.

Section Mode.

(** [rl.Command] is an interface of the host; its values are opaque here.
    A [nil] command is [None]. *)
Context {Command : Type}.

(** [_Kana] is declared outside [main.go]; only its [table] is read here.
    The [QueryPrompter] of a [Mode] only lays a prompt out on the terminal
    and is left out. *)
Record _Kana := { table : gmap string string; switchTo : nat }.

Record Mode := {
  User : Jisyo;
  System : Jisyo;
  saveMap : option (list (option Command));
  kana : _Kana
}.

Definition set_User (M : Mode) (u : Jisyo) : Mode :=
  {| User := u; System := System M; saveMap := saveMap M; kana := kana M |}.

Definition set_System (M : Mode) (s : Jisyo) : Mode :=
  {| User := User M; System := s; saveMap := saveMap M; kana := kana M |}.

Definition set_saveMap (M : Mode) (s : option (list (option Command))) : Mode :=
  {| User := User M; System := System M; saveMap := s; kana := kana M |}.

(** The pair of a Go map read with [ok]: an absent key reads as [nil]. *)
Definition get (j : Jisyo) (source : string) : list string * bool :=
  match j !! source with
  | Some l => (l, true)
  | None => ([], false)
  end.

Definition _lookup (M : Mode) (source : string) : list string * bool :=
  let '(l, ok) := get (User M) source in
  if ok then (l, true)
  else get (System M) source.

Definition lookup (M : Mode) (source : string) : list string * bool :=
  let '(l, ok) := _lookup M source in
  if ok then (l, ok)
  else
    match rxNumber_FindStringIndex source with
    | None => ([], false)
    | Some (lo, hi) =>
      let number := Go.slice source lo hi in
      let source :=
        Go.slice source 0 lo +:+ "#" +:+ Go.slice source hi (String.length source) in
      let '(l, ok) := _lookup M source in
      if negb ok then ([], false)
      else
        let newList :=
          foldl (fun newList s =>
                   newList ++ [rxToNumber_ReplaceAllStringFunc s (expand_style number)])
                [] l in
        (newList, true)
    end.

(** *** The host editor

    [rl.Buffer] of go-readline-ny is used through its fields [Buffer]
    (the cells of the line, each read with [String()]), [Cursor] and
    [KeyMap], and through the primitives below.  The host stores one cell
    per code point of an inserted string. *)

Record rl_Buffer := {
  Buffer : list string;
  Cursor : Z;
  KeyMap : gmap string Command
}.

Definition set_line (B : rl_Buffer) (cells : list string) (cursor : Z) : rl_Buffer :=
  {| Buffer := cells; Cursor := cursor; KeyMap := KeyMap B |}.

Definition set_KeyMap (B : rl_Buffer) (km : gmap string Command) : rl_Buffer :=
  {| Buffer := Buffer B; Cursor := Cursor B; KeyMap := km |}.

(** [StringToMoji]: the cells of a string, each read back with
    [String()].  The host ranges over the runes of the string, so an
    ill-formed byte becomes the cell U+FFFD.  The host can also hold a
    sequence of code points (with a joiner, a selector or a modifier) in
    one cell; text with such sequences is outside this model, where every
    rune is a cell of its own. *)
Definition StringToMoji (str : string) : list string :=
  map Utf8.EncodeRune (Utf8.range str).

(** [B.ReplaceAndRepaint(pos, str)]: the cells from [pos] up to the cursor
    are replaced by those of [str] and the cursor is left after them. *)
Definition ReplaceAndRepaint (B : rl_Buffer) (pos : Z) (str : string) : rl_Buffer :=
  let moji := StringToMoji str in
  set_line B
    (take (Z.to_nat pos) (Buffer B) ++ moji ++ drop (Z.to_nat (Cursor B)) (Buffer B))
    (pos + Go.len moji).

Definition InsertAndRepaint (B : rl_Buffer) (str : string) : rl_Buffer :=
  ReplaceAndRepaint B (Cursor B) str.

(** [B.SubString(start, end)]: the text of the cells in [start, end). *)
Definition SubString (B : rl_Buffer) (start end_ : Z) : string :=
  foldr String.append EmptyString
    (take (Z.to_nat end_ - Z.to_nat start) (drop (Z.to_nat start) (Buffer B))).

(** [B.RepaintAfterPrompt()]: the host redraws the cells before the
    cursor and panics when the cursor is negative.  The other calls of
    [main.go] repaint with the cursor as the host left it; [removeOne]
    calls it after it has moved the cursor itself. *)
Definition RepaintAfterPrompt (B : rl_Buffer) : option rl_Buffer :=
  if Cursor B <? 0 then None else Some B.

(** [km.BindKey(key, f)]: a [nil] command unbinds the key. *)
Definition BindKey (km : gmap string Command) (key : string)
    (f : option Command) : gmap string Command :=
  match f with
  | Some c => <[key := c]> km
  | None => delete key km
  end.

Definition dquote : string := String (ascii_of_nat 34) EmptyString.
Definition CtrlG : string := String (ascii_of_nat 7) EmptyString.
Definition CtrlJ : string := String (ascii_of_nat 10) EmptyString.

(** *** Markers *)

Definition is_marker (ch : string) : bool :=
  Go.eq ch markerWhite || Go.eq ch markerBlack.

(** The loop of [seekMarker], for [i] from [n - 1] down to 0; [None] is the
    panic of reading a cell past the end of the line. *)
Fixpoint seekMarker_from (cells : list string) (n : nat) : option Z :=
  match n with
  | O => Some (-1)
  | S i =>
    match cells !! i with
    | None => None
    | Some ch => if is_marker ch then Some (Z.of_nat i) else seekMarker_from cells i
    end
  end.

Definition seekMarker (B : rl_Buffer) : option Z :=
  seekMarker_from (Buffer B) (Z.to_nat (Cursor B)).

(** [removeOne]: [None] is the panic of slicing past the end, or that of
    the repaint once [B.Cursor--] has made the cursor negative. *)
Definition removeOne (B : rl_Buffer) (pos : Z) : option rl_Buffer :=
  if (0 <=? pos) && (pos + 1 <=? Go.len (Buffer B)) then
    let p := Z.to_nat pos in
    let shifted :=
      take p (Buffer B) ++ Go.copy (drop p (Buffer B)) (drop (S p) (Buffer B)) in
    RepaintAfterPrompt
      (set_line B (take (length shifted - 1) shifted) (Cursor B - 1))
  else None.

(** *** The candidate loop of [henkanMode]

    The loop blocks where it reads from the host: [B.GetKey] of the
    selection loop, [M.ask1] of the listing and the nested [ReadLine] of
    [M.ask] in [newCandidate] and before a purge.  A [Point] names the read
    the controller is blocked at, a [Reply] is what the host returns to it,
    and a [Frame] holds the locals of the call. *)

Definition listingStartIndex : Z := 4.

Inductive Return :=
| CONTINUE                     (* return rl.CONTINUE *)
| Eval (input : string)        (* return eval(ctx, B, input) *)
| RomajiCall (last : string)   (* return r.Call(ctx, B), r = &_Romaji{last: last} *)
| Panic.                       (* index or slice bounds out of range *)

(** [text] and [err] are the two results of the read.  The prompt of
    [newCandidate] runs kana input on the same dictionaries, so its reply
    carries what that nested session did to the User dictionary. *)
Record Reply := {
  text : string;
  err : bool;
  nested : Jisyo -> Jisyo
}.

Record Frame := {
  markerPos : Z;
  source : string;
  postfix : string;
  list_ : list string
}.

Inductive Point :=
| Selecting (current : Z)
| Paging (current : Z)
| Registering
| Purging (current : Z).

Inductive Ctl :=
| Wait (f : Frame) (p : Point) (M : Mode) (B : rl_Buffer)
| Done (r : Return) (M : Mode) (B : rl_Buffer).

(** The body of [newCandidate] after [M.ask] has returned.  The
    dictionaries are modelled by the contents of their lists.  Whether
    [append] writes into the backing array of the list it was given depends
    on the spare capacity of that array, which the contents do not show:
    the new list is modelled as a list of its own, stored in the User
    dictionary. *)
Definition newCandidate (M : Mode) (source : string) (r : Reply)
  : string * bool * Mode :=
  let M := set_User M (nested r (User M)) in
  let newWord := text r in
  if err r || (Z.of_nat (String.length newWord) <=? 0) then (EmptyString, false, M)
  else
    let '(l, _) := lookup M source in
    if existsb (fun candidate => Go.eq candidate newWord) l then (newWord, true, M)
    else
      let l1 := l ++ [EmptyString] in
      let l2 := take 1 l1 ++ Go.copy (drop 1 l1) l in
      let l3 := <[0%nat := newWord]> l2 in
      (newWord, true, set_User M (<[source := l3]> (User M))).

(** The listing loop over the keys [ASDFJKL:]: the prompt text and the
    index after the window. *)
Fixpoint page_loop (keys : list ascii) (l : list string) (buffer : string)
    (_current : Z) : option (string * Z) :=
  match keys with
  | [] => Some (buffer, _current)
  | key :: rest =>
    if Go.len l <=? _current then Some (buffer, _current)
    else match Go.at_ l _current with
         | None => None
         | Some e =>
           page_loop rest l
             (buffer +:+ String key ":" +:+ Go.before e ";" +:+ " ")
             (_current + 1)
         end
  end.

Definition page (l : list string) (current : Z) : option (string * Z) :=
  match page_loop (list_ascii_of_string "ASDFJKL:") l EmptyString current with
  | None => None
  | Some (buffer, _current) =>
    Some (buffer +:+ "[残り " +:+ pretty (Go.len l - _current) +:+ "]", _current)
  end.

Definition cancel (f : Frame) (M : Mode) (B : rl_Buffer) : Ctl :=
  Done CONTINUE M (ReplaceAndRepaint B (markerPos f) (markerWhite +:+ source f)).

(** Display candidate [current] behind the black marker and read a key. *)
Definition show (f : Frame) (M : Mode) (B : rl_Buffer) (current : Z) : Ctl :=
  match Go.at_ (list_ f) current with
  | None => Done Panic M B
  | Some e =>
    let candidate := Go.before e ";" in
    Wait f (Selecting current) M
      (ReplaceAndRepaint B (markerPos f) (markerBlack +:+ candidate +:+ postfix f))
  end.

(** The head of the listing loop: build the prompt, then [M.ask1]. *)
Definition listing (f : Frame) (M : Mode) (B : rl_Buffer) (current : Z) : Ctl :=
  match page (list_ f) current with
  | None => Done Panic M B
  | Some _ => Wait f (Paging current) M B
  end.

Definition commit (r : Return) (f : Frame) (M : Mode) (B : rl_Buffer) : Ctl :=
  match removeOne B (markerPos f) with
  | Some B' => Done r M B'
  | None => Done Panic M B
  end.

Definition on_Selecting (f : Frame) (current : Z) (M : Mode) (B : rl_Buffer)
    (r : Reply) : Ctl :=
  let input := text r in
  if Go.eq input CtrlG then cancel f M B
  else if Go.lt input " " then commit CONTINUE f M B
  else if Go.eq input " " then
    let current := current + 1 in
    if Go.len (list_ f) <=? current then Wait f Registering M B
    else if listingStartIndex <=? current then listing f M B current
    else show f M B current
  else if Go.eq input "x" then
    let current := current - 1 in
    if current <? 0 then cancel f M B
    else show f M B current
  else if Go.eq input "X" then
    match Go.at_ (list_ f) current with
    | None => Done Panic M B
    | Some _ => Wait f (Purging current) M B
    end
  else commit (Eval input) f M B.

Definition on_Paging (f : Frame) (current : Z) (M : Mode) (B : rl_Buffer)
    (r : Reply) : Ctl :=
  match page (list_ f) current with
  | None => Done Panic M B
  | Some (_, _current) =>
    let key := text r in
    if err r then listing f M B current
    else
      let index := Go.Index "asdfjkl:" key in
      if 0 <=? index then
        match Go.at_ (list_ f) (current + index) with
        | None => Done Panic M B
        | Some e =>
          Done CONTINUE M (ReplaceAndRepaint B (markerPos f) (Go.before e ";"))
        end
      else if Go.eq key " " then listing f M B _current
      else if Go.eq key "x" then
        let current := current - Z.of_nat (String.length "ASDFJKL:") in
        if current <? listingStartIndex
        then Wait f (Selecting (if current <? 0 then 0 else current)) M B
        else listing f M B current
      else if Go.eq key CtrlG then cancel f M B
      else listing f M B current
  end.

Definition on_Registering (f : Frame) (M : Mode) (B : rl_Buffer) (r : Reply) : Ctl :=
  let '(result, ok, M) := newCandidate M (source f) r in
  if ok then Done CONTINUE M (ReplaceAndRepaint B (markerPos f) result)
  else Done CONTINUE M (ReplaceAndRepaint B (markerPos f) (markerWhite +:+ source f)).

(** [list] of [henkanMode] is the slice [lookup] returned: the one of
    [M.User[source]] when the User dictionary has the reading, else the one
    of [M.System[source]], else a new one made for a placeholder. *)
Definition held_by_System (M : Mode) (source : string) : bool :=
  match User M !! source, System M !! source with
  | None, Some _ => true
  | _, _ => false
  end.

(** The purge: reached with [0 <= current < len(list)], which the prompt
    text [list[current]] has checked.  [copy] shifts the candidates inside
    the backing array of [list]; when [list] is the slice of the System
    dictionary, that entry keeps its length and reads the shifted cells.
    The shortened slice stored in the User dictionary then shares that
    array; the contents do not record the sharing, so what a later write
    through the User entry does to the System entry is not followed. *)
Definition on_Purging (f : Frame) (current : Z) (M : Mode) (B : rl_Buffer)
    (r : Reply) : Ctl :=
  let ans := text r in
  if negb (err r) && (Go.eq ans "y" || Go.eq ans "yes") then
    let l := list_ f in
    let M :=
      if Go.len l <=? 1 then set_User M (delete (source f) (User M))
      else
        let c := Z.to_nat current in
        let l1 :=
          if current + 1 <? Go.len l
          then take c l ++ Go.copy (drop c l) (drop (S c) l)
          else l in
        let M :=
          if held_by_System M (source f)
          then set_System M (<[source f := l1]> (System M))
          else M in
        let l2 := take (length l1 - 1) l1 in
        set_User M (<[source f := l2]> (User M)) in
    Done CONTINUE M (ReplaceAndRepaint B (markerPos f) EmptyString)
  else Wait f (Selecting current) M B.

Definition step (c : Ctl) (r : Reply) : Ctl :=
  match c with
  | Done _ _ _ => c
  | Wait f (Selecting current) M B => on_Selecting f current M B r
  | Wait f (Paging current) M B => on_Paging f current M B r
  | Wait f Registering M B => on_Registering f M B r
  | Wait f (Purging current) M B => on_Purging f current M B r
  end.

(** The controller fed with the replies of the host, in order. *)
Definition run (c : Ctl) (replies : list Reply) : Ctl := foldl step c replies.

(** The prompt on display while the controller is blocked. *)
Definition prompt_of (f : Frame) (p : Point) : option string :=
  match p with
  | Selecting _ => None
  | Paging current => fst <$> page (list_ f) current
  | Registering => Some (source f)
  | Purging current =>
    (fun e => "really purge " +:+ dquote +:+ source f +:+ " /" +:+ e +:+ "/ "
                +:+ dquote +:+ "?(yes or no)")
      <$> Go.at_ (list_ f) current
  end.

Definition henkanMode (M : Mode) (B : rl_Buffer) (markerPos : Z)
    (source postfix : string) : Ctl :=
  let '(l, found) := lookup M source in
  let f := {| markerPos := markerPos; source := source; postfix := postfix;
              list_ := l |} in
  if negb found then Wait f Registering M B
  else show f M B 0.

(** *** The commands bound to keys *)

(** [trig.Key] is a byte: [source.WriteByte] appends it as it is, while
    the conversion [string(trig.Key)] gives the UTF-8 text of the code point
    of that value. *)
Definition _Trigger_Call (Key : ascii) (M : Mode) (B : rl_Buffer) : Ctl :=
  match seekMarker B with
  | None => Done Panic M B
  | Some markerPos =>
    if 0 <=? markerPos then
      let source :=
        SubString B (markerPos + 1) (Cursor B) +:+ String Key EmptyString in
      let postfix :=
        if 0 <=? Go.IndexByte "aiueo" Key
        then default EmptyString (table (kana M) !! Go.string_of_byte Key)
        else Go.string_of_byte Key in
      henkanMode M B markerPos source postfix
    else
      Done (RomajiCall (Go.string_of_byte Key)) M (InsertAndRepaint B markerWhite)
  end.

Definition cmdStartHenkan (M : Mode) (B : rl_Buffer) : Ctl :=
  match seekMarker B with
  | None => Done Panic M B
  | Some markerPos =>
    if markerPos <? 0 then Done CONTINUE M (InsertAndRepaint B " ")
    else henkanMode M B markerPos (SubString B (markerPos + 1) (Cursor B)) EmptyString
  end.

(** [backupKeyMap]: the key codes are [string(i)] for the runes 0 to 0x80. *)
Definition backupKeyMap (M : Mode) (km : gmap string Command) : Mode :=
  match saveMap M with
  | Some _ => M
  | None =>
    set_saveMap M
      (Some (foldl (fun saveMap i => saveMap ++ [km !! Utf8.EncodeRune i])
               [] (seqZ 0 (0x80 + 1))))
  end.

(** The loop of [restoreKeyMap] from index [i] on. *)
Fixpoint restore_from (i : Z) (saved : list (option Command))
    (km : gmap string Command) : gmap string Command :=
  match saved with
  | [] => km
  | command :: rest => restore_from (i + 1) rest (BindKey km (Utf8.EncodeRune i) command)
  end.

(** A [nil] slice is ranged over as an empty one. *)
Definition restoreKeyMap (M : Mode) (km : gmap string Command) : gmap string Command :=
  restore_from 0 (default [] (saveMap M)) km.

Definition cmdLatinMode (M : Mode) (B : rl_Buffer) : Ctl :=
  Done CONTINUE M (set_KeyMap B (restoreKeyMap M (KeyMap B))).

Definition cmdKakutei (M : Mode) (B : rl_Buffer) : Ctl :=
  match seekMarker B with
  | None => Done Panic M B
  | Some markerPos =>
    if markerPos <? 0 then cmdLatinMode M B
    else match removeOne B markerPos with
         | Some B' => Done CONTINUE M B'
         | None => Done Panic M B
         end
  end.

Definition cmdCancel (M : Mode) (B : rl_Buffer) : Ctl :=
  match seekMarker B with
  | None => Done Panic M B
  | Some markerPos =>
    if markerPos <? 0 then cmdLatinMode M B
    else Done CONTINUE M (ReplaceAndRepaint B markerPos EmptyString)
  end.

(** [&rl.GoCommand{Name: name, Func: ...}] as a value of the interface. *)
Context (GoCommand : string -> Command).

Definition cmdAbbrevMode (M : Mode) (B : rl_Buffer) : Ctl :=
  match seekMarker B with
  | None => Done Panic M B
  | Some markerPos =>
    if 0 <=? markerPos then Done CONTINUE M B
    else
      let B := set_KeyMap B (restoreKeyMap M (KeyMap B)) in
      let B := InsertAndRepaint B markerWhite in
      Done CONTINUE M
        (set_KeyMap B
           (BindKey (KeyMap B) " " (Some (GoCommand "SKK_ABBREV_START_HENKAN"))))
  end.

End Mode.

End Skk.

(** ** The renderings of a digit run, as the specification words them *)

Module Spec.

(** Every byte of [s] satisfies [p]. *)
Fixpoint all_bytes (p : ascii -> bool) (s : string) : bool :=
  match s with
  | EmptyString => true
  | String c t => p c && all_bytes p t
  end.

(** [s] does not begin with a byte satisfying [p]. *)
Definition head_not (p : ascii -> bool) (s : string) : bool :=
  match s with
  | EmptyString => true
  | String c _ => negb (p c)
  end.

(** The full-width form of a decimal digit, U+FF10 to U+FF19. *)
Definition zenkaku_digit (c : ascii) : string :=
  match c with
  | "0"%char => "０" | "1"%char => "１" | "2"%char => "２" | "3"%char => "３" | "4"%char => "４"
  | "5"%char => "５" | "6"%char => "６" | "7"%char => "７" | "8"%char => "８" | "9"%char => "９"
  | _ => EmptyString
  end.

(** The kanji numeral of a decimal digit. *)
Definition kanji_digit (c : ascii) : string :=
  match c with
  | "0"%char => "〇" | "1"%char => "一" | "2"%char => "二" | "3"%char => "三" | "4"%char => "四"
  | "5"%char => "五" | "6"%char => "六" | "7"%char => "七" | "8"%char => "八" | "9"%char => "九"
  | _ => EmptyString
  end.

Fixpoint per_digit (f : ascii -> string) (D : string) : string :=
  match D with
  | EmptyString => EmptyString
  | String c t => f c +:+ per_digit f t
  end.

(** What a numeral-style code stands for, given the digit run [D]:
    style 0 the digits verbatim, style 1 their full-width forms, styles 2
    and 3 their kanji numerals digit by digit, any other code the digits
    verbatim. *)
Definition rendering (style : ascii) (D : string) : string :=
  match style with
  | "0"%char => D
  | "1"%char => per_digit zenkaku_digit D
  | "2"%char => per_digit kanji_digit D
  | "3"%char => per_digit kanji_digit D
  | _ => D
  end.

(** [s] holds a numeral-style code: a [#] followed by one of [0123459]. *)
Fixpoint has_code (s : string) : bool :=
  match s with
  | EmptyString => false
  | String c t =>
    match t with
    | EmptyString => false
    | String d _ => (Ascii.eqb c "#" && Skk.is_style d) || has_code t
    end
  end.

End Spec.

(** ** The conversion region, and sample sessions *)

Module Session.

Section Region.

Context {Command : Type}.

(** The line is [pre ++ X ++ suf] with the cursor after [X]: [X] is the
    region under conversion, the marker at its head when there is one. *)
Definition region (B : @Skk.rl_Buffer Command) (pre X suf : list string) : Prop :=
  Skk.Buffer B = pre ++ X ++ suf /\ Skk.Cursor B = Go.len pre + Go.len X.

(** The line [pre ++ X ++ suf] with the cursor after [X]. *)
Definition line (B : @Skk.rl_Buffer Command) (pre X suf : list string)
  : @Skk.rl_Buffer Command :=
  Skk.set_line B (pre ++ X ++ suf) (Go.len pre + Go.len X).


(** No marker is active: the cursor is within the line and none of the
    cells left of it is a marker. *)
Definition no_marker_left (B : @Skk.rl_Buffer Command) : Prop :=
  (Z.to_nat (Skk.Cursor B) <= length (Skk.Buffer B))%nat /\
  Forall (fun ch => Skk.is_marker ch = false)
    (take (Z.to_nat (Skk.Cursor B)) (Skk.Buffer B)).



End Region.




(** A key read without error, and a prompt answered without error by a
    nested session that left the dictionaries alone. *)
Definition key (s : string) : Skk.Reply :=
  {| Skk.text := s; Skk.err := false; Skk.nested := fun j => j |}.


Definition failed : Skk.Reply :=
  {| Skk.text := EmptyString; Skk.err := true; Skk.nested := fun j => j |}.

Definition hiragana : Skk._Kana :=
  {| Skk.table := list_to_map [("a", "あ"); ("i", "い"); ("u", "う"); ("e", "え"); ("o", "お")];
     Skk.switchTo := 1 |}.

(** A User dictionary with two candidates for かく, a System dictionary
    with six for the okurigana reading かk, one under a placeholder and
    one reading that both hold. *)
Definition M0 : @Skk.Mode string :=
  {| Skk.User := list_to_map [("かく", ["書く;write"; "画く"]); ("き", ["木"])];
     Skk.System :=
       list_to_map
         [("かk", ["書"; "欠"; "掛"; "駆"; "懸"; "賭"]);
          ("とし#", ["#0歳"; "#1才"; "#2;kanji"; "#3#9"]);
          ("き", ["気"; "機"])];
     Skk.saveMap := None;
     Skk.kana := hiragana |}.

(** [x▽かくz] with the cursor before [z]. *)
Definition B0 : @Skk.rl_Buffer string :=
  {| Skk.Buffer := ["x"; "▽"; "か"; "く"; "z"]; Skk.Cursor := 4;
     Skk.KeyMap := list_to_map [("a", "SELF_INSERT"); (Skk.CtrlJ, "ACCEPT_LINE")] |}.

(** [x▽かz] with the cursor before [z]: the trigger [K] is typed next. *)
Definition B1 : @Skk.rl_Buffer string :=
  {| Skk.Buffer := ["x"; "▽"; "か"; "z"]; Skk.Cursor := 3;
     Skk.KeyMap := list_to_map [("a", "SELF_INSERT"); (Skk.CtrlJ, "ACCEPT_LINE")] |}.

(** [xyz] with the cursor at the end, no marker. *)
Definition B2 : @Skk.rl_Buffer string :=
  {| Skk.Buffer := ["x"; "y"; "z"]; Skk.Cursor := 3;
     Skk.KeyMap := list_to_map [("a", "SKK_ROMAJI_a"); (Skk.CtrlJ, "SKK_KAKUTEI")] |}.

(** The locals of [henkanMode] for かく, and [B0] with the first candidate
    on display. *)
Definition f0 : Skk.Frame :=
  {| Skk.markerPos := 1; Skk.source := "かく"; Skk.postfix := EmptyString;
     Skk.list_ := ["書く;write"; "画く"] |}.

Definition B0s : @Skk.rl_Buffer string :=
  Skk.set_line B0 ["x"; "▼"; "書"; "く"; "z"] 4.

(** The locals for the okurigana reading かk, its six candidates, and
    [B1] with the first of them on display. *)
Definition f1 : Skk.Frame :=
  {| Skk.markerPos := 1; Skk.source := "かk"; Skk.postfix := "k";
     Skk.list_ := ["書"; "欠"; "掛"; "駆"; "懸"; "賭"] |}.

Definition B1s : @Skk.rl_Buffer string :=
  Skk.set_line B1 ["x"; "▼"; "書"; "k"; "z"] 4.

(** [B1] while the listing is open: the fourth candidate is still on
    display. *)
Definition B1p : @Skk.rl_Buffer string :=
  Skk.set_line B1 ["x"; "▼"; "駆"; "k"; "z"] 4.


(** The controller is blocked at the registration prompt. *)
Definition registering {Command : Type} (c : @Skk.Ctl Command) : Prop :=
  exists f M B, c = Skk.Wait f Skk.Registering M B.

(** Where repeated advances can be when the list has more candidates
    than the listing threshold: at one of the first four candidates, or in
    the listing with the window starting at [4] or later. *)
Definition advancing {Command : Type} (f : Skk.Frame) (c : @Skk.Ctl Command) : Prop :=
  exists M B cur,
    (c = Skk.Wait f (Skk.Selecting cur) M B /\ 0 <= cur < Skk.listingStartIndex) \/
    (c = Skk.Wait f (Skk.Paging cur) M B /\ Skk.listingStartIndex <= cur).

(** What is left of a controller state once the dictionaries are listed. *)
Definition view (c : @Skk.Ctl string)
  : (Skk.Point + Skk.Return) * list string * Z * list (string * list string) :=
  match c with
  | Skk.Wait _ p M B => (inl p, Skk.Buffer B, Skk.Cursor B, map_to_list (Skk.User M))
  | Skk.Done r M B => (inr r, Skk.Buffer B, Skk.Cursor B, map_to_list (Skk.User M))
  end.

End Session.

(** ** The bindings of the mode switcher *)

Module Bindings.

(** [for i := range s]: the byte offsets at which the runes of [s] start. *)
Fixpoint starts_from (skip idx : nat) (s : string) : list nat :=
  match s with
  | EmptyString => []
  | String _ t =>
    match skip with
    | S k => starts_from k (S idx) t
    | O =>
      idx :: starts_from (Nat.pred (snd (Utf8.DecodeRuneInString s))) (S idx) t
    end
  end.

Definition starts (s : string) : list nat := starts_from 0 0 s.

Definition upperRomaji : string := "AIUEOKSTNHMYRWFGZDBPCJ".

(** [byte(unicode.ToLower(c))] on the letters of [upperRomaji], which are
    ASCII: an upper-case letter moves down by 32. *)
Definition ToLower (c : ascii) : ascii :=
  if (65 <=? Utf8.byte_val c) && (Utf8.byte_val c <=? 90)
  then Utf8.byte_of (Utf8.byte_val c + 32)
  else c.

(** Every byte of [s] is below 0x80. *)
Definition ascii_only (s : string) : Prop :=
  Spec.all_bytes (fun c => Utf8.byte_val c <? 128) s = true.

Section Bindings.

Context {Command : Type}.

(** The values of [rl.Command] this package binds: [&rl.GoCommand{Name}],
    [&_Romaji{kana, last}] and [&_Trigger{Key, M}] for the session's mode. *)
Context (GoCommand : string -> Command).
Context (_Romaji : Skk._Kana -> string -> Command).
Context (_Trigger : ascii -> Command).

(** Declared outside [main.go]: the keys of the romaji automaton, the
    hiragana table and the table of scripts, read at [switchTo]. *)
Context (romajiTrigger : string).
Context (hiragana : Skk._Kana).
Context (kanaTable : nat -> Skk._Kana).

Definition set_kana (M : @Skk.Mode Command) (K : Skk._Kana) : @Skk.Mode Command :=
  {| Skk.User := Skk.User M; Skk.System := Skk.System M;
     Skk.saveMap := Skk.saveMap M; Skk.kana := K |}.

Definition enableRomaji (K : Skk._Kana) (km : gmap string Command)
  : gmap string Command :=
  let km :=
    foldl (fun km i =>
             let c := Go.slice romajiTrigger i (i + 1) in
             Skk.BindKey km c (Some (_Romaji K c)))
          km (starts romajiTrigger) in
  let km := Skk.BindKey km "q" (Some (GoCommand "SKK_TOGGLE_KANA")) in
  let km := Skk.BindKey km "/" (Some (GoCommand "SKK_ABBREV_MODE")) in
  foldl (fun km c =>
           Skk.BindKey km (String c EmptyString) (Some (_Trigger (ToLower c))))
        km (list_ascii_of_string upperRomaji).

Definition enableHiragana (M : @Skk.Mode Command) (km : gmap string Command)
  : @Skk.Mode Command * gmap string Command :=
  let M := set_kana M hiragana in
  let km := enableRomaji hiragana km in
  let km := Skk.BindKey km " " (Some (GoCommand "SKK_START_HENKAN")) in
  let km := Skk.BindKey km "l" (Some (GoCommand "SKK_LATIN_MODE")) in
  let km := Skk.BindKey km "L" (Some (GoCommand "SKK_JISX0208_LATIN_MODE")) in
  let km := Skk.BindKey km Skk.CtrlG (Some (GoCommand "SKK_CANCEL")) in
  let km := Skk.BindKey km Skk.CtrlJ (Some (GoCommand "SKK_KAKUTEI")) in
  (M, km).

Definition cmdEnableRomaji (M : @Skk.Mode Command) (B : @Skk.rl_Buffer Command)
  : @Skk.Ctl Command :=
  let M := Skk.backupKeyMap M (Skk.KeyMap B) in
  let '(M, km) := enableHiragana M (Skk.KeyMap B) in
  Skk.Done Skk.CONTINUE M (Skk.set_KeyMap B km).

Definition cmdToggleKana (M : @Skk.Mode Command) (B : @Skk.rl_Buffer Command)
  : @Skk.Ctl Command :=
  let K := kanaTable (Skk.switchTo (Skk.kana M)) in
  Skk.Done Skk.CONTINUE (set_kana M K)
    (Skk.set_KeyMap B (enableRomaji K (Skk.KeyMap B))).

(** The name of the command [cmdJis0208LatinMode] binds to the rune [i]:
    it inserts [z], the full-width form of [i]. *)
Definition jis_insert_name (i : Utf8.rune) : string :=
  "SKK_JISX0208_LATIN_INSERT_" +:+ Utf8.EncodeRune (Skk.hanToZen i).

Definition cmdJis0208LatinMode (M : @Skk.Mode Command) (B : @Skk.rl_Buffer Command)
  : @Skk.Ctl Command :=
  let km :=
    foldl (fun km i =>
             Skk.BindKey km (Utf8.EncodeRune i) (Some (GoCommand (jis_insert_name i))))
          (Skk.KeyMap B) (seqZ 32 (127 - 32)) in
  let km :=
    Skk.BindKey km Skk.CtrlJ (Some (GoCommand "SKK_JISX0208_LATIN_KAKUTEI")) in
  Skk.Done Skk.CONTINUE M (Skk.set_KeyMap B km).

(** The closure bound to a printable key in full-width mode. *)
Definition jis_insert (i : Utf8.rune) (M : @Skk.Mode Command)
    (B : @Skk.rl_Buffer Command) : @Skk.Ctl Command :=
  Skk.Done Skk.CONTINUE M
    (Skk.InsertAndRepaint B (Utf8.EncodeRune (Skk.hanToZen i))).

(** The closure bound to Ctrl-J in full-width mode. *)
Definition jis_kakutei (M : @Skk.Mode Command) (B : @Skk.rl_Buffer Command)
  : @Skk.Ctl Command :=
  cmdEnableRomaji M (Skk.set_KeyMap B (Skk.restoreKeyMap M (Skk.KeyMap B))).

(** The key codes [backupKeyMap] saves: [string(i)] for 0 to 0x80. *)
Definition saved_key (k : string) : Prop :=
  exists i, 0 <= i <= 0x80 /\ k = Utf8.EncodeRune i.

(** What [backupKeyMap] records of the key map [km]. *)
Definition snapshot (km : gmap string Command) : list (option Command) :=
  map (fun i => km !! Utf8.EncodeRune i) (seqZ 0 (0x80 + 1)).

(** The mode holds the snapshot of the key map [km0], and the key map
    [km] differs from [km0] at saved key codes only. *)
Definition kana_mode (km0 : gmap string Command) (M : @Skk.Mode Command)
    (km : gmap string Command) : Prop :=
  Skk.saveMap M = Some (snapshot km0) /\
  forall k, ~ saved_key k -> km !! k = km0 !! k.

End Bindings.

End Bindings.

(** ** What the candidate loop keeps *)

Module Loop.

Section Loop.

Context {Command : Type}.

(** The index a blocked controller holds: a candidate of the list in
    Selecting and at the purge prompt; in the listing a window start from
    the threshold up to the end of a list longer than the threshold. *)
Definition point_ok (f : Skk.Frame) (p : Skk.Point) : Prop :=
  match p with
  | Skk.Selecting current => 0 <= current < Go.len (Skk.list_ f)
  | Skk.Purging current => 0 <= current < Go.len (Skk.list_ f)
  | Skk.Paging current =>
    Skk.listingStartIndex <= current <= Go.len (Skk.list_ f) /\
    Skk.listingStartIndex < Go.len (Skk.list_ f)
  | Skk.Registering => True
  end.

(** The controller is inside a conversion of the region between [pre]
    and [suf] that began with the mode [M] and the key map [km]: while it
    waits the mode is [M]; once it has returned the saved key map and the
    kana table are those of [M]; and the line is always [pre], a region
    and [suf] under the key map [km]. *)
Definition in_loop (M : @Skk.Mode Command) (km : gmap string Command)
    (pre suf : list string) (source : string) (c : @Skk.Ctl Command) : Prop :=
  match c with
  | Skk.Wait f p M' B' =>
    M' = M /\ Skk.markerPos f = Go.len pre /\ Skk.source f = source /\
    point_ok f p /\ Skk.KeyMap B' = km /\
    exists m X, Session.region B' pre (m :: X) suf
  | Skk.Done _ M' B' =>
    Skk.saveMap M' = Skk.saveMap M /\ Skk.kana M' = Skk.kana M /\
    Skk.KeyMap B' = km /\
    exists Y, Session.region B' pre Y suf
  end.

(** The row key of [r] asks for a candidate past the end of the list. *)
Definition row_key_past_end (f : Skk.Frame) (p : Skk.Point) (r : Skk.Reply) : Prop :=
  exists current,
    p = Skk.Paging current /\ Skk.err r = false /\
    0 <= Go.Index "asdfjkl:" (Skk.text r) /\
    Go.len (Skk.list_ f) <= current + Go.Index "asdfjkl:" (Skk.text r).

(** A step has one of two outcomes: the panic of a row key past the end,
    with nothing changed, or a state that is still inside the conversion
    and is no panic. *)
Definition step_outcome (M : @Skk.Mode Command) (km : gmap string Command)
    (pre suf : list string) (source : string) (f : Skk.Frame) (p : Skk.Point)
    (B : @Skk.rl_Buffer Command) (r : Skk.Reply) : Prop :=
  (row_key_past_end f p r /\
   Skk.step (Skk.Wait f p M B) r = Skk.Done Skk.Panic M B) \/
  (~ row_key_past_end f p r /\
   (forall M' B', Skk.step (Skk.Wait f p M B) r <> Skk.Done Skk.Panic M' B') /\
   in_loop M km pre suf source (Skk.step (Skk.Wait f p M B) r)).

(** The candidates in the window of the listing that starts at [current]. *)
Definition window (l : list string) (current : Z) : list string :=
  take 8 (drop (Z.to_nat current) l).

(** The prompt of the listing as it reads: the candidates of the window
    behind the keys of the row, annotations cut, then how many are left. *)
Definition page_text (l : list string) (current : Z) : string :=
  foldr String.append EmptyString
    (zip_with (fun key e => String key ":" +:+ Go.before e ";" +:+ " ")
       (list_ascii_of_string "ASDFJKL:") (window l current))
  +:+ "[残り " +:+ pretty (Go.len l - current - Go.len (window l current)) +:+ "]".

End Loop.

End Loop.

(** ** A sample switcher *)

Module Sample.

(** Commands stand for themselves by name. *)
Definition GoCommand (name : string) : string := name.

Definition _Romaji (K : Skk._Kana) (last : string) : string :=
  "SKK_ROMAJI_" +:+ last.

Definition _Trigger (Key : ascii) : string :=
  "SKK_TRIGGER_" +:+ String Key EmptyString.

(** Keys of a romaji automaton: letters and punctuation, all ASCII. *)
Definition romajiTrigger : string := "aiueokstnhmyrwfgzdbpcj-,.".

Definition katakana : Skk._Kana :=
  {| Skk.table := list_to_map [("a", "ア"); ("i", "イ"); ("u", "ウ"); ("e", "エ"); ("o", "オ")];
     Skk.switchTo := 0 |}.

Definition kanaTable (i : nat) : Skk._Kana :=
  match i with
  | O => Session.hiragana
  | _ => katakana
  end.

(** The mode of [Session.M0] once the key map of [Session.B0] is saved. *)
Definition M0k : @Skk.Mode string :=
  Skk.set_saveMap Session.M0 (Some (Bindings.snapshot (Skk.KeyMap Session.B0))).

End Sample.

(** * Properties *)

(** ** Strings *)

#[local] Arguments String.append !s1 s2 : simpl nomatch.

Lemma append_nil_r (s : string) : s +:+ EmptyString = s.
Proof. induction s as [|c s IH]; simpl; congruence. Qed.

Lemma append_assoc (a b c : string) : (a +:+ b) +:+ c = a +:+ b +:+ c.
Proof. induction a as [|x a IH]; simpl; congruence. Qed.

Lemma length_append (a b : string) :
  String.length (a +:+ b) = (String.length a + String.length b)%nat.
Proof. induction a as [|x a IH]; simpl; congruence. Qed.

Lemma substring_all (s : string) : String.substring 0 (String.length s) s = s.
Proof. induction s as [|c s IH]; simpl; congruence. Qed.

Lemma substring_append_l (a b : string) :
  String.substring 0 (String.length a) (a +:+ b) = a.
Proof.
  induction a as [|x a IH]; simpl.
  - destruct b; reflexivity.
  - congruence.
Qed.

Lemma substring_append_r (a b : string) (n m : nat) :
  String.substring (String.length a + n) m (a +:+ b) = String.substring n m b.
Proof. induction a as [|x a IH]; simpl; [reflexivity | exact IH]. Qed.

Lemma slice_prefix (a b : string) : Go.slice (a +:+ b) 0 (String.length a) = a.
Proof.
  unfold Go.slice. rewrite Nat.sub_0_r. apply substring_append_l.
Qed.

Lemma slice_middle (a b c : string) :
  Go.slice (a +:+ b +:+ c) (String.length a) (String.length a + String.length b) = b.
Proof.
  unfold Go.slice.
  replace (String.length a + String.length b - String.length a)%nat
    with (String.length b) by lia.
  rewrite <- (Nat.add_0_r (String.length a)) at 1.
  rewrite substring_append_r. apply substring_append_l.
Qed.

Lemma slice_suffix (a b : string) :
  Go.slice (a +:+ b) (String.length a) (String.length (a +:+ b)) = b.
Proof.
  unfold Go.slice. rewrite length_append.
  replace (String.length a + String.length b - String.length a)%nat
    with (String.length b) by lia.
  rewrite <- (Nat.add_0_r (String.length a)) at 1.
  rewrite substring_append_r. apply substring_all.
Qed.

(** ** The digit run found by [rxNumber] *)

Lemma digit_run_split (s : string) :
  exists D post,
    s = D +:+ post /\ String.length D = Skk.digit_run s /\
    Spec.all_bytes Skk.is_digit D = true /\
    Spec.head_not Skk.is_digit post = true.
Proof.
  induction s as [|c s (D & post & -> & Hlen & HD & Hp)]; simpl.
  - exists EmptyString, EmptyString. auto.
  - destruct (Skk.is_digit c) eqn:Hc.
    + exists (String c D), post. simpl. rewrite Hc, HD, Hlen. auto.
    + exists EmptyString, (String c (D +:+ post)). simpl. rewrite Hc. auto.
Qed.

(** [rxNumber.FindStringIndex] finds the leftmost digit run and takes all
    of it; it finds nothing exactly when the string holds no digit. *)
Lemma FindStringIndex_from_spec (s : string) (pos : nat) :
  match Skk.rxNumber_FindStringIndex_from pos s with
  | None => Spec.all_bytes (fun c => negb (Skk.is_digit c)) s = true
  | Some (lo, hi) =>
    exists pre D post,
      s = pre +:+ D +:+ post /\
      lo = (pos + String.length pre)%nat /\ hi = (lo + String.length D)%nat /\
      (0 < String.length D)%nat /\
      Spec.all_bytes (fun c => negb (Skk.is_digit c)) pre = true /\
      Spec.all_bytes Skk.is_digit D = true /\
      Spec.head_not Skk.is_digit post = true
  end.
Proof.
  revert pos. induction s as [|c s IH]; intros pos; simpl; [reflexivity|].
  destruct (Skk.is_digit c) eqn:Hc.
  - destruct (digit_run_split (String c s)) as (D & post & Hs & Hlen & HD & Hp).
    exists EmptyString, D, post. simpl in *. rewrite Hc in Hlen.
    repeat split; auto; lia.
  - specialize (IH (S pos)).
    destruct (Skk.rxNumber_FindStringIndex_from (S pos) s) as [[lo hi]|].
    + destruct IH as (pre & D & post & -> & -> & -> & Hpos & Hpre & HD & Hp).
      exists (String c pre), D, post. simpl. rewrite Hc, Hpre.
      repeat split; auto; lia.
    + exact IH.
Qed.

(** ** The renderings of the numeral styles *)

Lemma digit_cases (c : ascii) :
  Skk.is_digit c = true ->
  c = "0"%char \/ c = "1"%char \/ c = "2"%char \/ c = "3"%char \/ c = "4"%char \/
  c = "5"%char \/ c = "6"%char \/ c = "7"%char \/ c = "8"%char \/ c = "9"%char.
Proof.
  destruct c as [[] [] [] [] [] [] [] []]; vm_compute; intros H;
    try discriminate H; tauto.
Qed.

Lemma range_digit (c : ascii) (t : string) :
  Skk.is_digit c = true ->
  Utf8.range (String c t) = Utf8.byte_val c :: Utf8.range t.
Proof.
  intros H. unfold Utf8.range. cbn [Utf8.range_from].
  destruct (digit_cases c H) as [->|[->|[->|[->|[->|[->|[->|[->|[->| ->]]]]]]]]];
    reflexivity.
Qed.

Lemma foldl_append {A} (g : A -> string) (l : list A) (acc : string) :
  foldl (fun buffer r => buffer +:+ g r) acc l
  = acc +:+ foldl (fun buffer r => buffer +:+ g r) EmptyString l.
Proof.
  revert acc. induction l as [|x l IH]; intros acc; simpl.
  - now rewrite append_nil_r.
  - rewrite IH, (IH (g x)), append_assoc. reflexivity.
Qed.

Lemma numberToKanji_digits (D : string) :
  Spec.all_bytes Skk.is_digit D = true ->
  Skk.numberToKanji D = Spec.per_digit Spec.kanji_digit D.
Proof.
  unfold Skk.numberToKanji.
  induction D as [|c D IH]; simpl; [reflexivity|].
  intros [Hc HD]%andb_prop. rewrite (range_digit _ _ Hc). simpl.
  rewrite foldl_append, (IH HD). f_equal.
  destruct (digit_cases c Hc) as [->|[->|[->|[->|[->|[->|[->|[->|[->| ->]]]]]]]]];
    reflexivity.
Qed.

Lemma hanToZenString_digits (D : string) :
  Spec.all_bytes Skk.is_digit D = true ->
  Skk.hanToZenString D = Spec.per_digit Spec.zenkaku_digit D.
Proof.
  unfold Skk.hanToZenString.
  induction D as [|c D IH]; simpl; [reflexivity|].
  intros [Hc HD]%andb_prop. rewrite (range_digit _ _ Hc). simpl.
  rewrite foldl_append, (IH HD). f_equal.
  destruct (digit_cases c Hc) as [->|[->|[->|[->|[->|[->|[->|[->|[->| ->]]]]]]]]];
    reflexivity.
Qed.

Lemma style_cases (c : ascii) :
  Skk.is_style c = true ->
  c = "0"%char \/ c = "1"%char \/ c = "2"%char \/ c = "3"%char \/ c = "4"%char \/
  c = "5"%char \/ c = "9"%char.
Proof.
  destruct c as [[] [] [] [] [] [] [] []]; vm_compute; intros H;
    try discriminate H; tauto.
Qed.

(** The closure of [lookup] renders a matched code as the specification
    says, for a run [D] of digits. *)
Lemma expand_style_rendering (D : string) (style : ascii) :
  Spec.all_bytes Skk.is_digit D = true ->
  Skk.is_style style = true ->
  Skk.expand_style D (String "#" (String style EmptyString)) = Spec.rendering style D.
Proof.
  intros HD Hs. unfold Skk.expand_style. cbn [Go.byte_at String.get].
  destruct (style_cases style Hs) as [->|[->|[->|[->|[->|[->| ->]]]]]]; cbn;
    auto using numberToKanji_digits, hanToZenString_digits.
Qed.

Lemma ReplaceAll_no_code (s : string) (repl : string -> string) :
  Spec.has_code s = false -> Skk.rxToNumber_ReplaceAllStringFunc s repl = s.
Proof.
  induction s as [|c s IH]; [reflexivity|].
  destruct s as [|d u]; [reflexivity|].
  cbn [Spec.has_code Skk.rxToNumber_ReplaceAllStringFunc].
  intros [H1 H2]%orb_false_elim. rewrite H1. f_equal. exact (IH H2).
Qed.

Lemma not_style_hash : Skk.is_style "#" = false.
Proof. reflexivity. Qed.

(** Text without a code is copied, and the first code after it is
    replaced by [repl] of the code. *)
Lemma ReplaceAll_first_code (pre post : string) (style : ascii)
    (repl : string -> string) :
  Spec.has_code pre = false -> Skk.is_style style = true ->
  Skk.rxToNumber_ReplaceAllStringFunc (pre +:+ String "#" (String style post)) repl
  = pre +:+ repl (String "#" (String style EmptyString))
        +:+ Skk.rxToNumber_ReplaceAllStringFunc post repl.
Proof.
  intros Hpre Hs. induction pre as [|c pre IH].
  - cbn. rewrite Hs. reflexivity.
  - destruct pre as [|d u].
    + cbn [String.append Skk.rxToNumber_ReplaceAllStringFunc] in *.
      rewrite not_style_hash, andb_false_r. f_equal. apply IH. reflexivity.
    + cbn [Spec.has_code] in Hpre. apply orb_false_elim in Hpre as [H1 H2].
      cbn [String.append Skk.rxToNumber_ReplaceAllStringFunc] in *.
      rewrite H1. f_equal. apply IH. exact H2.
Qed.

Lemma foldl_snoc_map {A B} (g : A -> B) (l : list A) (acc : list B) :
  foldl (fun newList s => newList ++ [g s]) acc l = acc ++ map g l.
Proof.
  revert acc. induction l as [|x l IH]; intros acc; simpl.
  - now rewrite app_nil_r.
  - rewrite IH, <- app_assoc. reflexivity.
Qed.

(** ** Dictionary lookup *)

Section Lookup.

Context {Command : Type}.
Implicit Types (M : @Skk.Mode Command) (source : string).

Lemma lookup_exact_hit M source (l : list string) :
  Skk._lookup M source = (l, true) -> Skk.lookup M source = (l, true).
Proof. unfold Skk.lookup. intros ->. reflexivity. Qed.

Lemma _lookup_unfold M source :
  Skk._lookup M source =
  match Skk.User M !! source with
  | Some l => (l, true)
  | None => match Skk.System M !! source with
            | Some l => (l, true)
            | None => ([], false)
            end
  end.
Proof.
  unfold Skk._lookup, Skk.get.
  destruct (Skk.User M !! source); [reflexivity|].
  destruct (Skk.System M !! source); reflexivity.
Qed.

(** The placeholder path of [lookup], once the exact lookup has missed
    and [rxNumber] has found the digit run [D] between [pre] and [post]. *)
Lemma lookup_placeholder M (pre D post : string) :
  snd (Skk._lookup M (pre +:+ D +:+ post)) = false ->
  Skk.rxNumber_FindStringIndex (pre +:+ D +:+ post)
  = Some (String.length pre, (String.length pre + String.length D)%nat) ->
  Skk.lookup M (pre +:+ D +:+ post) =
  match Skk._lookup M (pre +:+ "#" +:+ post) with
  | (l, true) =>
    (map (fun s => Skk.rxToNumber_ReplaceAllStringFunc s (Skk.expand_style D)) l, true)
  | (_, false) => ([], false)
  end.
Proof.
  intros Hmiss Hfind. unfold Skk.lookup.
  destruct (Skk._lookup M (pre +:+ D +:+ post)) as [l0 ok0]. simpl in Hmiss.
  subst ok0. rewrite Hfind.
  rewrite slice_prefix, slice_middle.
  rewrite <- length_append, <- (append_assoc pre D post), slice_suffix.
  destruct (Skk._lookup M (pre +:+ "#" +:+ post)) as [l [|]]; simpl; [|reflexivity].
  rewrite foldl_snoc_map. reflexivity.
Qed.

(** C4: [lookup] answers from the User dictionary when it has the
    reading and from the System dictionary only when the User dictionary
    misses.  When both miss it looks for a digit run: without one the
    result is not-found (the flag [false]); otherwise the reading splits as
    [pre ++ D ++ post] around the leftmost digit run [D], taken as long as
    it goes, and the answer is that of the exact lookup, User first, of
    [pre ++ "#" ++ post], with the codes of each candidate expanded. *)
Theorem lookup_user_system_placeholder M source :
  match Skk.User M !! source with
  | Some l => Skk.lookup M source = (l, true)
  | None =>
    match Skk.System M !! source with
    | Some l => Skk.lookup M source = (l, true)
    | None =>
      match Skk.rxNumber_FindStringIndex source with
      | None =>
        Spec.all_bytes (fun c => negb (Skk.is_digit c)) source = true /\
        Skk.lookup M source = ([], false)
      | Some (lo, hi) =>
        exists pre D post,
          source = pre +:+ D +:+ post /\
          lo = String.length pre /\ hi = (lo + String.length D)%nat /\
          (0 < String.length D)%nat /\
          Spec.all_bytes (fun c => negb (Skk.is_digit c)) pre = true /\
          Spec.all_bytes Skk.is_digit D = true /\
          Spec.head_not Skk.is_digit post = true /\
          Skk.lookup M source =
          let expand s := Skk.rxToNumber_ReplaceAllStringFunc s (Skk.expand_style D) in
          match Skk.User M !! (pre +:+ "#" +:+ post) with
          | Some l => (map expand l, true)
          | None =>
            match Skk.System M !! (pre +:+ "#" +:+ post) with
            | Some l => (map expand l, true)
            | None => ([], false)
            end
          end
      end
    end
  end.
Proof.
  pose proof (_lookup_unfold M source) as Hex.
  destruct (Skk.User M !! source) as [l|] eqn:HU.
  { now apply lookup_exact_hit. }
  destruct (Skk.System M !! source) as [l|] eqn:HS.
  { now apply lookup_exact_hit. }
  pose proof (FindStringIndex_from_spec source 0) as Hfind.
  fold (Skk.rxNumber_FindStringIndex source) in Hfind.
  destruct (Skk.rxNumber_FindStringIndex source) as [[lo hi]|] eqn:Hrx.
  - destruct Hfind as (pre & D & post & -> & -> & -> & Hpos & Hpre & HD & Hpost).
    exists pre, D, post. repeat split; auto.
    rewrite lookup_placeholder; [| now rewrite Hex | exact Hrx].
    rewrite _lookup_unfold.
    destruct (Skk.User M !! (pre +:+ "#" +:+ post)); [reflexivity|].
    destruct (Skk.System M !! (pre +:+ "#" +:+ post)); reflexivity.
  - split; [exact Hfind|]. unfold Skk.lookup. rewrite Hex, Hrx. reflexivity.
Qed.

(** C5: after a placeholder lookup with the captured run [D], a
    candidate's text up to its first code is kept, the code is replaced by
    its rendering (style 0 the digits, style 1 their full-width forms,
    styles 2 and 3 alike the kanji numerals digit by digit, the styles 4, 5
    and 9 the digits again) and the rest of the candidate is expanded the
    same way; a candidate without a code is returned as stored, and the
    run "0" under styles 2 and 3 is the single glyph 〇. *)
Theorem placeholder_codes_rendered M source (lo hi : nat) (l : list string) :
  snd (Skk._lookup M source) = false ->
  Skk.rxNumber_FindStringIndex source = Some (lo, hi) ->
  Skk._lookup M (Go.slice source 0 lo +:+ "#"
                   +:+ Go.slice source hi (String.length source)) = (l, true) ->
  let D := Go.slice source lo hi in
  let expand s := Skk.rxToNumber_ReplaceAllStringFunc s (Skk.expand_style D) in
  Spec.all_bytes Skk.is_digit D = true /\
  Skk.lookup M source = (map expand l, true) /\
  (forall pre style post,
      Spec.has_code pre = false -> Skk.is_style style = true ->
      expand (pre +:+ String "#" (String style post))
      = pre +:+ Spec.rendering style D +:+ expand post) /\
  (forall s, Spec.has_code s = false -> expand s = s) /\
  Spec.rendering "2" D = Spec.rendering "3" D /\
  Spec.rendering "4" D = D /\ Spec.rendering "5" D = D /\ Spec.rendering "9" D = D /\
  (D = "0" -> expand "#2" = "〇" /\ expand "#3" = "〇").
Proof.
  intros Hmiss Hrx Hkey D expand.
  pose proof (FindStringIndex_from_spec source 0) as Hfind.
  fold (Skk.rxNumber_FindStringIndex source) in Hfind. rewrite Hrx in Hfind.
  destruct Hfind as (pre & Dr & post & Hsrc & Hlo & Hhi & Hpos & Hpre & HD & Hpost).
  simpl in Hlo. subst lo hi.
  assert (HDr : D = Dr).
  { unfold D. rewrite Hsrc. apply slice_middle. }
  assert (Hk : Go.slice source 0 (String.length pre) +:+ "#"
               +:+ Go.slice source (String.length pre + String.length Dr)
                     (String.length source) = pre +:+ "#" +:+ post).
  { rewrite Hsrc, slice_prefix.
    rewrite <- length_append, <- (append_assoc pre Dr post), slice_suffix.
    reflexivity. }
  rewrite Hk in Hkey.
  split; [now rewrite HDr|].
  split.
  { rewrite Hsrc in Hmiss, Hrx |- *. rewrite lookup_placeholder; auto.
    rewrite Hkey. unfold expand. rewrite HDr. reflexivity. }
  split.
  { intros p style q Hp Hs. unfold expand.
    rewrite ReplaceAll_first_code by assumption.
    rewrite expand_style_rendering; auto. now rewrite HDr. }
  split; [intros s Hs; now apply ReplaceAll_no_code|].
  do 4 (split; [reflexivity|]).
  intros HD0. unfold expand. rewrite HD0. split; reflexivity.
Qed.

End Lookup.

(** ** The host line and the region under conversion *)

Section Line.

Context {Command : Type}.
Implicit Types (B : @Skk.rl_Buffer Command) (pre X suf : list string).

Lemma len_app {A} (a b : list A) : Go.len (a ++ b) = Go.len a + Go.len b.
Proof. unfold Go.len. rewrite length_app. lia. Qed.

Lemma len_nonneg {A} (a : list A) : 0 <= Go.len a.
Proof. unfold Go.len. lia. Qed.

Lemma to_nat_len {A} (a : list A) : Z.to_nat (Go.len a) = length a.
Proof. unfold Go.len. lia. Qed.

Lemma region_line B pre X suf : Session.region (Session.line B pre X suf) pre X suf.
Proof. split; reflexivity. Qed.

Lemma region_eq B pre X suf :
  Session.region B pre X suf -> B = Session.line B pre X suf.
Proof.
  intros [Hb Hc]. destruct B as [b c k]. simpl in *. subst.
  reflexivity.
Qed.

(** Replacing from the start of the region up to the cursor puts the new
    cells in the region's place and nothing else moves. *)
Lemma ReplaceAndRepaint_region B pre X suf (str : string) :
  Session.region B pre X suf ->
  Skk.ReplaceAndRepaint B (Go.len pre) str
  = Session.line B pre (Skk.StringToMoji str) suf.
Proof.
  intros [Hb Hc]. unfold Skk.ReplaceAndRepaint, Session.line.
  rewrite Hb, Hc, <- len_app, !to_nat_len.
  rewrite take_app_length.
  rewrite (app_assoc pre X suf), drop_app_length. reflexivity.
Qed.

(** The in-place shift [copy(l[p:], l[p+1:])] followed by dropping the
    last element deletes the element at [p]. *)
Lemma copy_tail {A} (e : A) (q : list A) :
  Go.copy (e :: q) q = q ++ drop (length q) (e :: q).
Proof.
  unfold Go.copy. rewrite firstn_all2 by (cbn [length]; lia). reflexivity.
Qed.

Lemma shift_drop_last {A} (p : list A) (e : A) (q : list A) :
  take (length (p ++ Go.copy (e :: q) q) - 1) (p ++ Go.copy (e :: q) q) = p ++ q.
Proof.
  rewrite copy_tail, !length_app, length_drop. cbn [length].
  replace (length p + (length q + (S (length q) - length q)) - 1)%nat
    with (length (p ++ q)) by (rewrite length_app; lia).
  rewrite app_assoc. apply take_app_length.
Qed.

Lemma split_at {A} (p : list A) (e : A) (q : list A) :
  take (length p) (p ++ e :: q) = p /\
  drop (length p) (p ++ e :: q) = e :: q /\
  drop (S (length p)) (p ++ e :: q) = q.
Proof.
  split; [apply take_app_length|]. split; [apply drop_app_length|].
  replace (S (length p)) with (length (p ++ [e]))
    by (rewrite length_app; cbn [length]; lia).
  replace (p ++ e :: q) with ((p ++ [e]) ++ q)
    by (rewrite <- app_assoc; reflexivity).
  apply drop_app_length.
Qed.

(** [removeOne] at the start of the region drops its first cell. *)
Lemma removeOne_region B pre (m : string) X suf :
  Session.region B pre (m :: X) suf ->
  Skk.removeOne B (Go.len pre) = Some (Session.line B pre X suf).
Proof.
  intros [Hb Hc]. unfold Skk.removeOne, Session.line.
  rewrite Hb, Hc, to_nat_len.
  change (pre ++ (m :: X) ++ suf) with (pre ++ m :: (X ++ suf)).
  pose proof (len_nonneg pre). pose proof (len_nonneg (X ++ suf)).
  assert (Hlen : Go.len (pre ++ m :: X ++ suf) = Go.len pre + 1 + Go.len (X ++ suf)).
  { unfold Go.len. rewrite !length_app. cbn [length]. rewrite length_app. lia. }
  rewrite Hlen.
  rewrite (proj2 (Z.leb_le 0 _)) by lia.
  rewrite (proj2 (Z.leb_le _ _)) by lia.
  cbn [andb].
  destruct (split_at pre m (X ++ suf)) as (-> & -> & ->).
  rewrite shift_drop_last. unfold Skk.RepaintAfterPrompt.
  pose proof (len_nonneg X).
  assert (Hm : Go.len (m :: X) = 1 + Go.len X)
    by (unfold Go.len; cbn [length]; lia).
  cbn [Skk.Cursor Skk.set_line]. rewrite (proj2 (Z.ltb_ge _ _)) by lia.
  f_equal. f_equal. lia.
Qed.

(** *** Cells of a string that begins with a marker *)

Lemma range_from_head (c : ascii) (t : string) :
  Utf8.range_from 0 (String c t)
  = fst (Utf8.DecodeRuneInString (String c t))
      :: Utf8.range_from (Nat.pred (snd (Utf8.DecodeRuneInString (String c t)))) t.
Proof.
  cbn [Utf8.range_from]. now destruct (Utf8.DecodeRuneInString (String c t)).
Qed.

(** A marker is one code point of three bytes, hence one cell. *)
Lemma StringToMoji_marker (m s : string) :
  m = Skk.markerWhite \/ m = Skk.markerBlack ->
  Skk.StringToMoji (m +:+ s) = m :: Skk.StringToMoji s.
Proof.
  unfold Skk.StringToMoji, Utf8.range.
  intros [-> | ->].
  - change (Skk.markerWhite +:+ s)
      with (String "226" (String "150" (String "189" s))).
    rewrite range_from_head.
    replace (Utf8.DecodeRuneInString (String "226" (String "150" (String "189" s))))
      with (0x25BD, 3%nat) by (vm_compute; reflexivity).
    reflexivity.
  - change (Skk.markerBlack +:+ s)
      with (String "226" (String "150" (String "188" s))).
    rewrite range_from_head.
    replace (Utf8.DecodeRuneInString (String "226" (String "150" (String "188" s))))
      with (0x25BC, 3%nat) by (vm_compute; reflexivity).
    reflexivity.
Qed.

Lemma StringToMoji_markerWhite (s : string) :
  Skk.StringToMoji (Skk.markerWhite +:+ s) = Skk.markerWhite :: Skk.StringToMoji s.
Proof. apply StringToMoji_marker. now left. Qed.

Lemma StringToMoji_markerBlack (s : string) :
  Skk.StringToMoji (Skk.markerBlack +:+ s) = Skk.markerBlack :: Skk.StringToMoji s.
Proof. apply StringToMoji_marker. now right. Qed.

Lemma StringToMoji_empty : Skk.StringToMoji EmptyString = [].
Proof. reflexivity. Qed.

End Line.

(** ** The candidate loop *)

Section Loop.

Context {Command : Type}.
Implicit Types (M : @Skk.Mode Command) (B : @Skk.rl_Buffer Command).
Implicit Types (f : Skk.Frame) (r : Skk.Reply) (pre X suf : list string).

Lemma at_in_range {A} (l : list A) (i : Z) :
  0 <= i < Go.len l -> exists e, Go.at_ l i = Some e.
Proof.
  intros [H0 H1]. unfold Go.at_, Go.len in *.
  rewrite (proj2 (Z.leb_le _ _) H0).
  destruct (l !! Z.to_nat i) as [e|] eqn:He; [eauto|].
  apply lookup_ge_None in He. lia.
Qed.

Lemma at_Some_range {A} (l : list A) (i : Z) (e : A) :
  Go.at_ l i = Some e -> 0 <= i < Go.len l.
Proof.
  unfold Go.at_, Go.len. destruct (0 <=? i) eqn:H0; [|discriminate].
  intros He. apply lookup_lt_Some in He. lia.
Qed.

Lemma cancel_region f M B pre X suf :
  Session.region B pre X suf -> Skk.markerPos f = Go.len pre ->
  Skk.cancel f M B
  = Skk.Done Skk.CONTINUE M
      (Session.line B pre (Skk.markerWhite :: Skk.StringToMoji (Skk.source f)) suf).
Proof.
  intros HB Hpos. unfold Skk.cancel.
  rewrite Hpos, (ReplaceAndRepaint_region _ _ _ _ _ HB), StringToMoji_markerWhite.
  reflexivity.
Qed.

Lemma commit_region (ret : Skk.Return) f M B pre (m : string) X suf :
  Session.region B pre (m :: X) suf -> Skk.markerPos f = Go.len pre ->
  Skk.commit ret f M B = Skk.Done ret M (Session.line B pre X suf).
Proof.
  intros HB Hpos. unfold Skk.commit.
  rewrite Hpos, (removeOne_region _ _ _ _ _ HB). reflexivity.
Qed.

Lemma show_region f M B pre X suf (current : Z) (e : string) :
  Session.region B pre X suf -> Skk.markerPos f = Go.len pre ->
  Go.at_ (Skk.list_ f) current = Some e ->
  Skk.show f M B current
  = Skk.Wait f (Skk.Selecting current) M
      (Session.line B pre
         (Skk.markerBlack :: Skk.StringToMoji (Go.before e ";" +:+ Skk.postfix f)) suf).
Proof.
  intros HB Hpos He. unfold Skk.show. rewrite He, Hpos.
  rewrite (ReplaceAndRepaint_region _ _ _ _ _ HB), StringToMoji_markerBlack.
  reflexivity.
Qed.

(** *** The keys of the selection loop *)

Lemma eqb_false (a b : string) : a <> b -> Go.eq a b = false.
Proof. intros H. now apply String.eqb_neq. Qed.

Lemma Selecting_cancel f M B r (current : Z) :
  Skk.text r = Skk.CtrlG ->
  Skk.on_Selecting f current M B r = Skk.cancel f M B.
Proof. unfold Skk.on_Selecting. intros ->. reflexivity. Qed.

Lemma Selecting_control f M B r (current : Z) :
  Go.lt (Skk.text r) " " = true -> Skk.text r <> Skk.CtrlG ->
  Skk.on_Selecting f current M B r = Skk.commit Skk.CONTINUE f M B.
Proof.
  unfold Skk.on_Selecting. intros Hlt Hne.
  now rewrite (eqb_false _ _ Hne), Hlt.
Qed.

Lemma Selecting_advance f M B r (current : Z) :
  Skk.text r = " " ->
  Skk.on_Selecting f current M B r =
  if Go.len (Skk.list_ f) <=? current + 1 then Skk.Wait f Skk.Registering M B
  else if Skk.listingStartIndex <=? current + 1 then Skk.listing f M B (current + 1)
  else Skk.show f M B (current + 1).
Proof. unfold Skk.on_Selecting. intros ->. reflexivity. Qed.

Lemma Selecting_back f M B r (current : Z) :
  Skk.text r = "x" ->
  Skk.on_Selecting f current M B r =
  if current - 1 <? 0 then Skk.cancel f M B else Skk.show f M B (current - 1).
Proof. unfold Skk.on_Selecting. intros ->. reflexivity. Qed.

Lemma Selecting_purge f M B r (current : Z) :
  Skk.text r = "X" ->
  Skk.on_Selecting f current M B r =
  match Go.at_ (Skk.list_ f) current with
  | None => Skk.Done Skk.Panic M B
  | Some _ => Skk.Wait f (Skk.Purging current) M B
  end.
Proof. unfold Skk.on_Selecting. intros ->. reflexivity. Qed.


(** *** The listing *)

Lemma page_loop_end (keys : list ascii) (l : list string) (buffer : string)
    (c : Z) :
  0 <= c ->
  exists text,
    Skk.page_loop keys l buffer c
    = Some (text, if Go.len l <=? c then c else Z.min (c + Go.len keys) (Go.len l)).
Proof.
  revert buffer c. induction keys as [|k keys IH]; intros buffer c Hc.
  - exists buffer. cbn [Skk.page_loop]. unfold Go.len at 2. cbn [length Z.of_nat].
    destruct (Go.len l <=? c) eqn:Hle; [reflexivity|].
    apply Z.leb_gt in Hle. f_equal. f_equal. lia.
  - cbn [Skk.page_loop]. destruct (Go.len l <=? c) eqn:Hle; [eauto|].
    apply Z.leb_gt in Hle.
    destruct (at_in_range l c) as [e ->]; [lia|].
    destruct (IH (buffer +:+ String k ":" +:+ Go.before e ";" +:+ " ") (c + 1))
      as [text ->]; [lia|].
    exists text. f_equal. f_equal.
    replace (Go.len (k :: keys)) with (1 + Go.len keys)
      by (unfold Go.len; cbn [length]; lia).
    pose proof (len_nonneg keys).
    destruct (Go.len l <=? c + 1) eqn:Hle'.
    + apply Z.leb_le in Hle'. lia.
    + apply Z.leb_gt in Hle'. lia.
Qed.

(** The window of the listing ends eight candidates on, or at the end of
    the list; past the end it is empty. *)
Lemma page_end (l : list string) (c : Z) :
  0 <= c ->
  exists text,
    Skk.page l c = Some (text, if Go.len l <=? c then c else Z.min (c + 8) (Go.len l)).
Proof.
  intros Hc. unfold Skk.page.
  destruct (page_loop_end (list_ascii_of_string "ASDFJKL:") l EmptyString c Hc)
    as [text ->].
  eexists. reflexivity.
Qed.

Lemma listing_waits f M B (c : Z) :
  0 <= c -> Skk.listing f M B c = Skk.Wait f (Skk.Paging c) M B.
Proof.
  intros Hc. unfold Skk.listing.
  destruct (page_end (Skk.list_ f) c Hc) as [text ->]. reflexivity.
Qed.

Lemma Paging_advance f M B r (c : Z) :
  0 <= c -> Skk.err r = false -> Skk.text r = " " ->
  Skk.on_Paging f c M B r
  = Skk.Wait f
      (Skk.Paging (if Go.len (Skk.list_ f) <=? c then c
                   else Z.min (c + 8) (Go.len (Skk.list_ f)))) M B.
Proof.
  intros Hc He Ht. unfold Skk.on_Paging.
  destruct (page_end (Skk.list_ f) c Hc) as [text ->].
  rewrite He, Ht. cbn -[Z.min Skk.listing].
  apply listing_waits.
  destruct (Go.len (Skk.list_ f) <=? c); [lia|].
  pose proof (len_nonneg (Skk.list_ f)). lia.
Qed.




End Loop.

(** ** The keys that end a selection *)

Section SelectionKeys.

Context {Command : Type}.
Implicit Types (M : @Skk.Mode Command) (B : @Skk.rl_Buffer Command).
Implicit Types (f : Skk.Frame) (r : Skk.Reply) (pre X suf : list string).

(** A key below the space, Ctrl-G apart, drops the marker cell and is
    not handed on. *)
Lemma Selecting_control_region f M B r (current : Z) pre (m : string) X suf :
  Session.region B pre (m :: X) suf ->
  Skk.markerPos f = Go.len pre ->
  Go.lt (Skk.text r) " " = true ->
  Skk.text r <> Skk.CtrlG ->
  Skk.step (Skk.Wait f (Skk.Selecting current) M B) r
  = Skk.Done Skk.CONTINUE M (Session.line B pre X suf).
Proof.
  intros HB Hpos Hlt Hne. cbn [Skk.step].
  rewrite Selecting_control by assumption.
  now apply commit_region with (m := m).
Qed.





End SelectionKeys.



(** ** Advancing through the candidates *)

Section Advance.

Context {Command : Type}.
Implicit Types (M : @Skk.Mode Command) (B : @Skk.rl_Buffer Command).
Implicit Types (f : Skk.Frame) (c : @Skk.Ctl Command) (r : Skk.Reply).

Lemma run_cons c r (rs : list Skk.Reply) :
  Skk.run c (r :: rs) = Skk.run (Skk.step c r) rs.
Proof. reflexivity. Qed.

Lemma show_waits f M B (cur : Z) :
  0 <= cur < Go.len (Skk.list_ f) ->
  exists B', Skk.show f M B cur = Skk.Wait f (Skk.Selecting cur) M B'.
Proof.
  intros H. unfold Skk.show.
  destruct (at_in_range (Skk.list_ f) cur H) as [e ->]. eauto.
Qed.

(** With more than four candidates a space keeps the controller in the
    selection or in the listing. *)
Lemma advancing_step f c r :
  Skk.text r = " " -> Skk.err r = false ->
  Skk.listingStartIndex < Go.len (Skk.list_ f) ->
  Session.advancing f c -> Session.advancing f (Skk.step c r).
Proof.
  intros Ht He Hlen (M & B & cur & [[-> Hc] | [-> Hc]]);
    unfold Session.advancing, Skk.listingStartIndex in *.
  - cbn [Skk.step]. rewrite Selecting_advance by assumption.
    rewrite (proj2 (Z.leb_gt _ _)) by lia.
    unfold Skk.listingStartIndex.
    destruct (4 <=? cur + 1) eqn:H4.
    + apply Z.leb_le in H4. rewrite listing_waits by lia.
      exists M, B, (cur + 1). right. split; [reflexivity | exact H4].
    + apply Z.leb_gt in H4.
      destruct (show_waits f M B (cur + 1)) as [B' ->]; [lia|].
      exists M, B', (cur + 1). left. split; [reflexivity | lia].
  - cbn [Skk.step]. rewrite Paging_advance by (assumption || lia).
    eexists M, B, _. right. split; [reflexivity|].
    destruct (Go.len (Skk.list_ f) <=? cur); lia.
Qed.

Lemma advancing_run f c r (n : nat) :
  Skk.text r = " " -> Skk.err r = false ->
  Skk.listingStartIndex < Go.len (Skk.list_ f) ->
  Session.advancing f c ->
  Session.advancing f (Skk.run c (repeat r n)).
Proof.
  intros Ht He Hlen. revert c. induction n as [|n IH]; intros c Hc; [exact Hc|].
  cbn [repeat]. rewrite run_cons. apply IH. now apply advancing_step.
Qed.

(** With more than four candidates no number of advances from the first
    candidate opens the registration prompt. *)
Lemma advance_never_registers f M B r (n : nat) :
  Skk.text r = " " -> Skk.err r = false ->
  Skk.listingStartIndex < Go.len (Skk.list_ f) ->
  ~ Session.registering (Skk.run (Skk.Wait f (Skk.Selecting 0) M B) (repeat r n)).
Proof.
  intros Ht He Hlen (f' & M' & B' & Heq).
  destruct (advancing_run f (Skk.Wait f (Skk.Selecting 0) M B) r n Ht He Hlen)
    as (M1 & B1 & cur & [[H1 _] | [H1 _]]).
  - exists M, B, 0. left. split; [reflexivity | unfold Skk.listingStartIndex; lia].
  - rewrite H1 in Heq. discriminate Heq.
  - rewrite H1 in Heq. discriminate Heq.
Qed.

(** With at most four candidates, [n] advances that stay below the end
    of the list lead to candidate [cur + n]. *)
Lemma advance_selects_short f M B r (n : nat) (cur : Z) :
  Skk.text r = " " ->
  Go.len (Skk.list_ f) <= Skk.listingStartIndex ->
  0 <= cur -> cur + Z.of_nat n < Go.len (Skk.list_ f) ->
  exists B',
    Skk.run (Skk.Wait f (Skk.Selecting cur) M B) (repeat r n)
    = Skk.Wait f (Skk.Selecting (cur + Z.of_nat n)) M B'.
Proof.
  unfold Skk.listingStartIndex. intros Ht Hlen. revert B cur.
  induction n as [|n IH]; intros B cur Hc Hn.
  - exists B. cbn [repeat]. rewrite Z.add_0_r. reflexivity.
  - cbn [repeat]. rewrite run_cons. cbn [Skk.step].
    rewrite Selecting_advance by assumption.
    rewrite (proj2 (Z.leb_gt _ _)) by lia.
    unfold Skk.listingStartIndex. rewrite (proj2 (Z.leb_gt _ _)) by lia.
    destruct (show_waits f M B (cur + 1)) as [B1 ->]; [lia|].
    destruct (IH B1 (cur + 1)) as [B' ->]; [lia | lia |].
    exists B'. do 2 f_equal. lia.
Qed.

(** With at most four candidates, as many advances as the list is long
    open the registration prompt, and fewer do not. *)
Lemma advance_registers_short f M B r :
  Skk.text r = " " ->
  0 < Go.len (Skk.list_ f) <= Skk.listingStartIndex ->
  Session.registering
    (Skk.run (Skk.Wait f (Skk.Selecting 0) M B) (repeat r (length (Skk.list_ f)))) /\
  forall n, (n < length (Skk.list_ f))%nat ->
    ~ Session.registering (Skk.run (Skk.Wait f (Skk.Selecting 0) M B) (repeat r n)).
Proof.
  intros Ht [Hpos Hlen]. split.
  - destruct (length (Skk.list_ f)) as [|k] eqn:Hk; [unfold Go.len in Hpos; lia|].
    replace (S k) with (k + 1)%nat by lia.
    rewrite repeat_app. unfold Skk.run at 1. rewrite foldl_app.
    fold (Skk.run (Skk.Wait f (Skk.Selecting 0) M B) (repeat r k)).
    destruct (advance_selects_short f M B r k 0 Ht Hlen) as [B' ->];
      [lia | unfold Go.len; lia |].
    cbn [repeat foldl Skk.step]. rewrite Selecting_advance by assumption.
    rewrite (proj2 (Z.leb_le _ _)) by (unfold Go.len; lia).
    exists f, M, B'. reflexivity.
  - intros n Hn (f' & M' & B' & Heq).
    destruct (advance_selects_short f M B r n 0 Ht Hlen) as [B1 H1];
      [lia | unfold Go.len; lia |].
    rewrite H1 in Heq. discriminate Heq.
Qed.

End Advance.

(** C2 at its failing input: the reading かk has six candidates.  Four
    advances from the first one open the listing at index 4, the fifth
    moves its window to the end of the list, and from there on a space
    changes nothing: after six advances, as after any number, the controller
    is in the listing with an empty window and nothing remaining, not at the
    registration prompt, and a key of the row reads past the end of the
    list.  The two candidates of かく are few enough to stay out of the
    listing: there two advances do open the registration prompt. *)
Theorem six_advances_stall_in_listing :
  let c0 := Skk.henkanMode Session.M0 Session.B1 1 "かk" "k" in
  let c := Skk.run c0 (repeat (Session.key " ") 6) in
  Go.len (Skk.list_ Session.f1) = 6 /\
  Skk.run c0 (repeat (Session.key " ") 4)
  = Skk.Wait Session.f1 (Skk.Paging 4) Session.M0 Session.B1p /\
  Skk.run c0 (repeat (Session.key " ") 5)
  = Skk.Wait Session.f1 (Skk.Paging 6) Session.M0 Session.B1p /\
  c = Skk.Wait Session.f1 (Skk.Paging 6) Session.M0 Session.B1p /\
  ~ Session.registering c /\
  Skk.prompt_of Session.f1 (Skk.Paging 6) = Some "[残り 0]" /\
  Skk.step c (Session.key " ") = c /\
  Skk.step c (Session.key "a") = Skk.Done Skk.Panic Session.M0 Session.B1p /\
  Session.registering
    (Skk.run (Skk.henkanMode Session.M0 Session.B0 1 "かく" EmptyString)
       (repeat (Session.key " ") 2)).
Proof.
  intros c0 c.
  assert (Hc : c = Skk.Wait Session.f1 (Skk.Paging 6) Session.M0 Session.B1p)
    by (vm_compute; reflexivity).
  split; [reflexivity|]. split; [vm_compute; reflexivity|].
  split; [vm_compute; reflexivity|]. split; [exact Hc|].
  split.
  { rewrite Hc. intros (f & M & B & Heq). discriminate Heq. }
  split; [vm_compute; reflexivity|].
  rewrite Hc. split; [vm_compute; reflexivity|]. split; [vm_compute; reflexivity|].
  eexists _, _, _. vm_compute. reflexivity.
Qed.

(** ** Okurigana *)

Section Okurigana.

Context {Command : Type}.
Implicit Types (M : @Skk.Mode Command) (B : @Skk.rl_Buffer Command).

(** With a marker left of the cursor the trigger converts: the reading
    is the marked text followed by the trigger's letter, the postfix is the
    kana of a vowel and the letter itself otherwise. *)
Lemma Trigger_converts (Key : ascii) M B (pos : Z) :
  Skk.seekMarker B = Some pos -> 0 <= pos ->
  Skk._Trigger_Call Key M B
  = Skk.henkanMode M B pos
      (Skk.SubString B (pos + 1) (Skk.Cursor B) +:+ String Key EmptyString)
      (if 0 <=? Go.IndexByte "aiueo" Key
       then default EmptyString (Skk.table (Skk.kana M) !! Go.string_of_byte Key)
       else Go.string_of_byte Key).
Proof.
  intros Hs Hp. unfold Skk._Trigger_Call.
  now rewrite Hs, (proj2 (Z.leb_le _ _) Hp).
Qed.

(** A commit out of Selecting keeps the postfix that was displayed
    behind the candidate. *)
Lemma selection_commit_has_postfix (f : Skk.Frame) M B (r : Skk.Reply) (cur : Z)
    (pre X suf : list string) (e : string) :
  Session.region B pre X suf -> Skk.markerPos f = Go.len pre ->
  Go.at_ (Skk.list_ f) cur = Some e ->
  Go.lt (Skk.text r) " " = true -> Skk.text r <> Skk.CtrlG ->
  exists B1,
    Skk.show f M B cur = Skk.Wait f (Skk.Selecting cur) M B1 /\
    Skk.step (Skk.Wait f (Skk.Selecting cur) M B1) r
    = Skk.Done Skk.CONTINUE M
        (Session.line B pre (Skk.StringToMoji (Go.before e ";" +:+ Skk.postfix f)) suf).
Proof.
  intros HB Hpos Hat Hlt Hne.
  exists (Session.line B pre
            (Skk.markerBlack :: Skk.StringToMoji (Go.before e ";" +:+ Skk.postfix f)) suf).
  split; [exact (show_region f M B pre X suf cur e HB Hpos Hat)|].
  rewrite (Selecting_control_region f M _ r cur pre Skk.markerBlack _ suf
             (region_line _ _ _ _) Hpos Hlt Hne).
  reflexivity.
Qed.

End Okurigana.

(** C3 at its failing input: with [x▽かz] and the trigger [K] the reading
    is かk and the postfix [k]; the first candidate is displayed as 書k and
    Ctrl-J commits 書k.  After four advances the listing is open, and its
    key [a] commits the fifth candidate 懸 without the postfix. *)
Theorem listing_commit_drops_postfix :
  let c := Skk._Trigger_Call "k" Session.M0 Session.B1 in
  c = Skk.henkanMode Session.M0 Session.B1 1 "かk" "k" /\
  c = Skk.Wait Session.f1 (Skk.Selecting 0) Session.M0 Session.B1s /\
  Skk.run c [Session.key Skk.CtrlJ]
  = Skk.Done Skk.CONTINUE Session.M0 (Skk.set_line Session.B1 ["x"; "書"; "k"; "z"] 3) /\
  Skk.run c (repeat (Session.key " ") 4)
  = Skk.Wait Session.f1 (Skk.Paging 4) Session.M0 Session.B1p /\
  Skk.run c (repeat (Session.key " ") 4 ++ [Session.key "a"])
  = Skk.Done Skk.CONTINUE Session.M0 (Skk.set_line Session.B1 ["x"; "懸"; "z"] 2).
Proof.
  intros c. repeat split; vm_compute; reflexivity.
Qed.

(** ** Registration and purge *)

Section UserDictionary.

Context {Command : Type}.
Implicit Types (M : @Skk.Mode Command) (B : @Skk.rl_Buffer Command).
Implicit Types (f : Skk.Frame) (r : Skk.Reply) (pre X suf : list string).

(** [append(list, ""); copy(list[1:], list); list[0] = newWord] puts the
    word in front of the list. *)
Lemma insert_front (newWord : string) (l : list string) :
  <[0%nat := newWord]> (take 1 (l ++ [EmptyString])
                          ++ Go.copy (drop 1 (l ++ [EmptyString])) l)
  = newWord :: l.
Proof.
  destruct l as [|a t]; [reflexivity|].
  change ((a :: t) ++ [EmptyString]) with (a :: (t ++ [EmptyString])).
  change (take 1 (a :: t ++ [EmptyString])) with [a].
  change (drop 1 (a :: t ++ [EmptyString])) with (t ++ [EmptyString]).
  unfold Go.copy.
  replace (length (t ++ [EmptyString])) with (length (a :: t))
    by (rewrite length_app; cbn [length]; lia).
  rewrite firstn_all.
  replace (drop (length (a :: t)) (t ++ [EmptyString])) with (@nil string).
  - rewrite app_nil_r. reflexivity.
  - symmetry. apply drop_ge. rewrite length_app. cbn [length]. lia.
Qed.

Lemma listed_iff (newWord : string) (l : list string) :
  existsb (fun candidate => Go.eq candidate newWord) l = true <-> newWord ∈ l.
Proof.
  rewrite existsb_exists. split.
  - intros (x & Hin & Heq). apply String.eqb_eq in Heq. subst x.
    now apply list_elem_of_In.
  - intros Hin. exists newWord. split; [now apply list_elem_of_In|].
    apply String.eqb_refl.
Qed.

Lemma empty_word (s : string) :
  (Z.of_nat (String.length s) <=? 0) = true <-> s = EmptyString.
Proof.
  rewrite Z.leb_le. destruct s; simpl; split; intros H; try reflexivity;
    try discriminate; lia.
Qed.

(** What [newCandidate] returns and leaves in the User dictionary. *)
Lemma newCandidate_result M (source : string) r :
  let M1 := Skk.set_User M (Skk.nested r (Skk.User M)) in
  let l := fst (Skk.lookup M1 source) in
  Skk.newCandidate M source r =
  if decide (Skk.err r = false /\ Skk.text r <> EmptyString) then
    (Skk.text r, true,
     if decide (Skk.text r ∈ l) then M1
     else Skk.set_User M1 (<[source := Skk.text r :: l]> (Skk.User M1)))
  else (EmptyString, false, M1).
Proof.
  intros M1 l. unfold Skk.newCandidate. fold M1.
  destruct (Skk.err r) eqn:He.
  { rewrite decide_False by (intros [? ?]; discriminate). reflexivity. }
  cbn [orb].
  destruct (Z.of_nat (String.length (Skk.text r)) <=? 0) eqn:Hlen.
  { apply empty_word in Hlen.
    rewrite decide_False by (intros [? ?]; contradiction). reflexivity. }
  rewrite decide_True.
  2:{ split; [reflexivity|]. intros H. apply empty_word in H. congruence. }
  unfold l. destruct (Skk.lookup M1 source) as [l0 ok]. cbn [fst].
  destruct (existsb (fun candidate => Go.eq candidate (Skk.text r)) l0) eqn:Hex.
  - apply listed_iff in Hex. now rewrite decide_True.
  - rewrite decide_False.
    + now rewrite insert_front.
    + intros Hin. apply listed_iff in Hin. congruence.
Qed.

(** The step out of the registration prompt. *)
Lemma Registering_region f M B r pre X suf :
  Session.region B pre X suf ->
  Skk.markerPos f = Go.len pre ->
  let M1 := Skk.set_User M (Skk.nested r (Skk.User M)) in
  let W := Skk.text r in
  let l := fst (Skk.lookup M1 (Skk.source f)) in
  let M2 := Skk.set_User M1 (<[Skk.source f := W :: l]> (Skk.User M1)) in
  Skk.step (Skk.Wait f Skk.Registering M B) r
  = if decide (Skk.err r = false /\ W <> EmptyString) then
      Skk.Done Skk.CONTINUE (if decide (W ∈ l) then M1 else M2)
        (Session.line B pre (Skk.StringToMoji W) suf)
    else
      Skk.Done Skk.CONTINUE M1
        (Session.line B pre (Skk.markerWhite :: Skk.StringToMoji (Skk.source f)) suf).
Proof.
  intros HB Hpos M1 W l M2.
  cbn [Skk.step]. unfold Skk.on_Registering.
  rewrite newCandidate_result. fold M1 W l M2.
  destruct (decide (Skk.err r = false /\ W <> EmptyString)).
  - rewrite Hpos, (ReplaceAndRepaint_region _ _ _ _ _ HB). reflexivity.
  - rewrite Hpos, (ReplaceAndRepaint_region _ _ _ _ _ HB),
      StringToMoji_markerWhite. reflexivity.
Qed.


(** The in-place removal of the purge deletes the selected candidate
    and keeps the others in order. *)
Lemma purge_shift (l : list string) (current : Z) (e : string) :
  Go.at_ l current = Some e ->
  let c := Z.to_nat current in
  let l1 :=
    if current + 1 <? Go.len l
    then take c l ++ Go.copy (drop c l) (drop (S c) l)
    else l in
  take (length l1 - 1) l1 = take c l ++ drop (S c) l.
Proof.
  intros Hat c l1.
  pose proof (at_Some_range _ _ _ Hat) as Hr.
  unfold Go.at_ in Hat. rewrite (proj2 (Z.leb_le _ _)) in Hat by lia.
  fold c in Hat.
  pose proof (take_drop_middle l c e Hat) as Hl.
  assert (Hc : length (take c l) = c).
  { apply length_take_le. apply lookup_lt_Some in Hat. lia. }
  destruct (split_at (take c l) e (drop (S c) l)) as (_ & Hd & _).
  rewrite Hl, Hc in Hd.
  unfold l1. destruct (current + 1 <? Go.len l) eqn:Hlt.
  - rewrite Hd. apply shift_drop_last.
  - apply Z.ltb_ge in Hlt.
    assert (Hq : drop (S c) l = []).
    { apply drop_ge. unfold Go.len in *. lia. }
    rewrite Hq, app_nil_r.
    rewrite <- Hl at 1 2. rewrite Hq, length_app, Hc. cbn [length].
    replace (c + 1 - 1)%nat with (length (take c l)) by lia.
    apply take_app_length.
Qed.

(** The cells of the backing array after the in-place shift: the
    remaining candidates, then the last cell as it was. *)
Lemma purge_shift_cells (l : list string) (current : Z) (e : string) :
  Go.at_ l current = Some e ->
  let c := Z.to_nat current in
  (if current + 1 <? Go.len l
   then take c l ++ Go.copy (drop c l) (drop (S c) l)
   else l)
  = (take c l ++ drop (S c) l) ++ drop (length l - 1) l.
Proof.
  intros Hat c.
  pose proof (at_Some_range _ _ _ Hat) as Hr.
  unfold Go.at_ in Hat. rewrite (proj2 (Z.leb_le _ _)) in Hat by lia.
  fold c in Hat.
  pose proof (take_drop_middle l c e Hat) as Hl.
  assert (Hc : length (take c l) = c).
  { apply length_take_le. apply lookup_lt_Some in Hat. lia. }
  assert (Hn : length l = (c + S (length (drop (S c) l)))%nat).
  { rewrite <- Hl at 1. rewrite length_app, Hc. reflexivity. }
  assert (Hlast : drop (length l - 1) l
                  = drop (length (drop (S c) l)) (e :: drop (S c) l)).
  { rewrite <- Hl at 2.
    replace (length l - 1)%nat with (length (take c l) + length (drop (S c) l))%nat
      by lia.
    now rewrite drop_app_add'. }
  destruct (current + 1 <? Go.len l) eqn:Hlt.
  - destruct (split_at (take c l) e (drop (S c) l)) as (_ & Hd & _).
    rewrite Hl, Hc in Hd. rewrite Hd, copy_tail, Hlast.
    now rewrite app_assoc.
  - apply Z.ltb_ge in Hlt.
    assert (Hq : drop (S c) l = []).
    { apply drop_ge. unfold Go.len in *. lia. }
    rewrite Hlast, Hq, app_nil_r. cbn [length drop].
    rewrite <- Hl at 1. now rewrite Hq.
Qed.

(** The mode an accepted purge leaves. *)
Lemma Purging_region f M B r (current : Z) pre X suf (e : string) :
  Session.region B pre X suf ->
  Skk.markerPos f = Go.len pre ->
  Go.at_ (Skk.list_ f) current = Some e ->
  Skk.step (Skk.Wait f (Skk.Purging current) M B) r
  = if decide (Skk.err r = false /\ (Skk.text r = "y" \/ Skk.text r = "yes")) then
      let l := Skk.list_ f in
      let i := Z.to_nat current in
      let rest := take i l ++ drop (S i) l in
      Skk.Done Skk.CONTINUE
        (if decide (length l <= 1)%nat
         then Skk.set_User M (delete (Skk.source f) (Skk.User M))
         else
           Skk.set_User
             (if Skk.held_by_System M (Skk.source f)
              then Skk.set_System M
                     (<[Skk.source f := rest ++ drop (length l - 1) l]> (Skk.System M))
              else M)
             (<[Skk.source f := rest]> (Skk.User M)))
        (Session.line B pre [] suf)
    else Skk.Wait f (Skk.Selecting current) M B.
Proof.
  intros HB Hpos Hat. cbn [Skk.step]. unfold Skk.on_Purging.
  destruct (decide (Skk.err r = false /\ (Skk.text r = "y" \/ Skk.text r = "yes")))
    as [[He Hans] | Hno].
  - rewrite He. cbn [negb andb].
    replace (Go.eq (Skk.text r) "y" || Go.eq (Skk.text r) "yes") with true
      by (destruct Hans as [-> | ->]; reflexivity).
    rewrite Hpos, (ReplaceAndRepaint_region _ _ _ _ _ HB), StringToMoji_empty.
    cbv zeta. f_equal.
    destruct (Go.len (Skk.list_ f) <=? 1) eqn:Hlen.
    + apply Z.leb_le in Hlen. rewrite decide_True by (unfold Go.len in Hlen; lia).
      reflexivity.
    + apply Z.leb_gt in Hlen. rewrite decide_False by (unfold Go.len in Hlen; lia).
      rewrite (purge_shift _ _ _ Hat), (purge_shift_cells _ _ _ Hat).
      now destruct (Skk.held_by_System M (Skk.source f)).
  - destruct (Skk.err r) eqn:He; [reflexivity|]. cbn [negb andb].
    destruct (Go.eq (Skk.text r) "y") eqn:Hy.
    { apply String.eqb_eq in Hy. exfalso. apply Hno. auto. }
    destruct (Go.eq (Skk.text r) "yes") eqn:Hyes.
    { apply String.eqb_eq in Hyes. exfalso. apply Hno. auto. }
    reflexivity.
Qed.

(** What an accepted purge leaves in the User dictionary and on the
    line. *)
Lemma Purging_accepted f M B r (current : Z) pre X suf (e : string) :
  Session.region B pre X suf ->
  Skk.markerPos f = Go.len pre ->
  Go.at_ (Skk.list_ f) current = Some e ->
  Skk.err r = false -> Skk.text r = "y" \/ Skk.text r = "yes" ->
  let l := Skk.list_ f in
  let rest := take (Z.to_nat current) l ++ drop (S (Z.to_nat current)) l in
  exists M',
    Skk.step (Skk.Wait f (Skk.Purging current) M B) r
    = Skk.Done Skk.CONTINUE M' (Session.line B pre [] suf) /\
    Skk.User M' !! Skk.source f
    = (if decide (length l <= 1)%nat then None else Some rest) /\
    (forall k, k <> Skk.source f -> Skk.User M' !! k = Skk.User M !! k) /\
    Skk.System M'
    = (if decide (length l <= 1)%nat then Skk.System M
       else if Skk.held_by_System M (Skk.source f)
            then <[Skk.source f := rest ++ drop (length l - 1) l]> (Skk.System M)
            else Skk.System M) /\
    Skk.saveMap M' = Skk.saveMap M /\ Skk.kana M' = Skk.kana M.
Proof.
  intros HB Hpos Hat He Hans l rest.
  rewrite (Purging_region f M B r current pre X suf e HB Hpos Hat).
  rewrite decide_True by auto. cbv zeta. fold l. fold rest.
  eexists. split; [reflexivity|].
  destruct (decide (length l <= 1)%nat).
  - cbn [Skk.User Skk.System Skk.saveMap Skk.kana Skk.set_User].
    split; [apply lookup_delete_eq|].
    split; [intros k Hk; now apply lookup_delete_ne|]. auto.
  - destruct (Skk.held_by_System M (Skk.source f));
      cbn [Skk.User Skk.System Skk.saveMap Skk.kana Skk.set_User Skk.set_System];
      (split; [apply lookup_insert_eq|]);
      (split; [intros k Hk; now apply lookup_insert_ne|]); auto.
Qed.

(** C6: at the purge prompt, exactly an answer [y] or [yes] given without
    error purges: the region and its marker are removed from the line and,
    in the User dictionary, the reading's entry becomes the candidate list
    without the selected candidate, the others in their order, or is
    absent when the list had a single candidate; no other reading of the
    User dictionary changes.  When candidates remain, the next lookup of
    the reading returns them.  After any other answer or an error the
    controller is back in Selecting at the same candidate with the
    dictionaries, the list and the line as they were. *)
Theorem purge_on_yes_only f M B r (current : Z) pre X suf (e : string) :
  Session.region B pre X suf ->
  Skk.markerPos f = Go.len pre ->
  Go.at_ (Skk.list_ f) current = Some e ->
  let l := Skk.list_ f in
  let rest := take (Z.to_nat current) l ++ drop (S (Z.to_nat current)) l in
  if decide (Skk.err r = false /\ (Skk.text r = "y" \/ Skk.text r = "yes")) then
    exists M',
      Skk.step (Skk.Wait f (Skk.Purging current) M B) r
      = Skk.Done Skk.CONTINUE M' (Session.line B pre [] suf) /\
      Skk.User M' !! Skk.source f
      = (if decide (length l <= 1)%nat then None else Some rest) /\
      (forall k, k <> Skk.source f -> Skk.User M' !! k = Skk.User M !! k) /\
      ((1 < length l)%nat -> Skk.lookup M' (Skk.source f) = (rest, true))
  else
    Skk.step (Skk.Wait f (Skk.Purging current) M B) r
    = Skk.Wait f (Skk.Selecting current) M B.
Proof.
  intros HB Hpos Hat l rest.
  destruct (decide (Skk.err r = false /\ (Skk.text r = "y" \/ Skk.text r = "yes")))
    as [[He Hans] | Hno].
  - destruct (Purging_accepted f M B r current pre X suf e HB Hpos Hat He Hans)
      as (M' & Hstep & Hsrc & Hother & _).
    fold l in Hsrc. fold rest in Hsrc.
    exists M'. split; [exact Hstep|]. split; [exact Hsrc|]. split; [exact Hother|].
    intros Hlen. rewrite decide_False in Hsrc by lia.
    apply lookup_exact_hit. rewrite _lookup_unfold. now rewrite Hsrc.
  - rewrite (Purging_region f M B r current pre X suf e HB Hpos Hat).
    now rewrite decide_False.
Qed.

End UserDictionary.

(** ** The key-map snapshot *)

Section KeyMap.

Context {Command : Type}.
Implicit Types (M : @Skk.Mode Command) (B : @Skk.rl_Buffer Command).
Implicit Types (km : gmap string Command) (saved : list (option Command)).

Lemma BindKey_eq km (k : string) (c : option Command) :
  Skk.BindKey km k c !! k = c.
Proof.
  destruct c as [c|]; simpl; [apply lookup_insert_eq | apply lookup_delete_eq].
Qed.

Lemma BindKey_ne km (k k' : string) (c : option Command) :
  k <> k' -> Skk.BindKey km k c !! k' = km !! k'.
Proof.
  intros Hne.
  destruct c as [c|]; simpl; [now apply lookup_insert_ne | now apply lookup_delete_ne].
Qed.

(** Keys outside the restored range keep their binding. *)
Lemma restore_from_other saved (i0 : Z) km (k : string) :
  (forall j, (j < length saved)%nat -> k <> Utf8.EncodeRune (i0 + Z.of_nat j)) ->
  Skk.restore_from i0 saved km !! k = km !! k.
Proof.
  revert i0 km. induction saved as [|c rest IH]; intros i0 km Hk; [reflexivity|].
  cbn [Skk.restore_from]. rewrite IH.
  - apply BindKey_ne. specialize (Hk 0%nat). rewrite Z.add_0_r in Hk.
    intros Heq. apply Hk; [cbn [length]; lia | now symmetry].
  - intros j Hj. replace (i0 + 1 + Z.of_nat j) with (i0 + Z.of_nat (S j)) by lia.
    apply Hk. cbn [length]. lia.
Qed.

(** A key of the range is rebound to what the snapshot holds for it, as
    long as the key codes of the range are distinct. *)
Lemma restore_from_saved saved (i0 : Z) km (j : nat) (c : option Command) :
  NoDup (map (fun n => Utf8.EncodeRune (i0 + Z.of_nat n)) (seq 0 (length saved))) ->
  saved !! j = Some c ->
  Skk.restore_from i0 saved km !! Utf8.EncodeRune (i0 + Z.of_nat j) = c.
Proof.
  revert i0 km j. induction saved as [|c0 rest IH]; intros i0 km j Hnd Hj;
    [discriminate|].
  cbn [Skk.restore_from]. cbn [length seq map] in Hnd.
  apply NoDup_cons in Hnd as [Hnotin Hnd].
  rewrite <- seq_shift, map_map in Hnd, Hnotin.
  destruct j as [|j].
  - injection Hj as ->. rewrite Z.add_0_r in *.
    rewrite restore_from_other; [apply BindKey_eq|].
    intros n Hn Heq. apply Hnotin. rewrite Heq.
    apply list_elem_of_In, in_map_iff. exists n. split.
    + f_equal. lia.
    + apply in_seq. lia.
  - replace (i0 + Z.of_nat (S j)) with (i0 + 1 + Z.of_nat j) by lia.
    apply IH; [|exact Hj].
    erewrite map_ext; [exact Hnd|]. intros n. cbn. f_equal. lia.
Qed.

Lemma key_codes_distinct :
  NoDup (map (fun n => Utf8.EncodeRune (0 + Z.of_nat n)) (seq 0 129)).
Proof. refine (bool_decide_unpack _ _). vm_compute. exact I. Qed.

Lemma backup_snapshot M km :
  Skk.saveMap M = None ->
  Skk.saveMap (Skk.backupKeyMap M km)
  = Some (map (fun i => km !! Utf8.EncodeRune i) (seqZ 0 129)).
Proof.
  intros Hs. unfold Skk.backupKeyMap. rewrite Hs. cbn [Skk.saveMap Skk.set_saveMap].
  rewrite foldl_snoc_map. reflexivity.
Qed.

(** C9: the first [backupKeyMap] records, in key order, what the key map
    binds to each of the 129 key codes [string(i)], [i] from 0 to 0x80;
    once a snapshot is held [backupKeyMap] leaves the mode as it is,
    whatever the key map has become; and [restoreKeyMap] rebinds each key
    of the range to what the snapshot holds for it (unbinding a key that
    was unbound) and touches no other key. *)
Theorem backup_once_restore_verbatim M km :
  Skk.saveMap M = None ->
  let M' := Skk.backupKeyMap M km in
  Skk.saveMap M' = Some (map (fun i => km !! Utf8.EncodeRune i) (seqZ 0 (0x80 + 1))) /\
  (forall km2, Skk.backupKeyMap M' km2 = M') /\
  (forall km2 i, 0 <= i <= 0x80 ->
     Skk.restoreKeyMap M' km2 !! Utf8.EncodeRune i = km !! Utf8.EncodeRune i) /\
  (forall km2 k, (forall i, 0 <= i <= 0x80 -> k <> Utf8.EncodeRune i) ->
     Skk.restoreKeyMap M' km2 !! k = km2 !! k).
Proof.
  intros Hs M'. pose proof (backup_snapshot M km Hs) as Hsnap. fold M' in Hsnap.
  split; [exact Hsnap|]. split.
  { intros km2. unfold Skk.backupKeyMap at 1. now rewrite Hsnap. }
  split.
  - intros km2 i Hi. unfold Skk.restoreKeyMap. rewrite Hsnap. cbn [default from_option id].
    replace i with (0 + Z.of_nat (Z.to_nat i)) at 1 by lia.
    apply restore_from_saved.
    + rewrite length_map, length_seqZ. exact key_codes_distinct.
    + rewrite list_lookup_fmap, lookup_seqZ_lt by lia. cbn. do 3 f_equal. lia.
  - intros km2 k Hk. unfold Skk.restoreKeyMap. rewrite Hsnap. cbn [default from_option id].
    apply restore_from_other. intros j Hj.
    rewrite length_map, length_seqZ in Hj. apply Hk. lia.
Qed.

(** *** Commit and cancel without a marker *)

Lemma seekMarker_from_none (cells : list string) (n : nat) :
  (n <= length cells)%nat ->
  Forall (fun ch => Skk.is_marker ch = false) (take n cells) ->
  Skk.seekMarker_from cells n = Some (-1).
Proof.
  induction n as [|n IH]; intros Hn Hfree; [reflexivity|].
  cbn [Skk.seekMarker_from].
  destruct (cells !! n) as [ch|] eqn:Hch.
  2:{ apply lookup_ge_None in Hch. lia. }
  rewrite Forall_lookup in Hfree.
  rewrite (Hfree n ch) by (rewrite lookup_take_lt by lia; exact Hch).
  apply IH; [lia|]. apply Forall_lookup. intros i x Hix.
  apply lookup_take_Some in Hix as [Hix Hlt].
  apply (Hfree i x). rewrite lookup_take_lt by lia. exact Hix.
Qed.

Lemma seekMarker_none B :
  Session.no_marker_left B -> Skk.seekMarker B = Some (-1).
Proof. intros [Hc Hfree]. now apply seekMarker_from_none. Qed.

(** The key codes of a snapshot of at most 129 entries are distinct. *)
Lemma key_codes_distinct_upto (n : nat) :
  (n <= 129)%nat ->
  NoDup (map (fun j => Utf8.EncodeRune (0 + Z.of_nat j)) (seq 0 n)).
Proof.
  intros Hn. pose proof key_codes_distinct as Hnd.
  replace 129%nat with (n + (129 - n))%nat in Hnd by lia.
  rewrite seq_app, map_app in Hnd. now apply NoDup_app in Hnd as [Hnd _].
Qed.

(** What [restoreKeyMap] binds: each key code of the snapshot to the
    command saved for it, and no other key. *)
Lemma restoreKeyMap_bindings M km :
  let saved := default [] (Skk.saveMap M) in
  (forall k, (forall j, (j < length saved)%nat -> k <> Utf8.EncodeRune (Z.of_nat j)) ->
     Skk.restoreKeyMap M km !! k = km !! k) /\
  ((length saved <= 129)%nat ->
   forall j c, saved !! j = Some c ->
     Skk.restoreKeyMap M km !! Utf8.EncodeRune (Z.of_nat j) = c).
Proof.
  intros saved. unfold Skk.restoreKeyMap. fold saved. split.
  - intros k Hk. apply restore_from_other. intros j Hj. rewrite Z.add_0_l. now apply Hk.
  - intros Hlen j c Hj.
    change (Z.of_nat j) with (0 + Z.of_nat j).
    apply restore_from_saved; [now apply key_codes_distinct_upto | exact Hj].
Qed.

(** C10: when no marker is left of the cursor, the commit command and
    the cancel command both do what [cmdLatinMode] does: the line and the
    cursor stay as they are and the saved snapshot is restored into the
    key map: every key code of the snapshot is bound again to the command
    saved for it (unbound when none was), and the keys outside the
    snapshot keep their binding. *)
Theorem commit_and_cancel_without_marker M B :
  Session.no_marker_left B ->
  let saved := default [] (Skk.saveMap M) in
  let B' := Skk.set_KeyMap B (Skk.restoreKeyMap M (Skk.KeyMap B)) in
  Skk.cmdKakutei M B = Skk.Done Skk.CONTINUE M B' /\
  Skk.cmdCancel M B = Skk.Done Skk.CONTINUE M B' /\
  Skk.cmdLatinMode M B = Skk.Done Skk.CONTINUE M B' /\
  Skk.Buffer B' = Skk.Buffer B /\ Skk.Cursor B' = Skk.Cursor B /\
  (forall k, (forall j, (j < length saved)%nat -> k <> Utf8.EncodeRune (Z.of_nat j)) ->
     Skk.KeyMap B' !! k = Skk.KeyMap B !! k) /\
  ((length saved <= 129)%nat ->
   forall j c, saved !! j = Some c ->
     Skk.KeyMap B' !! Utf8.EncodeRune (Z.of_nat j) = c).
Proof.
  intros Hno saved B'. pose proof (seekMarker_none B Hno) as Hs.
  unfold Skk.cmdKakutei, Skk.cmdCancel. rewrite Hs.
  do 5 (split; [reflexivity|]).
  exact (restoreKeyMap_bindings M (Skk.KeyMap B)).
Qed.

End KeyMap.

(** ** The marker at the exits of the controller *)

Section Marker.

Context {Command : Type} (GoCommand : string -> Command).
Implicit Types (M : @Skk.Mode Command) (B : @Skk.rl_Buffer Command).
Implicit Types (f : Skk.Frame) (r : Skk.Reply) (pre X suf : list string).

(** Scanning left from the end of [X] stops at the marker before it. *)
Lemma seekMarker_from_found pre (m : string) X suf (k : nat) :
  Skk.is_marker m = true ->
  Forall (fun ch => Skk.is_marker ch = false) (take k X) ->
  (k <= length X)%nat ->
  Skk.seekMarker_from (pre ++ (m :: X) ++ suf) (S (length pre + k)) = Some (Go.len pre).
Proof.
  intros Hm. induction k as [|k IH]; intros Hfree Hk.
  - rewrite Nat.add_0_r. cbn [Skk.seekMarker_from].
    rewrite lookup_app_r, Nat.sub_diag by lia. cbn. now rewrite Hm.
  - cbn [Skk.seekMarker_from].
    destruct (X !! k) as [x|] eqn:Hx.
    2:{ apply lookup_ge_None in Hx. lia. }
    rewrite lookup_app_r by lia.
    replace (length pre + S k - length pre)%nat with (S k) by lia.
    cbn [app]. rewrite lookup_cons. rewrite lookup_app_l by lia. rewrite Hx.
    rewrite Forall_lookup in Hfree.
    rewrite (Hfree k x) by (rewrite lookup_take_lt by lia; exact Hx).
    replace (length pre + S k)%nat with (S (length pre + k)) by lia.
    apply IH; [|lia]. apply Forall_lookup. intros i y Hy.
    apply lookup_take_Some in Hy as [Hy Hlt].
    apply (Hfree i y). rewrite lookup_take_lt by lia. exact Hy.
Qed.

Lemma seekMarker_region B pre (m : string) X suf :
  Session.region B pre (m :: X) suf ->
  Skk.is_marker m = true ->
  Forall (fun ch => Skk.is_marker ch = false) X ->
  Skk.seekMarker B = Some (Go.len pre).
Proof.
  intros [Hb Hc] Hm Hfree. unfold Skk.seekMarker. rewrite Hb, Hc.
  replace (Z.to_nat (Go.len pre + Go.len (m :: X)))
    with (S (length pre + length X)) by (unfold Go.len; cbn [length]; lia).
  apply seekMarker_from_found; [exact Hm | | lia].
  now rewrite firstn_all.
Qed.


(** *** At most one marker *)











End Marker.

(** ** The theorems at sample sessions *)

Lemma placeholder_codes_rendered_witness :
  snd (Skk._lookup Session.M0 "とし5") = false /\
  Skk.rxNumber_FindStringIndex "とし5" = Some (6%nat, 7%nat) /\
  Skk._lookup Session.M0 "とし#" = (["#0歳"; "#1才"; "#2;kanji"; "#3#9"], true) /\
  Skk.lookup Session.M0 "とし5" = (["5歳"; "５才"; "五;kanji"; "五5"], true).
Proof.
  assert (H1 : snd (Skk._lookup Session.M0 "とし5") = false) by (vm_compute; reflexivity).
  assert (H2 : Skk.rxNumber_FindStringIndex "とし5" = Some (6%nat, 7%nat))
    by (vm_compute; reflexivity).
  assert (H3 : Skk._lookup Session.M0
                 (Go.slice "とし5" 0 6 +:+ "#" +:+ Go.slice "とし5" 7 (String.length "とし5"))
               = (["#0歳"; "#1才"; "#2;kanji"; "#3#9"], true))
    by (vm_compute; reflexivity).
  split; [exact H1|]. split; [exact H2|]. split; [exact H3|].
  exact (proj1 (proj2 (placeholder_codes_rendered Session.M0 "とし5" 6 7
                         ["#0歳"; "#1才"; "#2;kanji"; "#3#9"] H1 H2 H3))).
Defined.

Lemma purge_on_yes_only_witness :
  Session.region Session.B0s ["x"] ["▼"; "書"; "く"] ["z"] /\
  Skk.markerPos Session.f0 = Go.len ["x"] /\
  Go.at_ (Skk.list_ Session.f0) 0 = Some "書く;write" /\
  (exists M',
     Skk.step (Skk.Wait Session.f0 (Skk.Purging 0) Session.M0 Session.B0s)
       (Session.key "yes")
     = Skk.Done Skk.CONTINUE M' (Session.line Session.B0s ["x"] [] ["z"]) /\
     Skk.User M' !! "かく" = Some ["画く"] /\
     (forall k, k <> "かく" -> Skk.User M' !! k = Skk.User Session.M0 !! k) /\
     ((1 < 2)%nat -> Skk.lookup M' "かく" = (["画く"], true))) /\
  Skk.step (Skk.Wait Session.f0 (Skk.Purging 0) Session.M0 Session.B0s)
    (Session.key "no")
  = Skk.Wait Session.f0 (Skk.Selecting 0) Session.M0 Session.B0s.
Proof.
  assert (H1 : Session.region Session.B0s ["x"] ["▼"; "書"; "く"] ["z"])
    by (split; reflexivity).
  assert (H2 : Skk.markerPos Session.f0 = Go.len ["x"]) by reflexivity.
  assert (H3 : Go.at_ (Skk.list_ Session.f0) 0 = Some "書く;write") by reflexivity.
  split; [exact H1|]. split; [exact H2|]. split; [exact H3|]. split.
  - exact (purge_on_yes_only Session.f0 Session.M0 Session.B0s (Session.key "yes") 0
             ["x"] ["▼"; "書"; "く"] ["z"] "書く;write" H1 H2 H3).
  - exact (purge_on_yes_only Session.f0 Session.M0 Session.B0s (Session.key "no") 0
             ["x"] ["▼"; "書"; "く"] ["z"] "書く;write" H1 H2 H3).
Defined.




(** A candidate that is itself the glyph ▽ is displayed behind the black
    marker; the commit drops the black marker only, and the line is left
    with a marker that [seekMarker] finds. *)
Lemma marker_candidate_stays_after_commit :
  let M := Skk.set_User Session.M0 (<["かく" := ["▽"]]> (Skk.User Session.M0)) in
  Skk.henkanMode M Session.B0 1 "かく" EmptyString
  = Skk.Wait {| Skk.markerPos := 1; Skk.source := "かく"; Skk.postfix := EmptyString;
                Skk.list_ := ["▽"] |}
      (Skk.Selecting 0) M (Skk.set_line Session.B0 ["x"; "▼"; "▽"; "z"] 3) /\
  Skk.run (Skk.henkanMode M Session.B0 1 "かく" EmptyString) [Session.key Skk.CtrlJ]
  = Skk.Done Skk.CONTINUE M (Skk.set_line Session.B0 ["x"; "▽"; "z"] 2) /\
  Skk.seekMarker (Skk.set_line Session.B0 ["x"; "▽"; "z"] 2) = Some 1.
Proof. intros M. repeat split; vm_compute; reflexivity. Qed.

Lemma backup_once_restore_verbatim_witness :
  Skk.saveMap Session.M0 = None /\
  Skk.KeyMap Session.B2 !! Skk.CtrlJ = Some "SKK_KAKUTEI" /\
  Skk.restoreKeyMap (Skk.backupKeyMap Session.M0 (Skk.KeyMap Session.B0))
    (Skk.KeyMap Session.B2) !! Skk.CtrlJ
  = Some "ACCEPT_LINE".
Proof.
  assert (H1 : Skk.saveMap Session.M0 = None) by reflexivity.
  split; [exact H1|]. split; [vm_compute; reflexivity|].
  destruct (backup_once_restore_verbatim Session.M0 (Skk.KeyMap Session.B0) H1)
    as (_ & _ & Hrestore & _).
  assert (H2 : 0 <= 10 <= 128) by lia.
  exact (Hrestore (Skk.KeyMap Session.B2) 10 H2).
Defined.

Lemma commit_and_cancel_without_marker_witness :
  Session.no_marker_left Session.B2 /\
  Skk.KeyMap Session.B2 !! Skk.CtrlJ = Some "SKK_KAKUTEI" /\
  Skk.KeyMap Session.B2 !! "a" = Some "SKK_ROMAJI_a" /\
  exists B',
    Skk.cmdKakutei (Skk.backupKeyMap Session.M0 (Skk.KeyMap Session.B0)) Session.B2
    = Skk.Done Skk.CONTINUE (Skk.backupKeyMap Session.M0 (Skk.KeyMap Session.B0)) B' /\
    Skk.Buffer B' = ["x"; "y"; "z"] /\
    Skk.KeyMap B' !! Skk.CtrlJ = Some "ACCEPT_LINE" /\
    Skk.KeyMap B' !! "a" = Some "SELF_INSERT" /\
    Skk.KeyMap B' !! "b" = None.
Proof.
  assert (H1 : Session.no_marker_left Session.B2).
  { split; [cbn; lia|]. repeat constructor. }
  split; [exact H1|]. split; [vm_compute; reflexivity|].
  split; [vm_compute; reflexivity|].
  destruct (commit_and_cancel_without_marker
              (Skk.backupKeyMap Session.M0 (Skk.KeyMap Session.B0)) Session.B2 H1)
    as (Hk & _ & _ & Hb & _ & _ & Hsaved).
  assert (Hlen : (length (default [] (Skk.saveMap
                    (Skk.backupKeyMap Session.M0 (Skk.KeyMap Session.B0)))) <= 129)%nat)
    by (vm_compute; lia).
  eexists. split; [exact Hk|]. split; [exact Hb|].
  split; [exact (Hsaved Hlen 10%nat (Some "ACCEPT_LINE") eq_refl)|].
  split; [exact (Hsaved Hlen 97%nat (Some "SELF_INSERT") eq_refl)|].
  exact (Hsaved Hlen 98%nat None eq_refl).
Defined.

(** * Further properties of [main.go] *)

(** ** [seekMarker] and [removeOne] *)

Section Cells.

Context {Command : Type}.
Implicit Types (M : @Skk.Mode Command) (B : @Skk.rl_Buffer Command).

Lemma seekMarker_from_past_end (cells : list string) (n : nat) :
  (length cells < n)%nat -> Skk.seekMarker_from cells n = None.
Proof.
  destruct n as [|n]; [lia|]. intros Hn. cbn [Skk.seekMarker_from].
  now rewrite (proj2 (lookup_ge_None cells n)) by lia.
Qed.

Lemma seekMarker_from_nearest (cells : list string) (n : nat) :
  (n <= length cells)%nat ->
  exists i,
    Skk.seekMarker_from cells n = Some i /\
    ((i = -1 /\ Forall (fun ch => Skk.is_marker ch = false) (take n cells)) \/
     (0 <= i < Z.of_nat n /\
      (exists ch, cells !! Z.to_nat i = Some ch /\ Skk.is_marker ch = true) /\
      Forall (fun ch => Skk.is_marker ch = false)
        (take (n - S (Z.to_nat i)) (drop (S (Z.to_nat i)) cells)))).
Proof.
  induction n as [|n IH]; intros Hn.
  - exists (-1). split; [reflexivity|]. left. split; [reflexivity | constructor].
  - cbn [Skk.seekMarker_from].
    destruct (cells !! n) as [ch|] eqn:Hch.
    2:{ apply lookup_ge_None in Hch. lia. }
    destruct (Skk.is_marker ch) eqn:Hm.
    + exists (Z.of_nat n). split; [reflexivity|]. right.
      rewrite Nat2Z.id. split; [lia|]. split; [eauto|].
      replace (S n - S n)%nat with 0%nat by lia. constructor.
    + destruct IH as (i & -> & Hi); [lia|]. exists i. split; [reflexivity|].
      destruct Hi as [[-> Hfree] | (Hr & Hcell & Hfree)].
      * left. split; [reflexivity|].
        rewrite (take_S_r _ _ _ Hch). apply Forall_app. split; [exact Hfree|].
        now constructor.
      * right. split; [lia|]. split; [exact Hcell|].
        replace (S n - S (Z.to_nat i))%nat with (S (n - S (Z.to_nat i))) by lia.
        rewrite (take_S_r _ _ ch).
        -- apply Forall_app. split; [exact Hfree | now constructor].
        -- rewrite lookup_drop. rewrite <- Hch. f_equal. lia.
Qed.

(** X1: [seekMarker] panics exactly when the cursor is past the end of
    the line.  Otherwise it returns -1 when no cell left of the cursor is a
    marker, and else the index of a marker cell left of the cursor such
    that no cell between it and the cursor is a marker: the nearest one. *)
Theorem seekMarker_nearest B :
  let n := Z.to_nat (Skk.Cursor B) in
  match Skk.seekMarker B with
  | None => (length (Skk.Buffer B) < n)%nat
  | Some i =>
    (n <= length (Skk.Buffer B))%nat /\
    ((i = -1 /\
      Forall (fun ch => Skk.is_marker ch = false) (take n (Skk.Buffer B))) \/
     (0 <= i < Skk.Cursor B /\
      (exists ch, Skk.Buffer B !! Z.to_nat i = Some ch /\ Skk.is_marker ch = true) /\
      Forall (fun ch => Skk.is_marker ch = false)
        (take (n - S (Z.to_nat i)) (drop (S (Z.to_nat i)) (Skk.Buffer B)))))
  end.
Proof.
  intros n. unfold Skk.seekMarker. fold n.
  destruct (le_lt_dec n (length (Skk.Buffer B))) as [Hle | Hgt].
  - destruct (seekMarker_from_nearest (Skk.Buffer B) n Hle) as (i & -> & Hi).
    split; [exact Hle|].
    destruct Hi as [Hi | (Hr & Hcell & Hfree)]; [left; exact Hi | right].
    split; [unfold n in *; lia | auto].
  - now rewrite seekMarker_from_past_end.
Qed.

(** X2: with the cursor within the line, [removeOne] succeeds exactly
    for a position inside the line when the cursor is not at the start of
    the line; it then deletes that one cell, keeps the others in order and
    moves the cursor one to the left.  Any other position is a
    slice-bounds panic, and with the cursor at the start of the line the
    repaint panics on the cursor moved before the line. *)
Theorem removeOne_deletes_in_bounds B (pos : Z) :
  Skk.Cursor B <= Go.len (Skk.Buffer B) ->
  Skk.removeOne B pos =
  if decide (0 <= pos < Go.len (Skk.Buffer B) /\ 0 < Skk.Cursor B)
  then Some (Skk.set_line B (delete (Z.to_nat pos) (Skk.Buffer B)) (Skk.Cursor B - 1))
  else None.
Proof.
  intros _. unfold Skk.removeOne.
  destruct (decide (0 <= pos < Go.len (Skk.Buffer B))) as [Hin | Hout].
  - rewrite (proj2 (Z.leb_le 0 pos)), (proj2 (Z.leb_le _ _)) by lia. cbn [andb].
    assert (Hlt : (Z.to_nat pos < length (Skk.Buffer B))%nat)
      by (unfold Go.len in Hin; lia).
    destruct (lookup_lt_is_Some_2 _ _ Hlt) as [e He].
    pose proof (take_drop_middle _ _ _ He) as Hmid.
    assert (Hc : length (take (Z.to_nat pos) (Skk.Buffer B)) = Z.to_nat pos)
      by (apply length_take_le; lia).
    destruct (split_at (take (Z.to_nat pos) (Skk.Buffer B)) e
                (drop (S (Z.to_nat pos)) (Skk.Buffer B))) as (_ & Hd & _).
    rewrite Hmid, Hc in Hd. rewrite Hd, shift_drop_last, <- delete_take_drop.
    unfold Skk.RepaintAfterPrompt. cbn [Skk.Cursor Skk.set_line].
    destruct (decide (0 <= pos < Go.len (Skk.Buffer B) /\ 0 < Skk.Cursor B))
      as [[_ Hcur] | Hno].
    + now rewrite (proj2 (Z.ltb_ge _ _)) by lia.
    + now rewrite (proj2 (Z.ltb_lt _ _)) by lia.
  - rewrite decide_False by tauto.
    destruct (0 <=? pos) eqn:H0; [|reflexivity].
    destruct (pos + 1 <=? Go.len (Skk.Buffer B)) eqn:H1; [|reflexivity].
    apply Z.leb_le in H0, H1. lia.
Qed.

End Cells.

(** ** Opening and leaving a region *)

Section Opening.

Context {Command : Type} (GoCommand : string -> Command).
Implicit Types (M : @Skk.Mode Command) (B : @Skk.rl_Buffer Command).
Implicit Types (pre X suf : list string).

(** With the cursor inside the line, the line is what is left of the
    cursor, an empty region and what is right of it. *)
Lemma region_at_cursor B :
  0 <= Skk.Cursor B ->
  (Z.to_nat (Skk.Cursor B) <= length (Skk.Buffer B))%nat ->
  Session.region B (take (Z.to_nat (Skk.Cursor B)) (Skk.Buffer B)) []
    (drop (Z.to_nat (Skk.Cursor B)) (Skk.Buffer B)) /\
  Go.len (take (Z.to_nat (Skk.Cursor B)) (Skk.Buffer B)) = Skk.Cursor B.
Proof.
  intros H0 Hn.
  assert (Hl : Go.len (take (Z.to_nat (Skk.Cursor B)) (Skk.Buffer B)) = Skk.Cursor B).
  { unfold Go.len. rewrite length_take_le by lia. lia. }
  split; [|exact Hl]. split.
  - cbn [app]. now rewrite take_drop.
  - rewrite Hl. unfold Go.len. cbn [length]. lia.
Qed.

Lemma InsertAndRepaint_at_cursor B (str : string) :
  0 <= Skk.Cursor B ->
  (Z.to_nat (Skk.Cursor B) <= length (Skk.Buffer B))%nat ->
  Skk.InsertAndRepaint B str
  = Session.line B (take (Z.to_nat (Skk.Cursor B)) (Skk.Buffer B))
      (Skk.StringToMoji str) (drop (Z.to_nat (Skk.Cursor B)) (Skk.Buffer B)).
Proof.
  intros H0 Hn. destruct (region_at_cursor B H0 Hn) as [Hreg Hl].
  unfold Skk.InsertAndRepaint. rewrite <- Hl at 1.
  now apply ReplaceAndRepaint_region with (X := []).
Qed.

(** A marker put behind marker-free cells is the one [seekMarker] finds. *)
Lemma seekMarker_fresh_marker B pre suf :
  Forall (fun ch => Skk.is_marker ch = false) pre ->
  Skk.seekMarker (Session.line B pre [Skk.markerWhite] suf) = Some (Go.len pre).
Proof.
  intros _. apply seekMarker_region with (m := Skk.markerWhite) (X := []) (suf := suf);
    [apply region_line | reflexivity | constructor].
Qed.

(** X3: with no marker left of the cursor the trigger inserts the pending
    marker as one cell at the cursor, moves the cursor behind it and hands
    its letter to the romaji automaton; that marker is then the one
    [seekMarker] finds, at the old cursor position. *)
Theorem trigger_opens_region (Key : ascii) M B :
  Session.no_marker_left B ->
  0 <= Skk.Cursor B ->
  let n := Z.to_nat (Skk.Cursor B) in
  let B' := Session.line B (take n (Skk.Buffer B)) [Skk.markerWhite]
              (drop n (Skk.Buffer B)) in
  Skk._Trigger_Call Key M B = Skk.Done (Skk.RomajiCall (Go.string_of_byte Key)) M B' /\
  Skk.Cursor B' = Skk.Cursor B + 1 /\
  Skk.seekMarker B' = Some (Skk.Cursor B).
Proof.
  intros Hno H0 n B'. pose proof Hno as [Hn Hfree].
  destruct (region_at_cursor B H0 Hn) as [Hreg Hl]. fold n in Hl.
  split.
  - unfold Skk._Trigger_Call. rewrite (seekMarker_none B Hno).
    cbn [Z.leb]. now rewrite InsertAndRepaint_at_cursor.
  - split.
    + unfold B'. cbn [Session.line Skk.set_line Skk.Cursor]. rewrite Hl.
      reflexivity.
    + unfold B'. rewrite seekMarker_fresh_marker by exact Hfree. now rewrite Hl.
Qed.

(** X4: with no marker left of the cursor the abbreviation command
    restores the saved key map, inserts the pending marker at the cursor
    and binds the space key to its conversion command; called again right
    after, it changes nothing. *)
Theorem abbrev_mode_opens_region_once M B :
  Session.no_marker_left B ->
  0 <= Skk.Cursor B ->
  let n := Z.to_nat (Skk.Cursor B) in
  let B' :=
    Skk.set_KeyMap
      (Session.line B (take n (Skk.Buffer B)) [Skk.markerWhite] (drop n (Skk.Buffer B)))
      (<[" " := GoCommand "SKK_ABBREV_START_HENKAN"]>
         (Skk.restoreKeyMap M (Skk.KeyMap B))) in
  Skk.cmdAbbrevMode GoCommand M B = Skk.Done Skk.CONTINUE M B' /\
  Skk.cmdAbbrevMode GoCommand M B' = Skk.Done Skk.CONTINUE M B'.
Proof.
  intros Hno H0 n B'. pose proof Hno as [Hn Hfree].
  destruct (region_at_cursor B H0 Hn) as [Hreg Hl]. fold n in Hl.
  split.
  - unfold Skk.cmdAbbrevMode. rewrite (seekMarker_none B Hno). cbn [Z.leb].
    rewrite InsertAndRepaint_at_cursor by assumption. reflexivity.
  - unfold Skk.cmdAbbrevMode.
    assert (Hs : Skk.seekMarker B' = Some (Skk.Cursor B)).
    { rewrite <- Hl.
      exact (seekMarker_fresh_marker
               (Skk.set_KeyMap B (<[" " := GoCommand "SKK_ABBREV_START_HENKAN"]>
                                    (Skk.restoreKeyMap M (Skk.KeyMap B))))
               (take n (Skk.Buffer B)) (drop n (Skk.Buffer B)) Hfree). }
    rewrite Hs. now rewrite (proj2 (Z.leb_le _ _) H0).
Qed.

(** X5: with no marker left of the cursor the conversion key is an
    ordinary space: one space cell goes in at the cursor, nothing is looked
    up and the dictionaries stay as they are. *)
Theorem start_henkan_without_marker_inserts_space M B :
  Session.no_marker_left B ->
  0 <= Skk.Cursor B ->
  let n := Z.to_nat (Skk.Cursor B) in
  Skk.cmdStartHenkan M B
  = Skk.Done Skk.CONTINUE M
      (Session.line B (take n (Skk.Buffer B)) [" "] (drop n (Skk.Buffer B))).
Proof.
  intros Hno H0 n. pose proof Hno as [Hn Hfree].
  unfold Skk.cmdStartHenkan. rewrite (seekMarker_none B Hno). cbn [Z.ltb Z.compare].
  now rewrite InsertAndRepaint_at_cursor.
Qed.

(** The text between the marker and the cursor. *)
Lemma SubString_region B pre (m : string) X suf :
  Session.region B pre (m :: X) suf ->
  Skk.SubString B (Go.len pre + 1) (Skk.Cursor B) = foldr String.append EmptyString X.
Proof.
  intros [Hb Hc]. unfold Skk.SubString. rewrite Hb, Hc.
  replace (Z.to_nat (Go.len pre + 1)) with (length (pre ++ [m]))
    by (unfold Go.len; rewrite length_app; cbn [length]; lia).
  replace (pre ++ (m :: X) ++ suf) with ((pre ++ [m]) ++ X ++ suf)
    by (rewrite <- app_assoc; reflexivity).
  rewrite drop_app_length.
  replace (Z.to_nat (Go.len pre + Go.len (m :: X)) - length (pre ++ [m]))%nat
    with (length X)
    by (unfold Go.len; rewrite length_app; cbn [length]; lia).
  now rewrite take_app_length.
Qed.

(** X6: with the pending marker active, the conversion key converts the
    text between the marker and the cursor, marker excluded, with no
    postfix.  When each cell of that text holds one code point, cancelling
    at once gives the line back exactly: by Ctrl-G or the back key at the
    first candidate of a found reading, and by an empty or failed answer to
    the registration prompt of an unknown one. *)
Theorem start_henkan_then_cancel_restores_line M B pre X suf :
  Session.region B pre (Skk.markerWhite :: X) suf ->
  Forall (fun ch => Skk.is_marker ch = false) X ->
  let source := foldr String.append EmptyString X in
  Skk.StringToMoji source = X ->
  Skk.cmdStartHenkan M B = Skk.henkanMode M B (Go.len pre) source EmptyString /\
  forall r,
    match Skk.lookup M source with
    | (l, true) =>
      l <> [] -> Skk.text r = Skk.CtrlG \/ Skk.text r = "x" ->
      Skk.run (Skk.cmdStartHenkan M B) [r] = Skk.Done Skk.CONTINUE M B
    | (_, false) =>
      Skk.err r = true \/ Skk.text r = EmptyString ->
      Skk.run (Skk.cmdStartHenkan M B) [r]
      = Skk.Done Skk.CONTINUE (Skk.set_User M (Skk.nested r (Skk.User M))) B
    end.
Proof.
  intros HB Hfree source Hmoji.
  pose proof (len_nonneg pre) as Hpre.
  assert (Hstart : Skk.cmdStartHenkan M B
                   = Skk.henkanMode M B (Go.len pre) source EmptyString).
  { unfold Skk.cmdStartHenkan.
    rewrite (seekMarker_region B pre _ X suf HB eq_refl Hfree).
    rewrite (proj2 (Z.ltb_ge _ _)) by lia.
    now rewrite (SubString_region B pre _ X suf HB). }
  split; [exact Hstart|]. intros r. rewrite Hstart.
  assert (Hback : Session.line B pre (Skk.markerWhite :: Skk.StringToMoji source) suf = B).
  { rewrite Hmoji. symmetry. now apply region_eq. }
  unfold Skk.henkanMode.
  destruct (Skk.lookup M source) as [l [|]]; cbn [negb].
  - intros Hl Hkey. destruct l as [|e l]; [congruence|].
    set (f := {| Skk.markerPos := Go.len pre; Skk.source := source;
                 Skk.postfix := EmptyString; Skk.list_ := e :: l |}).
    rewrite (show_region f M B pre _ suf 0 e HB eq_refl eq_refl).
    cbn [Skk.run foldl Skk.step].
    destruct Hkey as [Hk | Hk].
    + rewrite Selecting_cancel by exact Hk.
      rewrite (cancel_region f M _ pre _ suf (region_line _ _ _ _) eq_refl).
      cbn [Skk.source f]. f_equal. exact Hback.
    + rewrite Selecting_back by exact Hk. cbn [Z.ltb Z.sub Z.compare Z.add Z.opp Z.pos_sub].
      rewrite (cancel_region f M _ pre _ suf (region_line _ _ _ _) eq_refl).
      cbn [Skk.source f]. f_equal. exact Hback.
  - intros Hfail.
    set (f := {| Skk.markerPos := Go.len pre; Skk.source := source;
                 Skk.postfix := EmptyString; Skk.list_ := l |}).
    cbn [Skk.run foldl].
    rewrite (Registering_region f M B r pre _ suf HB eq_refl).
    rewrite decide_False by (intros [He Hw]; destruct Hfail; congruence).
    cbn [Skk.source f]. f_equal. exact Hback.
Qed.

End Opening.

(** ** What the candidate loop keeps *)

Section LoopInvariant.

Context {Command : Type}.
Implicit Types (M : @Skk.Mode Command) (B : @Skk.rl_Buffer Command).
Implicit Types (f : Skk.Frame) (r : Skk.Reply) (pre X suf : list string).
Implicit Types (km : gmap string Command) (c : @Skk.Ctl Command).

Lemma not_past_end_Selecting f (current : Z) r :
  ~ Loop.row_key_past_end f (Skk.Selecting current) r.
Proof. intros (cur & Hp & _). discriminate Hp. Qed.

Lemma in_loop_Done M km pre suf (source : string) (ret : Skk.Return) B Y :
  Skk.KeyMap B = km ->
  Loop.in_loop M km pre suf source (Skk.Done ret M (Session.line B pre Y suf)).
Proof.
  intros Hk. cbn. repeat split; try assumption.
  exists Y. apply region_line.
Qed.

Lemma ok_cancel M km pre suf f B (m : string) X :
  Session.region B pre (m :: X) suf -> Skk.markerPos f = Go.len pre ->
  Skk.KeyMap B = km ->
  (forall M' B', Skk.cancel f M B <> Skk.Done Skk.Panic M' B') /\
  Loop.in_loop M km pre suf (Skk.source f) (Skk.cancel f M B).
Proof.
  intros HB Hpos Hk. rewrite (cancel_region f M B pre _ suf HB Hpos).
  split; [discriminate | now apply in_loop_Done].
Qed.

Lemma ok_commit M km pre suf f B (m : string) X (ret : Skk.Return) :
  Session.region B pre (m :: X) suf -> Skk.markerPos f = Go.len pre ->
  Skk.KeyMap B = km -> ret <> Skk.Panic ->
  (forall M' B', Skk.commit ret f M B <> Skk.Done Skk.Panic M' B') /\
  Loop.in_loop M km pre suf (Skk.source f) (Skk.commit ret f M B).
Proof.
  intros HB Hpos Hk Hret. rewrite (commit_region ret f M B pre m X suf HB Hpos).
  split; [congruence | now apply in_loop_Done].
Qed.

Lemma ok_show M km pre suf f B (m : string) X (current : Z) :
  Session.region B pre (m :: X) suf -> Skk.markerPos f = Go.len pre ->
  Skk.KeyMap B = km -> 0 <= current < Go.len (Skk.list_ f) ->
  (forall M' B', Skk.show f M B current <> Skk.Done Skk.Panic M' B') /\
  Loop.in_loop M km pre suf (Skk.source f) (Skk.show f M B current).
Proof.
  intros HB Hpos Hk Hc. destruct (at_in_range _ _ Hc) as [e He].
  rewrite (show_region f M B pre _ suf current e HB Hpos He).
  split; [discriminate|]. cbn. repeat split; try assumption; try lia.
  eexists _, _. apply region_line.
Qed.

Lemma ok_listing M km pre suf f B (m : string) X (current : Z) :
  Session.region B pre (m :: X) suf -> Skk.markerPos f = Go.len pre ->
  Skk.KeyMap B = km ->
  Skk.listingStartIndex <= current <= Go.len (Skk.list_ f) ->
  Skk.listingStartIndex < Go.len (Skk.list_ f) ->
  (forall M' B', Skk.listing f M B current <> Skk.Done Skk.Panic M' B') /\
  Loop.in_loop M km pre suf (Skk.source f) (Skk.listing f M B current).
Proof.
  unfold Skk.listingStartIndex. intros HB Hpos Hk Hc Hlen.
  rewrite listing_waits by lia.
  split; [discriminate|]. cbn. unfold Skk.listingStartIndex.
  repeat split; try assumption; try lia. eauto.
Qed.

Lemma ok_wait M km pre suf f B (m : string) X (p : Skk.Point) :
  Session.region B pre (m :: X) suf -> Skk.markerPos f = Go.len pre ->
  Skk.KeyMap B = km -> Loop.point_ok f p ->
  (forall M' B', Skk.Wait f p M B <> Skk.Done Skk.Panic M' B') /\
  Loop.in_loop M km pre suf (Skk.source f) (Skk.Wait f p M B).
Proof.
  intros HB Hpos Hk Hp. split; [discriminate|].
  cbn. repeat split; try assumption. eauto.
Qed.

Lemma step_Selecting_outcome M km pre suf f B (m : string) X (current : Z) r :
  Session.region B pre (m :: X) suf -> Skk.markerPos f = Go.len pre ->
  Skk.KeyMap B = km -> 0 <= current < Go.len (Skk.list_ f) ->
  Loop.step_outcome M km pre suf (Skk.source f) f (Skk.Selecting current) B r.
Proof.
  intros HB Hpos Hk Hc. right.
  split; [apply not_past_end_Selecting|].
  cbn [Skk.step]. unfold Skk.on_Selecting.
  destruct (Go.eq (Skk.text r) Skk.CtrlG); [now apply ok_cancel with (m := m) (X := X)|].
  destruct (Go.lt (Skk.text r) " ");
    [apply ok_commit with (m := m) (X := X); (assumption || discriminate)|].
  destruct (Go.eq (Skk.text r) " ").
  { destruct (Go.len (Skk.list_ f) <=? current + 1) eqn:Hend.
    - now apply ok_wait with (m := m) (X := X).
    - apply Z.leb_gt in Hend.
      destruct (Skk.listingStartIndex <=? current + 1) eqn:H4.
      + apply Z.leb_le in H4.
        apply ok_listing with (m := m) (X := X); try assumption; lia.
      + apply ok_show with (m := m) (X := X); try assumption; lia. }
  destruct (Go.eq (Skk.text r) "x").
  { destruct (current - 1 <? 0) eqn:Hneg.
    - now apply ok_cancel with (m := m) (X := X).
    - apply Z.ltb_ge in Hneg.
      apply ok_show with (m := m) (X := X); try assumption; lia. }
  destruct (Go.eq (Skk.text r) "X").
  { destruct (at_in_range _ _ Hc) as [e ->].
    now apply ok_wait with (m := m) (X := X). }
  apply ok_commit with (m := m) (X := X); (assumption || discriminate).
Qed.

Lemma step_Paging_outcome M km pre suf f B (m : string) X (current : Z) r :
  Session.region B pre (m :: X) suf -> Skk.markerPos f = Go.len pre ->
  Skk.KeyMap B = km ->
  Skk.listingStartIndex <= current <= Go.len (Skk.list_ f) ->
  Skk.listingStartIndex < Go.len (Skk.list_ f) ->
  Loop.step_outcome M km pre suf (Skk.source f) f (Skk.Paging current) B r.
Proof.
  unfold Skk.listingStartIndex. intros HB Hpos Hk Hc Hlen.
  assert (H0 : 0 <= current) by lia.
  unfold Loop.step_outcome. cbn [Skk.step]. unfold Skk.on_Paging.
  destruct (page_end (Skk.list_ f) current H0) as [text ->].
  destruct (Skk.err r) eqn:He.
  { right. split; [intros (cur & _ & He' & _); congruence|].
    apply ok_listing with (m := m) (X := X); (assumption || unfold Skk.listingStartIndex; lia). }
  destruct (0 <=? Go.Index "asdfjkl:" (Skk.text r)) eqn:Hi.
  { apply Z.leb_le in Hi.
    destruct (Go.at_ (Skk.list_ f) (current + Go.Index "asdfjkl:" (Skk.text r)))
      as [e|] eqn:Hat.
    - right. pose proof (at_Some_range _ _ _ Hat) as Hr.
      split; [intros (cur & Hp & _ & _ & Hpast); injection Hp as <-; lia|].
      rewrite Hpos, (ReplaceAndRepaint_region _ _ _ _ _ HB).
      split; [discriminate | now apply in_loop_Done].
    - left. split; [|reflexivity].
      exists current. repeat split; try assumption.
      destruct (Z.le_gt_cases (Go.len (Skk.list_ f))
                  (current + Go.Index "asdfjkl:" (Skk.text r))) as [H|H]; [exact H|].
      destruct (at_in_range (Skk.list_ f)
                  (current + Go.Index "asdfjkl:" (Skk.text r))) as [e He'];
        [lia | congruence]. }
  apply Z.leb_gt in Hi. right.
  split; [intros (cur & _ & _ & Hidx & _); lia|].
  destruct (Go.eq (Skk.text r) " ").
  { apply ok_listing with (m := m) (X := X); try assumption;
      unfold Skk.listingStartIndex;
      destruct (Go.len (Skk.list_ f) <=? current); lia. }
  destruct (Go.eq (Skk.text r) "x").
  { change (Z.of_nat (String.length "ASDFJKL:")) with 8.
    destruct (current - 8 <? Skk.listingStartIndex) eqn:Hlow;
      unfold Skk.listingStartIndex in Hlow.
    - apply Z.ltb_lt in Hlow.
      apply ok_wait with (m := m) (X := X); try assumption.
      cbn. destruct (current - 8 <? 0) eqn:Hneg; [lia|].
      apply Z.ltb_ge in Hneg. lia.
    - apply Z.ltb_ge in Hlow.
      apply ok_listing with (m := m) (X := X); try assumption;
        unfold Skk.listingStartIndex; lia. }
  destruct (Go.eq (Skk.text r) Skk.CtrlG); [now apply ok_cancel with (m := m) (X := X)|].
  apply ok_listing with (m := m) (X := X); (assumption || unfold Skk.listingStartIndex; lia).
Qed.

Lemma step_Registering_outcome M km pre suf f B (m : string) X r :
  Session.region B pre (m :: X) suf -> Skk.markerPos f = Go.len pre ->
  Skk.KeyMap B = km ->
  Loop.step_outcome M km pre suf (Skk.source f) f Skk.Registering B r.
Proof.
  intros HB Hpos Hk. right.
  split; [intros (cur & Hp & _); discriminate Hp|].
  rewrite (Registering_region f M B r pre _ suf HB Hpos).
  destruct (decide (Skk.err r = false /\ Skk.text r <> EmptyString)).
  - split; [discriminate|]. cbn. destruct (decide _); cbn;
      repeat split; try assumption; eexists; apply region_line.
  - split; [discriminate|]. cbn.
    repeat split; try assumption; eexists; apply region_line.
Qed.

Lemma step_Purging_outcome M km pre suf f B (m : string) X (current : Z) r :
  Session.region B pre (m :: X) suf -> Skk.markerPos f = Go.len pre ->
  Skk.KeyMap B = km -> 0 <= current < Go.len (Skk.list_ f) ->
  Loop.step_outcome M km pre suf (Skk.source f) f (Skk.Purging current) B r.
Proof.
  intros HB Hpos Hk Hc. right.
  split; [intros (cur & Hp & _); discriminate Hp|].
  destruct (at_in_range _ _ Hc) as [e He].
  destruct (decide (Skk.err r = false /\ (Skk.text r = "y" \/ Skk.text r = "yes")))
    as [[Herr Hans] | Hno].
  - destruct (Purging_accepted f M B r current pre _ suf e HB Hpos He Herr Hans)
      as (M' & -> & _ & _ & _ & Hsm & Hka).
    split; [discriminate|]. cbn.
    repeat split; try assumption; eexists; apply region_line.
  - rewrite (Purging_region f M B r current pre _ suf e HB Hpos He).
    rewrite decide_False by exact Hno.
    now apply ok_wait with (m := m) (X := X).
Qed.

Lemma step_outcome_in_loop M km pre suf (source : string) f (p : Skk.Point) B r :
  Loop.in_loop M km pre suf source (Skk.Wait f p M B) ->
  Loop.step_outcome M km pre suf source f p B r.
Proof.
  intros (_ & Hpos & <- & Hp & Hk & m & X & HB).
  destruct p as [current | current | | current]; cbn in Hp.
  - now apply step_Selecting_outcome with (m := m) (X := X).
  - destruct Hp. now apply step_Paging_outcome with (m := m) (X := X).
  - now apply step_Registering_outcome with (m := m) (X := X).
  - now apply step_Purging_outcome with (m := m) (X := X).
Qed.

Lemma step_in_loop M km pre suf (source : string) c r :
  Loop.in_loop M km pre suf source c ->
  Loop.in_loop M km pre suf source (Skk.step c r).
Proof.
  intros Hc. destruct c as [f p M' B | ret M' B]; [|exact Hc].
  pose proof Hc as (-> & _).
  destruct (step_outcome_in_loop M km pre suf source f p B r Hc)
    as [[Hpast ->] | (_ & _ & Hin)]; [|exact Hin].
  destruct Hc as (_ & _ & _ & _ & Hk & m & X & HB).
  cbn. repeat split; try assumption. eauto.
Qed.

Lemma run_in_loop M km pre suf (source : string) c (replies : list Skk.Reply) :
  Loop.in_loop M km pre suf source c ->
  Loop.in_loop M km pre suf source (Skk.run c replies).
Proof.
  revert c. induction replies as [|r rs IH]; intros c Hc; [exact Hc|].
  rewrite run_cons. apply IH. now apply step_in_loop.
Qed.

Lemma henkanMode_in_loop M B pre (m : string) X suf (source postfix : string) :
  Session.region B pre (m :: X) suf ->
  Loop.in_loop M (Skk.KeyMap B) pre suf source
    (Skk.henkanMode M B (Go.len pre) source postfix).
Proof.
  intros HB. unfold Skk.henkanMode.
  destruct (Skk.lookup M source) as [l [|]]; cbn [negb].
  - unfold Skk.show. cbn [Skk.list_ Skk.markerPos Skk.postfix].
    destruct (Go.at_ l 0) as [e|] eqn:Hat.
    + pose proof (at_Some_range _ _ _ Hat) as Hr.
      rewrite (ReplaceAndRepaint_region _ _ _ _ _ HB), StringToMoji_markerBlack.
      cbn. repeat split; try lia. eexists _, _. apply region_line.
    + cbn. repeat split. eauto.
  - cbn. repeat split. eauto.
Qed.

(** X7: whatever the host replies during a conversion started by
    [henkanMode], the line outside the region between the marker position
    and the cursor is never written, the key map is never changed, and the
    saved key map and the kana table of the mode stay as they were; until
    the controller returns, the dictionaries are as they were too and its
    index is within the bounds of the candidate list. *)
Theorem conversion_keeps_line_and_key_map M B pre (m : string) X suf
    (source postfix : string) (replies : list Skk.Reply) :
  Session.region B pre (m :: X) suf ->
  Loop.in_loop M (Skk.KeyMap B) pre suf source
    (Skk.run (Skk.henkanMode M B (Go.len pre) source postfix) replies).
Proof.
  intros HB. apply run_in_loop. now apply henkanMode_in_loop with (m := m) (X := X).
Qed.

(** X8: inside a conversion the only step that panics is a key of the
    row [asdfjkl:] pressed in the listing for a position at or past the end
    of the candidate list, and every such key panics. *)
Theorem only_row_key_past_end_panics M km pre suf (source : string) f
    (p : Skk.Point) B r :
  Loop.in_loop M km pre suf source (Skk.Wait f p M B) ->
  (exists M' B', Skk.step (Skk.Wait f p M B) r = Skk.Done Skk.Panic M' B')
  <-> Loop.row_key_past_end f p r.
Proof.
  intros Hc.
  destruct (step_outcome_in_loop M km pre suf source f p B r Hc)
    as [[Hpast Hstep] | (Hnot & Hnp & _)].
  - split; [intros _; exact Hpast | intros _; eauto].
  - split; [intros (M' & B' & Heq); now destruct (Hnp M' B') | contradiction].
Qed.

End LoopInvariant.

(** ** Entering and leaving kana mode *)

Section Switcher.

Context {Command : Type}.
Context (GoCommand : string -> Command).
Context (_Romaji : Skk._Kana -> string -> Command).
Context (_Trigger : ascii -> Command).
Context (romajiTrigger : string) (hiragana : Skk._Kana).
Context (kanaTable : nat -> Skk._Kana).
Implicit Types (M : @Skk.Mode Command) (B : @Skk.rl_Buffer Command).
Implicit Types (km : gmap string Command).

Lemma ascii_key_saved (c : ascii) :
  (Utf8.byte_val c <? 128) = true -> Bindings.saved_key (String c EmptyString).
Proof.
  intros H. exists (Utf8.byte_val c). split.
  - apply Z.ltb_lt in H. unfold Utf8.byte_val in *. lia.
  - destruct c as [[] [] [] [] [] [] [] []];
      try (vm_compute in H; discriminate H); reflexivity.
Qed.

Lemma saved_key_dec (k : string) : Bindings.saved_key k \/ ~ Bindings.saved_key k.
Proof.
  destruct (decide (k ∈ map Utf8.EncodeRune (seqZ 0 129))) as [Hin | Hout].
  - left. apply list_elem_of_In, in_map_iff in Hin as (i & <- & Hi).
    apply list_elem_of_In, elem_of_seqZ in Hi. exists i. split; [lia | reflexivity].
  - right. intros (i & Hi & ->). apply Hout.
    apply list_elem_of_In, in_map_iff. exists i. split; [reflexivity|].
    apply list_elem_of_In, elem_of_seqZ. lia.
Qed.

Lemma backup_holds_snapshot M km :
  Skk.saveMap M = None ->
  Skk.saveMap (Skk.backupKeyMap M km) = Some (Bindings.snapshot km).
Proof. apply backup_snapshot. Qed.

(** Restoring a snapshot over a key map that differs from the saved one
    at saved key codes only gives the saved key map back. *)
Lemma restore_gives_back M km0 km :
  Bindings.kana_mode km0 M km -> Skk.restoreKeyMap M km = km0.
Proof.
  intros [Hsnap Hagree]. apply map_eq. intros k.
  unfold Skk.restoreKeyMap. rewrite Hsnap. cbn [default from_option id].
  destruct (saved_key_dec k) as [(i & Hi & ->) | Hno].
  - replace i with (0 + Z.of_nat (Z.to_nat i)) at 1 by lia.
    erewrite restore_from_saved; [reflexivity | |].
    + unfold Bindings.snapshot. rewrite length_map, length_seqZ.
      exact key_codes_distinct.
    + unfold Bindings.snapshot.
      rewrite list_lookup_fmap, lookup_seqZ_lt by lia. cbn. do 3 f_equal. lia.
  - rewrite restore_from_other; [now apply Hagree|].
    intros j Hj Heq. apply Hno. exists (0 + Z.of_nat j).
    unfold Bindings.snapshot in Hj. rewrite length_map, length_seqZ in Hj.
    split; [lia | exact Heq].
Qed.

Lemma bind_saved_agrees km0 km (k : string) (c : option Command) :
  Bindings.saved_key k ->
  (forall k', ~ Bindings.saved_key k' -> km !! k' = km0 !! k') ->
  forall k', ~ Bindings.saved_key k' -> Skk.BindKey km k c !! k' = km0 !! k'.
Proof.
  intros Hk Hagree k' Hk'. rewrite BindKey_ne; [now apply Hagree|].
  intros ->. contradiction.
Qed.

Lemma foldl_bind_saved_agrees {A} (keyf : A -> string) (cmdf : A -> Command)
    (l : list A) km0 km :
  Forall (fun x => Bindings.saved_key (keyf x)) l ->
  (forall k', ~ Bindings.saved_key k' -> km !! k' = km0 !! k') ->
  forall k', ~ Bindings.saved_key k' ->
    foldl (fun km x => Skk.BindKey km (keyf x) (Some (cmdf x))) km l !! k' = km0 !! k'.
Proof.
  revert km. induction l as [|x l IH]; intros km Hl Hagree; [exact Hagree|].
  apply Forall_cons in Hl as [Hx Hl]. cbn [foldl]. apply IH; [exact Hl|].
  now apply bind_saved_agrees.
Qed.

(** *** The keys of [romajiTrigger] *)

Lemma starts_from_bound (s : string) (skip idx : nat) :
  Forall (fun i => (idx <= i < idx + String.length s)%nat)
    (Bindings.starts_from skip idx s).
Proof.
  revert skip idx. induction s as [|c s IH]; intros skip idx; [constructor|].
  cbn [Bindings.starts_from String.length].
  destruct skip as [|k].
  - constructor; [lia|]. eapply Forall_impl; [apply IH|]. cbn. intros; lia.
  - eapply Forall_impl; [apply IH|]. cbn. intros; lia.
Qed.

Lemma slice_one_byte (s : string) (i : nat) :
  (i < String.length s)%nat ->
  exists c, String.get i s = Some c /\ Go.slice s i (i + 1) = String c EmptyString.
Proof.
  unfold Go.slice. replace (i + 1 - i)%nat with 1%nat by lia.
  revert i. induction s as [|c s IH]; intros i Hi; cbn [String.length] in Hi; [lia|].
  destruct i as [|i].
  - exists c. split; [reflexivity|]. cbn. now destruct s.
  - destruct (IH i) as (c' & Hg & Hs); [lia|]. exists c'. split; assumption.
Qed.

Lemma all_bytes_get (p : ascii -> bool) (s : string) (i : nat) (c : ascii) :
  Spec.all_bytes p s = true -> String.get i s = Some c -> p c = true.
Proof.
  revert i. induction s as [|a s IH]; intros i Hall Hg; [discriminate|].
  cbn in Hall. apply andb_prop in Hall as [Ha Hs].
  destruct i as [|i]; cbn in Hg; [injection Hg as <-; exact Ha | eauto].
Qed.

Lemma romaji_keys_saved :
  Bindings.ascii_only romajiTrigger ->
  Forall (fun i => Bindings.saved_key (Go.slice romajiTrigger i (i + 1)))
    (Bindings.starts romajiTrigger).
Proof.
  intros Hascii. eapply Forall_impl; [apply starts_from_bound|].
  cbn. intros i Hi.
  destruct (slice_one_byte romajiTrigger i) as (c & Hg & ->); [lia|].
  apply ascii_key_saved. exact (all_bytes_get _ _ _ _ Hascii Hg).
Qed.

Lemma upper_keys_saved :
  Forall (fun c => Bindings.saved_key (String c EmptyString))
    (list_ascii_of_string Bindings.upperRomaji).
Proof. repeat constructor; apply ascii_key_saved; reflexivity. Qed.

Lemma enableRomaji_agrees (K : Skk._Kana) km0 km :
  Bindings.ascii_only romajiTrigger ->
  (forall k', ~ Bindings.saved_key k' -> km !! k' = km0 !! k') ->
  forall k', ~ Bindings.saved_key k' ->
    Bindings.enableRomaji GoCommand _Romaji _Trigger romajiTrigger K km !! k'
    = km0 !! k'.
Proof.
  intros Hascii Hagree. unfold Bindings.enableRomaji.
  apply (foldl_bind_saved_agrees (fun c => String c EmptyString)
           (fun c => _Trigger (Bindings.ToLower c))); [apply upper_keys_saved|].
  apply bind_saved_agrees; [apply ascii_key_saved; reflexivity|].
  apply bind_saved_agrees; [apply ascii_key_saved; reflexivity|].
  apply (foldl_bind_saved_agrees (fun i => Go.slice romajiTrigger i (i + 1))
           (fun i => _Romaji K (Go.slice romajiTrigger i (i + 1))));
    [now apply romaji_keys_saved | exact Hagree].
Qed.

Lemma enableHiragana_agrees M km0 km :
  Bindings.ascii_only romajiTrigger ->
  (forall k', ~ Bindings.saved_key k' -> km !! k' = km0 !! k') ->
  forall k', ~ Bindings.saved_key k' ->
    snd (Bindings.enableHiragana GoCommand _Romaji _Trigger romajiTrigger hiragana M km)
      !! k' = km0 !! k'.
Proof.
  intros Hascii Hagree. unfold Bindings.enableHiragana. cbn [snd].
  do 5 (apply bind_saved_agrees; [apply ascii_key_saved; reflexivity|]).
  now apply enableRomaji_agrees.
Qed.

Lemma jis_keys_agree km0 km :
  (forall k', ~ Bindings.saved_key k' -> km !! k' = km0 !! k') ->
  forall k', ~ Bindings.saved_key k' ->
    foldl (fun km i =>
             Skk.BindKey km (Utf8.EncodeRune i)
               (Some (GoCommand (Bindings.jis_insert_name i))))
          km (seqZ 32 (127 - 32)) !! k' = km0 !! k'.
Proof.
  apply (foldl_bind_saved_agrees Utf8.EncodeRune
           (fun i => GoCommand (Bindings.jis_insert_name i))).
  apply Forall_forall. intros i Hi. apply elem_of_seqZ in Hi.
  exists i. split; [lia | reflexivity].
Qed.

(** X9: entering kana mode for the first time and then leaving it with
    the Latin-mode command gives back the key map exactly as it was before,
    line and cursor untouched, as long as the keys of the romaji table are
    ASCII; a key code at or above 0x80 would not be among the saved ones. *)
Theorem kana_mode_round_trip M B :
  Skk.saveMap M = None ->
  Bindings.ascii_only romajiTrigger ->
  exists M1 km1,
    Bindings.cmdEnableRomaji GoCommand _Romaji _Trigger romajiTrigger hiragana M B
    = Skk.Done Skk.CONTINUE M1 (Skk.set_KeyMap B km1) /\
    Skk.kana M1 = hiragana /\
    Skk.User M1 = Skk.User M /\ Skk.System M1 = Skk.System M /\
    Bindings.kana_mode (Skk.KeyMap B) M1 km1 /\
    Skk.cmdLatinMode M1 (Skk.set_KeyMap B km1)
    = Skk.Done Skk.CONTINUE M1 (Skk.set_KeyMap B (Skk.KeyMap B)).
Proof.
  intros Hs Hascii.
  set (M0 := Skk.backupKeyMap M (Skk.KeyMap B)).
  exists (Bindings.set_kana M0 hiragana),
    (snd (Bindings.enableHiragana GoCommand _Romaji _Trigger romajiTrigger hiragana
            M0 (Skk.KeyMap B))).
  assert (Hmode : Bindings.kana_mode (Skk.KeyMap B) (Bindings.set_kana M0 hiragana)
                    (snd (Bindings.enableHiragana GoCommand _Romaji _Trigger
                            romajiTrigger hiragana M0 (Skk.KeyMap B)))).
  { split; [exact (backup_holds_snapshot M (Skk.KeyMap B) Hs)|].
    now apply enableHiragana_agrees. }
  split; [reflexivity|]. split; [reflexivity|].
  split; [unfold M0, Skk.backupKeyMap; now rewrite Hs|].
  split; [unfold M0, Skk.backupKeyMap; now rewrite Hs|].
  split; [exact Hmode|].
  unfold Skk.cmdLatinMode. cbn [Skk.KeyMap Skk.set_KeyMap].
  now rewrite (restore_gives_back _ _ _ Hmode).
Qed.

(** X10: once the snapshot of the key map [km0] is held and the key map
    differs from [km0] at saved key codes only, each command of the mode
    switcher (entering kana mode again, toggling the script, full-width
    Latin mode and its Ctrl-J) keeps that so, leaves the line, the cursor
    and the dictionaries alone, and the Latin-mode command still gives
    [km0] back.  The Ctrl-J of full-width mode installs the bindings of
    kana mode over [km0] itself. *)
Theorem switcher_keeps_snapshot M B km0 :
  Bindings.ascii_only romajiTrigger ->
  Bindings.kana_mode km0 M (Skk.KeyMap B) ->
  let kept (c : @Skk.Ctl Command) :=
    exists M' km',
      c = Skk.Done Skk.CONTINUE M' (Skk.set_KeyMap B km') /\
      Skk.User M' = Skk.User M /\ Skk.System M' = Skk.System M /\
      Bindings.kana_mode km0 M' km' /\
      Skk.cmdLatinMode M' (Skk.set_KeyMap B km')
      = Skk.Done Skk.CONTINUE M' (Skk.set_KeyMap B km0) in
  kept (Bindings.cmdEnableRomaji GoCommand _Romaji _Trigger romajiTrigger hiragana M B) /\
  kept (Bindings.cmdToggleKana GoCommand _Romaji _Trigger romajiTrigger kanaTable M B) /\
  kept (Bindings.cmdJis0208LatinMode GoCommand M B) /\
  kept (Bindings.jis_kakutei GoCommand _Romaji _Trigger romajiTrigger hiragana M B) /\
  Bindings.jis_kakutei GoCommand _Romaji _Trigger romajiTrigger hiragana M B
  = Skk.Done Skk.CONTINUE (Bindings.set_kana M hiragana)
      (Skk.set_KeyMap B
         (snd (Bindings.enableHiragana GoCommand _Romaji _Trigger romajiTrigger
                 hiragana M km0))).
Proof.
  intros Hascii [Hsnap Hagree] kept.
  assert (Hback : forall km, Skk.backupKeyMap M km = M).
  { intros km. unfold Skk.backupKeyMap. now rewrite Hsnap. }
  assert (Hkept : forall M' km',
             Skk.User M' = Skk.User M -> Skk.System M' = Skk.System M ->
             Bindings.kana_mode km0 M' km' ->
             kept (Skk.Done Skk.CONTINUE M' (Skk.set_KeyMap B km'))).
  { intros M' km' HU HS Hmode. exists M', km'.
    repeat split; try assumption; try apply Hmode.
    unfold Skk.cmdLatinMode. cbn [Skk.KeyMap Skk.set_KeyMap].
    now rewrite (restore_gives_back _ _ _ Hmode). }
  assert (Hjis : Bindings.jis_kakutei GoCommand _Romaji _Trigger romajiTrigger hiragana M B
                 = Skk.Done Skk.CONTINUE (Bindings.set_kana M hiragana)
                     (Skk.set_KeyMap B
                        (snd (Bindings.enableHiragana GoCommand _Romaji _Trigger
                                romajiTrigger hiragana M km0)))).
  { unfold Bindings.jis_kakutei, Bindings.cmdEnableRomaji.
    rewrite Hback. cbn [Skk.KeyMap Skk.set_KeyMap].
    rewrite (restore_gives_back M km0 (Skk.KeyMap B) (conj Hsnap Hagree)).
    reflexivity. }
  split.
  { unfold Bindings.cmdEnableRomaji. rewrite Hback.
    apply (Hkept (Bindings.set_kana M hiragana)
             (snd (Bindings.enableHiragana GoCommand _Romaji _Trigger romajiTrigger
                     hiragana M (Skk.KeyMap B)))); try reflexivity.
    split; [exact Hsnap | now apply (enableHiragana_agrees M km0 (Skk.KeyMap B))]. }
  split.
  { unfold Bindings.cmdToggleKana.
    apply Hkept; try reflexivity.
    split; [exact Hsnap|].
    now apply (enableRomaji_agrees _ km0 (Skk.KeyMap B)). }
  split.
  { unfold Bindings.cmdJis0208LatinMode.
    apply Hkept; try reflexivity.
    split; [exact Hsnap|].
    apply bind_saved_agrees; [apply ascii_key_saved; reflexivity|].
    now apply jis_keys_agree. }
  split; [|exact Hjis].
  rewrite Hjis. apply Hkept; try reflexivity.
  split; [exact Hsnap|].
  apply (enableHiragana_agrees M km0 km0); [exact Hascii | reflexivity].
Qed.

End Switcher.

(** ** What the keys are bound to *)

Section Bound.

Context {Command : Type}.
Context (GoCommand : string -> Command).
Context (_Romaji : Skk._Kana -> string -> Command).
Context (_Trigger : ascii -> Command).
Context (romajiTrigger : string) (hiragana : Skk._Kana).
Implicit Types (M : @Skk.Mode Command) (B : @Skk.rl_Buffer Command).
Implicit Types (km : gmap string Command).

Lemma foldl_bind_other {A} (keyf : A -> string) (cmdf : A -> Command)
    (l : list A) km (k : string) :
  Forall (fun y => keyf y <> k) l ->
  foldl (fun km x => Skk.BindKey km (keyf x) (Some (cmdf x))) km l !! k = km !! k.
Proof.
  revert km. induction l as [|y l IH]; intros km Hl; [reflexivity|].
  apply Forall_cons in Hl as [Hy Hl]. cbn [foldl].
  rewrite IH by exact Hl. now apply BindKey_ne.
Qed.

Lemma foldl_bind_lookup {A} (keyf : A -> string) (cmdf : A -> Command)
    (l : list A) km (x : A) :
  NoDup (map keyf l) -> x ∈ l ->
  foldl (fun km x => Skk.BindKey km (keyf x) (Some (cmdf x))) km l !! keyf x
  = Some (cmdf x).
Proof.
  revert km. induction l as [|y l IH]; intros km Hnd Hx; [inversion Hx|].
  cbn [map] in Hnd. apply NoDup_cons in Hnd as [Hy Hnd]. cbn [foldl].
  destruct (decide (keyf y = keyf x)) as [Heq | Hne].
  - rewrite foldl_bind_other.
    + rewrite <- Heq, BindKey_eq.
      apply elem_of_cons in Hx as [-> | Hx]; [reflexivity|].
      exfalso. apply Hy. rewrite Heq. apply list_elem_of_In, in_map.
      now apply list_elem_of_In.
    + apply Forall_forall. intros z Hz Hzk. apply Hy. rewrite Heq, <- Hzk.
      apply list_elem_of_In, in_map. now apply list_elem_of_In.
  - apply elem_of_cons in Hx as [-> | Hx]; [congruence|]. now apply IH.
Qed.

Lemma saved_codes_injective (i j : Z) :
  0 <= i <= 0x80 -> 0 <= j <= 0x80 ->
  Utf8.EncodeRune i = Utf8.EncodeRune j -> i = j.
Proof.
  intros Hi Hj Heq. pose proof key_codes_distinct as Hnd.
  rewrite NoDup_alt in Hnd.
  assert (Hl : forall n, 0 <= n <= 0x80 ->
            map (fun n => Utf8.EncodeRune (0 + Z.of_nat n)) (seq 0 129) !! Z.to_nat n
            = Some (Utf8.EncodeRune n)).
  { intros n Hn. rewrite list_lookup_fmap, lookup_seq_lt by lia. cbn.
    do 2 f_equal. lia. }
  specialize (Hnd (Z.to_nat i) (Z.to_nat j) (Utf8.EncodeRune i) (Hl i Hi)).
  rewrite Heq in Hnd. specialize (Hnd (Hl j Hj)). lia.
Qed.

(** X11: in kana mode the fixed keys win over the romaji table, whatever
    it holds: space starts the conversion, [l] and [L] switch to Latin and
    to full-width Latin mode, Ctrl-G cancels, Ctrl-J commits, [q] toggles
    the script and [/] opens abbreviation mode; and every upper-case letter
    of [AIUEOKSTNHMYRWFGZDBPCJ] is bound to the trigger of its lower-case
    letter. *)
Theorem kana_mode_fixed_keys M km :
  let km' :=
    snd (Bindings.enableHiragana GoCommand _Romaji _Trigger romajiTrigger hiragana M km) in
  km' !! " " = Some (GoCommand "SKK_START_HENKAN") /\
  km' !! "l" = Some (GoCommand "SKK_LATIN_MODE") /\
  km' !! "L" = Some (GoCommand "SKK_JISX0208_LATIN_MODE") /\
  km' !! Skk.CtrlG = Some (GoCommand "SKK_CANCEL") /\
  km' !! Skk.CtrlJ = Some (GoCommand "SKK_KAKUTEI") /\
  km' !! "q" = Some (GoCommand "SKK_TOGGLE_KANA") /\
  km' !! "/" = Some (GoCommand "SKK_ABBREV_MODE") /\
  Forall2 (fun upper lower => km' !! String upper EmptyString = Some (_Trigger lower))
    (list_ascii_of_string "AIUEOKSTNHMYRWFGZDBPCJ")
    (list_ascii_of_string "aiueokstnhmyrwfgzdbpcj").
Proof.
  intros km'. unfold km', Bindings.enableHiragana, Bindings.enableRomaji.
  cbn [snd foldl list_ascii_of_string Bindings.upperRomaji].
  repeat split;
    try (repeat (rewrite BindKey_ne
                   by (let H := fresh in intro H; vm_compute in H; discriminate H));
         apply BindKey_eq).
  repeat (constructor;
          [repeat (rewrite BindKey_ne
                     by (let H := fresh in intro H; vm_compute in H; discriminate H));
           apply BindKey_eq|]).
  constructor.
Qed.

Lemma jis_cells :
  Forall (fun i =>
            Skk.StringToMoji (Utf8.EncodeRune (Skk.hanToZen i))
            = [Utf8.EncodeRune (Skk.hanToZen i)])
    (seqZ 32 (127 - 32)).
Proof. refine (bool_decide_unpack _ _). vm_compute. exact I. Qed.

Lemma jis_characters_distinct :
  NoDup (map (fun i => Utf8.EncodeRune (Skk.hanToZen i)) (seqZ 32 (127 - 32))).
Proof. refine (bool_decide_unpack _ _). vm_compute. exact I. Qed.

Lemma jis_key_codes_distinct : NoDup (map Utf8.EncodeRune (seqZ 32 (127 - 32))).
Proof. refine (bool_decide_unpack _ _). vm_compute. exact I. Qed.

(** X12: in full-width Latin mode every printable ASCII character [i]
    (0x20 to 0x7E) is bound to the command named after its full-width form,
    whose closure inserts that form as one cell at the cursor; different
    keys insert different characters; and Ctrl-J is bound to the command
    that returns to kana mode. *)
Theorem full_width_mode_keys M B (i : Z) :
  32 <= i < 127 ->
  0 <= Skk.Cursor B ->
  (Z.to_nat (Skk.Cursor B) <= length (Skk.Buffer B))%nat ->
  exists km',
    Bindings.cmdJis0208LatinMode GoCommand M B
    = Skk.Done Skk.CONTINUE M (Skk.set_KeyMap B km') /\
    km' !! Utf8.EncodeRune i = Some (GoCommand (Bindings.jis_insert_name i)) /\
    km' !! Skk.CtrlJ = Some (GoCommand "SKK_JISX0208_LATIN_KAKUTEI") /\
    Bindings.jis_insert i M B
    = Skk.Done Skk.CONTINUE M
        (Session.line B (take (Z.to_nat (Skk.Cursor B)) (Skk.Buffer B))
           [Utf8.EncodeRune (Skk.hanToZen i)]
           (drop (Z.to_nat (Skk.Cursor B)) (Skk.Buffer B))) /\
    (forall j, 32 <= j < 127 ->
       Utf8.EncodeRune (Skk.hanToZen i) = Utf8.EncodeRune (Skk.hanToZen j) -> i = j).
Proof.
  intros Hi H0 Hn. eexists. split; [reflexivity|].
  assert (Hin : forall j, 32 <= j < 127 -> j ∈ seqZ 32 (127 - 32))
    by (intros j Hj; apply elem_of_seqZ; lia).
  split.
  { rewrite BindKey_ne.
    - apply (foldl_bind_lookup Utf8.EncodeRune
               (fun i => GoCommand (Bindings.jis_insert_name i)));
        [exact jis_key_codes_distinct | now apply Hin].
    - intros Heq. change Skk.CtrlJ with (Utf8.EncodeRune 10) in Heq.
      apply saved_codes_injective in Heq; lia. }
  split; [apply BindKey_eq|]. split.
  { unfold Bindings.jis_insert. rewrite InsertAndRepaint_at_cursor by assumption.
    pose proof jis_cells as Hc. rewrite Forall_forall in Hc.
    now rewrite (Hc i (Hin i Hi)). }
  intros j Hj Heq. pose proof jis_characters_distinct as Hnd.
  rewrite NoDup_alt in Hnd.
  assert (Hl : forall n, 32 <= n < 127 ->
            map (fun i => Utf8.EncodeRune (Skk.hanToZen i)) (seqZ 32 (127 - 32))
              !! Z.to_nat (n - 32) = Some (Utf8.EncodeRune (Skk.hanToZen n))).
  { intros n Hn'. rewrite list_lookup_fmap, lookup_seqZ_lt by lia. cbn.
    do 3 f_equal. lia. }
  specialize (Hnd (Z.to_nat (i - 32)) (Z.to_nat (j - 32)) _ (Hl i Hi)).
  rewrite Heq in Hnd. specialize (Hnd (Hl j Hj)). lia.
Qed.

End Bound.

(** ** Full-width and kanji renderings of ASCII text *)

Lemma range_ascii (c : ascii) (t : string) :
  (Utf8.byte_val c <? 128) = true ->
  Utf8.range (String c t) = Utf8.byte_val c :: Utf8.range t.
Proof.
  intros H. unfold Utf8.range. cbn [Utf8.range_from].
  unfold Utf8.DecodeRuneInString. rewrite H. reflexivity.
Qed.

Lemma range_ascii_string (s : string) :
  Bindings.ascii_only s ->
  Utf8.range s = map Utf8.byte_val (list_ascii_of_string s).
Proof.
  unfold Bindings.ascii_only.
  induction s as [|c s IH]; [reflexivity|]. cbn [Spec.all_bytes].
  intros [Hc Hs]%andb_prop. rewrite (range_ascii _ _ Hc), (IH Hs). reflexivity.
Qed.

Lemma hanToZen_idempotent (c : Utf8.rune) :
  Skk.hanToZen (Skk.hanToZen c) = Skk.hanToZen c.
Proof.
  unfold Skk.hanToZen.
  destruct ((c <? 32) || (127 <=? c)) eqn:H1; [now rewrite H1|].
  apply orb_false_elim in H1 as [Ha Hb].
  apply Z.ltb_ge in Ha. apply Z.leb_gt in Hb.
  destruct (c =? 32) eqn:H2.
  - reflexivity.
  - apply Z.eqb_neq in H2.
    replace (c - 32 + 65280 <? 32) with false by (symmetry; apply Z.ltb_ge; lia).
    replace (127 <=? c - 32 + 65280) with true by (symmetry; apply Z.leb_le; lia).
    reflexivity.
Qed.

(** The full-width form of an ASCII character decodes to its rune. *)
Lemma range_zenkaku (c : ascii) (t : string) :
  (Utf8.byte_val c <? 128) = true ->
  Utf8.range (Utf8.EncodeRune (Skk.hanToZen (Utf8.byte_val c)) +:+ t)
  = Skk.hanToZen (Utf8.byte_val c) :: Utf8.range t.
Proof.
  intros H.
  destruct c as [[] [] [] [] [] [] [] []];
    try (vm_compute in H; discriminate H); reflexivity.
Qed.

Lemma hanToZenString_cons (c : ascii) (t : string) :
  (Utf8.byte_val c <? 128) = true ->
  Skk.hanToZenString (String c t)
  = Utf8.EncodeRune (Skk.hanToZen (Utf8.byte_val c)) +:+ Skk.hanToZenString t.
Proof.
  intros H. unfold Skk.hanToZenString. rewrite (range_ascii _ _ H).
  cbn [foldl]. now rewrite foldl_append.
Qed.

Lemma range_hanToZenString (s : string) :
  Bindings.ascii_only s ->
  Utf8.range (Skk.hanToZenString s) = map Skk.hanToZen (Utf8.range s).
Proof.
  unfold Bindings.ascii_only.
  induction s as [|c s IH]; [reflexivity|]. cbn [Spec.all_bytes].
  intros [Hc Hs]%andb_prop.
  rewrite (hanToZenString_cons _ _ Hc), (range_zenkaku _ _ Hc), (IH Hs),
    (range_ascii _ _ Hc).
  reflexivity.
Qed.

Lemma foldl_zenkaku_map (l : list Utf8.rune) (acc : string) :
  foldl (fun buffer r => buffer +:+ Utf8.EncodeRune (Skk.hanToZen r)) acc
    (map Skk.hanToZen l)
  = foldl (fun buffer r => buffer +:+ Utf8.EncodeRune (Skk.hanToZen r)) acc l.
Proof.
  revert acc. induction l as [|r l IH]; intros acc; [reflexivity|].
  cbn [map foldl]. now rewrite hanToZen_idempotent, IH.
Qed.

(** X13: on ASCII text [hanToZenString] writes each character's
    full-width form ([hanToZen] of its byte: controls and DEL as they are,
    the space as U+3000, the others moved up by 0xFEE0), so the result
    reads back as those runes; and it is idempotent there: text already made
    full-width is left as it is. *)
Theorem hanToZenString_on_ascii (s : string) :
  Bindings.ascii_only s ->
  Utf8.range (Skk.hanToZenString s)
  = map (fun c => Skk.hanToZen (Utf8.byte_val c)) (list_ascii_of_string s) /\
  Skk.hanToZenString (Skk.hanToZenString s) = Skk.hanToZenString s.
Proof.
  intros Hascii. split.
  - rewrite (range_hanToZenString s Hascii), (range_ascii_string s Hascii).
    now rewrite map_map.
  - unfold Skk.hanToZenString at 1.
    rewrite (range_hanToZenString s Hascii). apply foldl_zenkaku_map.
Qed.

Lemma kansuji_ascii (c : ascii) :
  default EmptyString (Skk.kansuji !! Utf8.byte_val c) = Spec.kanji_digit c.
Proof. destruct c as [[] [] [] [] [] [] [] []]; reflexivity. Qed.

(** X14: on ASCII text [numberToKanji] writes the kanji numeral of every
    digit and nothing for any other character: what is not a key of
    [kansuji] is dropped, not kept and not an error. *)
Theorem numberToKanji_drops_non_digits (s : string) :
  Bindings.ascii_only s ->
  Skk.numberToKanji s = Spec.per_digit Spec.kanji_digit s.
Proof.
  unfold Bindings.ascii_only, Skk.numberToKanji.
  induction s as [|c s IH]; [reflexivity|]. cbn [Spec.all_bytes].
  intros [Hc Hs]%andb_prop. rewrite (range_ascii _ _ Hc). cbn [foldl].
  rewrite foldl_append, (IH Hs), kansuji_ascii. reflexivity.
Qed.

(** ** The listing and the way back *)

Section Listing.

Context {Command : Type}.
Implicit Types (M : @Skk.Mode Command) (B : @Skk.rl_Buffer Command).
Implicit Types (f : Skk.Frame) (r : Skk.Reply) (pre X suf : list string).

Lemma page_loop_text (keys : list ascii) (l : list string) (buffer : string) (c : Z) :
  0 <= c ->
  Skk.page_loop keys l buffer c
  = Some (buffer +:+ foldr String.append EmptyString
            (zip_with (fun key e => String key ":" +:+ Go.before e ";" +:+ " ")
               keys (take (length keys) (drop (Z.to_nat c) l))),
          c + Go.len (take (length keys) (drop (Z.to_nat c) l))).
Proof.
  revert buffer c. induction keys as [|k keys IH]; intros buffer c Hc.
  - cbn [Skk.page_loop length take zip_with foldr]. unfold Go.len. cbn [length].
    now rewrite append_nil_r, Z.add_0_r.
  - cbn [Skk.page_loop length].
    destruct (Go.len l <=? c) eqn:Hle.
    + apply Z.leb_le in Hle.
      rewrite (drop_ge l (Z.to_nat c)) by (unfold Go.len in Hle; lia).
      cbn [take zip_with foldr]. unfold Go.len. cbn [length].
      now rewrite append_nil_r, Z.add_0_r.
    + apply Z.leb_gt in Hle.
      destruct (at_in_range l c) as [e He]; [lia|]. rewrite He.
      unfold Go.at_ in He. rewrite (proj2 (Z.leb_le _ _) Hc) in He.
      rewrite (drop_S _ _ _ He). cbn [take zip_with foldr].
      rewrite IH by lia.
      replace (Z.to_nat (c + 1)) with (S (Z.to_nat c)) by lia.
      rewrite !append_assoc. do 2 f_equal.
      unfold Go.len. cbn [length]. lia.
Qed.

(** X15: the prompt of the listing that starts at [current] shows the
    candidates from [current] on, at most eight and in list order, each
    behind its key of the row [ASDFJKL:] with its annotation cut, and then
    the number of candidates behind the window; the next window starts
    right after the ones shown. *)
Theorem listing_prompt f (current : Z) :
  0 <= current ->
  let l := Skk.list_ f in
  Skk.page l current
  = Some (Loop.page_text l current, current + Go.len (Loop.window l current)) /\
  Skk.prompt_of f (Skk.Paging current) = Some (Loop.page_text l current) /\
  Go.len (Loop.window l current) = Z.min 8 (Z.max 0 (Go.len l - current)).
Proof.
  intros Hc l.
  assert (Hpage : Skk.page l current
                  = Some (Loop.page_text l current,
                          current + Go.len (Loop.window l current))).
  { unfold Skk.page. rewrite page_loop_text by exact Hc.
    unfold Loop.page_text, Loop.window. cbn [length list_ascii_of_string].
    change (EmptyString +:+ ?s) with s.
    replace (Go.len l - (current + Go.len (take 8 (drop (Z.to_nat current) l))))
      with (Go.len l - current - Go.len (take 8 (drop (Z.to_nat current) l)))
      by lia.
    reflexivity. }
  split; [exact Hpage|]. split.
  - cbn [Skk.prompt_of]. fold l. now rewrite Hpage.
  - unfold Loop.window, Go.len. rewrite length_take, length_drop. lia.
Qed.

Lemma Paging_back f M B r (c : Z) :
  0 <= c -> Skk.err r = false -> Skk.text r = "x" ->
  Skk.on_Paging f c M B r =
  if c - 8 <? Skk.listingStartIndex
  then Skk.Wait f (Skk.Selecting (Z.max 0 (c - 8))) M B
  else Skk.Wait f (Skk.Paging (c - 8)) M B.
Proof.
  intros Hc He Ht. unfold Skk.on_Paging.
  destruct (page_end (Skk.list_ f) c Hc) as [text ->].
  rewrite He, Ht. cbn -[Z.sub Z.ltb Skk.listing Skk.listingStartIndex].
  unfold Skk.listingStartIndex. change (Z.of_nat 8) with 8.
  destruct (c - 8 <? 4) eqn:Hlow.
  - do 2 f_equal. destruct (c - 8 <? 0) eqn:Hneg.
    + apply Z.ltb_lt in Hneg. lia.
    + apply Z.ltb_ge in Hneg. lia.
  - apply Z.ltb_ge in Hlow. apply listing_waits. lia.
Qed.

(** X16: in Selecting, an advance followed by the back key returns to
    the same candidate with the same display, as long as the advance stays
    below the end of the list and below the listing threshold. *)
Theorem advance_then_back_returns f M B (r1 r2 : Skk.Reply) (current : Z) pre X suf :
  Session.region B pre X suf ->
  Skk.markerPos f = Go.len pre ->
  0 <= current ->
  current + 1 < Go.len (Skk.list_ f) ->
  current + 1 < Skk.listingStartIndex ->
  Skk.text r1 = " " -> Skk.text r2 = "x" ->
  Skk.run (Skk.show f M B current) [r1; r2] = Skk.show f M B current.
Proof.
  intros HB Hpos H0 Hlen H4 Ht1 Ht2.
  destruct (at_in_range (Skk.list_ f) current) as [e He]; [lia|].
  destruct (at_in_range (Skk.list_ f) (current + 1)) as [e' He']; [lia|].
  rewrite (show_region f M B pre X suf current e HB Hpos He).
  cbn [Skk.run foldl Skk.step].
  rewrite (Selecting_advance f M _ r1 current Ht1).
  rewrite (proj2 (Z.leb_gt _ _)) by lia.
  rewrite (proj2 (Z.leb_gt _ _)) by lia.
  rewrite (show_region f M _ pre _ suf (current + 1) e' (region_line _ _ _ _) Hpos He').
  cbn [Skk.step]. rewrite Selecting_back by exact Ht2.
  replace (current + 1 - 1) with current by lia.
  rewrite (proj2 (Z.ltb_ge _ _)) by lia.
  rewrite (show_region f M _ pre _ suf current e (region_line _ _ _ _) Hpos He).
  reflexivity.
Qed.

(** X17: in the listing the back key rewinds the window by eight; when
    that leads below the threshold the controller is back in Selecting at
    that index, or at the first candidate when the index would be negative,
    and the line is not redrawn.  A window advanced by a full eight and
    rewound is the same window again. *)
Theorem listing_back_rewinds f M B (r1 r : Skk.Reply) (current : Z) :
  0 <= current ->
  Skk.err r = false -> Skk.text r = "x" ->
  Skk.step (Skk.Wait f (Skk.Paging current) M B) r
  = (if current - 8 <? Skk.listingStartIndex
     then Skk.Wait f (Skk.Selecting (Z.max 0 (current - 8))) M B
     else Skk.Wait f (Skk.Paging (current - 8)) M B) /\
  (Skk.err r1 = false -> Skk.text r1 = " " ->
   Skk.listingStartIndex <= current ->
   current + 8 <= Go.len (Skk.list_ f) ->
   Skk.run (Skk.Wait f (Skk.Paging current) M B) [r1; r]
   = Skk.Wait f (Skk.Paging current) M B).
Proof.
  intros H0 He Ht. split; [now apply Paging_back|].
  unfold Skk.listingStartIndex. intros He1 Ht1 H4 Hlen.
  cbn [Skk.run foldl Skk.step].
  rewrite Paging_advance by assumption.
  replace (if Go.len (Skk.list_ f) <=? current then current
           else Z.min (current + 8) (Go.len (Skk.list_ f))) with (current + 8).
  - cbn [Skk.step]. rewrite Paging_back by (assumption || lia).
    replace (current + 8 - 8) with current by lia.
    unfold Skk.listingStartIndex. now rewrite (proj2 (Z.ltb_ge _ _)) by lia.
  - destruct (Go.len (Skk.list_ f) <=? current) eqn:Hle; [|lia].
    apply Z.leb_le in Hle. lia.
Qed.

End Listing.

(** ** Registering a word and purging it again *)

Section RegisterPurge.

Context {Command : Type}.
Implicit Types (M : @Skk.Mode Command) (B : @Skk.rl_Buffer Command).
Implicit Types (pre X suf : list string).

Lemma lookup_not_found_nil M (source : string) :
  snd (Skk.lookup M source) = false -> fst (Skk.lookup M source) = [].
Proof.
  unfold Skk.lookup.
  destruct (Skk._lookup M source) as [l [|]]; [discriminate|].
  destruct (Skk.rxNumber_FindStringIndex source) as [[lo hi]|]; [|reflexivity].
  destruct (Skk._lookup M _) as [l' [|]]; [discriminate | reflexivity].
Qed.

Lemma lookup_same_dictionaries M M' (source : string) :
  Skk.User M' = Skk.User M -> Skk.System M' = Skk.System M ->
  Skk.lookup M' source = Skk.lookup M source.
Proof.
  intros HU HS. unfold Skk.lookup, Skk._lookup. now rewrite HU, HS.
Qed.

(** X18: let a word [W] have been put in front of the candidates [l] of
    a reading, as a registration does.  Converting the reading again,
    asking for the purge at the first candidate and answering yes removes
    [W]: the region is taken off the line, the reading looks up as it did
    before [W] was put there, and no other reading of the User dictionary
    is touched (provided the User dictionary held no empty list for the
    reading). *)
Theorem register_then_purge_restores_lookup M B pre X suf
    (source postfix W : string) (rX ryes : Skk.Reply) :
  Session.region B pre X suf ->
  Skk.User M !! source <> Some [] ->
  Skk.text rX = "X" ->
  Skk.err ryes = false -> Skk.text ryes = "y" \/ Skk.text ryes = "yes" ->
  let l := fst (Skk.lookup M source) in
  let M2 := Skk.set_User M (<[source := W :: l]> (Skk.User M)) in
  exists M3,
    Skk.run (Skk.henkanMode M2 B (Go.len pre) source postfix) [rX; ryes]
    = Skk.Done Skk.CONTINUE M3 (Session.line B pre [] suf) /\
    Skk.lookup M3 source = Skk.lookup M source /\
    forall k, k <> source -> Skk.User M3 !! k = Skk.User M !! k.
Proof.
  intros HB Hne HtX Hey Hyes l M2.
  assert (Hl2 : Skk.lookup M2 source = (W :: l, true)).
  { apply lookup_exact_hit. rewrite _lookup_unfold.
    unfold M2, Skk.set_User. cbn [Skk.User]. now rewrite lookup_insert_eq. }
  set (f := {| Skk.markerPos := Go.len pre; Skk.source := source;
               Skk.postfix := postfix; Skk.list_ := W :: l |}).
  assert (Hrun : Skk.run (Skk.henkanMode M2 B (Go.len pre) source postfix) [rX; ryes]
                 = Skk.Done Skk.CONTINUE
                     (Skk.set_User M2
                        (if decide (length (W :: l) <= 1)%nat
                         then delete source (Skk.User M2)
                         else <[source := take 0 (W :: l) ++ drop 1 (W :: l)]>
                                (Skk.User M2)))
                     (Session.line B pre [] suf)).
  { unfold Skk.henkanMode. rewrite Hl2. cbn [negb]. fold f.
    rewrite (show_region f M2 B pre X suf 0 W HB eq_refl eq_refl).
    cbn [Skk.run foldl Skk.step].
    rewrite Selecting_purge by exact HtX.
    change (Go.at_ (Skk.list_ f) 0) with (Some W). cbv beta iota.
    rewrite (Purging_region f M2 _ ryes 0 pre _ suf W (region_line _ _ _ _)
               eq_refl eq_refl).
    rewrite decide_True by auto. cbv zeta.
    assert (Hheld : Skk.held_by_System M2 (Skk.source f) = false).
    { unfold Skk.held_by_System, M2, Skk.set_User. cbn [Skk.User Skk.source f].
      now rewrite lookup_insert_eq. }
    rewrite Hheld.
    change (Skk.list_ f) with (W :: l). change (Skk.source f) with source.
    now destruct (decide (length (W :: l) <= 1)%nat). }
  eexists. split; [exact Hrun|].
  cbn [take drop app].
  destruct l as [|e l'] eqn:Hl.
  - rewrite decide_True by (cbn; lia).
    assert (HU : Skk.User M !! source = None).
    { destruct (Skk.User M !! source) as [l0|] eqn:HU0; [|reflexivity].
      exfalso. apply Hne. f_equal.
      assert (Hfst : fst (Skk.lookup M source) = l0).
      { rewrite (lookup_exact_hit M source l0); [reflexivity|].
        rewrite _lookup_unfold. now rewrite HU0. }
      unfold l in Hl. congruence. }
    assert (Hsame : delete source (Skk.User M2) = Skk.User M).
    { unfold M2, Skk.set_User. cbn [Skk.User].
      rewrite delete_insert_eq. now apply delete_id. }
    split.
    + apply lookup_same_dictionaries; [exact Hsame | reflexivity].
    + intros k Hk. cbn [Skk.User Skk.set_User]. now rewrite Hsame.
  - rewrite decide_False by (cbn; lia).
    split.
    + rewrite (lookup_exact_hit _ source (e :: l')).
      * destruct (Skk.lookup M source) as [l0 ok] eqn:Hlk.
        unfold l in Hl. cbn [fst] in Hl. subst l0.
        destruct ok; [reflexivity|].
        pose proof (lookup_not_found_nil M source) as Hnil.
        rewrite Hlk in Hnil. cbn in Hnil. discriminate (Hnil eq_refl).
      * rewrite _lookup_unfold. unfold Skk.set_User. cbn [Skk.User].
        now rewrite lookup_insert_eq.
    + intros k Hk. unfold M2, Skk.set_User. cbn [Skk.User].
      now rewrite !lookup_insert_ne by congruence.
Qed.

(** X19: with a marker active, the trigger converts the marked text
    followed by its letter, the marker not included; the postfix is the
    kana the table holds for a vowel (nothing when the table has none) and
    the letter itself for any other key. *)
Theorem okurigana_reading_and_postfix (Key : ascii) M B pre (m : string) X suf :
  Session.region B pre (m :: X) suf ->
  Skk.is_marker m = true ->
  Forall (fun ch => Skk.is_marker ch = false) X ->
  Skk._Trigger_Call Key M B
  = Skk.henkanMode M B (Go.len pre)
      (foldr String.append EmptyString X +:+ String Key EmptyString)
      (if decide (Key ∈ list_ascii_of_string "aiueo")
       then default EmptyString (Skk.table (Skk.kana M) !! String Key EmptyString)
       else Go.string_of_byte Key).
Proof.
  intros HB Hm Hfree.
  rewrite (Trigger_converts Key M B (Go.len pre));
    [| now apply seekMarker_region with (m := m) (X := X) (suf := suf)
     | apply len_nonneg].
  rewrite (SubString_region B pre m X suf HB). f_equal.
  destruct (decide (Key ∈ list_ascii_of_string "aiueo")) as [Hin | Hout].
  - cbn in Hin. rewrite !elem_of_cons in Hin.
    destruct Hin as [-> | [-> | [-> | [-> | [-> | Hin]]]]];
      [reflexivity.. | inversion Hin].
  - destruct (0 <=? Go.IndexByte "aiueo" Key) eqn:Hi; [|reflexivity].
    exfalso. apply Hout. cbn. rewrite !elem_of_cons.
    destruct Key as [[] [] [] [] [] [] [] []];
      try (vm_compute in Hi; discriminate Hi); auto 10.
Qed.

End RegisterPurge.

(** ** Entering a conversion, and purging what the System dictionary holds *)

Section Entry.

Context {Command : Type}.
Implicit Types (M : @Skk.Mode Command) (B : @Skk.rl_Buffer Command).
Implicit Types (pre X suf : list string).

(** X20: [henkanMode] starts in one of three ways.  A reading that is
    not found opens the registration prompt, which shows the reading, and
    leaves the line as it is.  A reading found with an empty candidate list
    panics on its first candidate.  Otherwise the first candidate, its
    annotation cut, is displayed behind the black marker and followed by the
    postfix, in place of the region. *)
Theorem henkanMode_entry M B pre X suf (source postfix : string) :
  Session.region B pre X suf ->
  let '(l, found) := Skk.lookup M source in
  let f := {| Skk.markerPos := Go.len pre; Skk.source := source;
              Skk.postfix := postfix; Skk.list_ := l |} in
  Skk.henkanMode M B (Go.len pre) source postfix =
  if found then
    match l with
    | [] => Skk.Done Skk.Panic M B
    | e :: _ =>
      Skk.Wait f (Skk.Selecting 0) M
        (Session.line B pre
           (Skk.markerBlack :: Skk.StringToMoji (Go.before e ";" +:+ postfix)) suf)
    end
  else Skk.Wait f Skk.Registering M B.
Proof.
  intros HB. unfold Skk.henkanMode.
  destruct (Skk.lookup M source) as [l [|]]; cbn [negb]; [|reflexivity].
  destruct l as [|e l]; [reflexivity|].
  exact (show_region {| Skk.markerPos := Go.len pre; Skk.source := source;
                        Skk.postfix := postfix; Skk.list_ := e :: l |}
           M B pre X suf 0 e HB eq_refl eq_refl).
Qed.

(** X21: the purge of a reading that only the System dictionary holds
    writes into the System dictionary.  With several candidates the
    in-place shift is seen through the System entry, which keeps its length:
    it then reads the remaining candidates followed by its last candidate
    once more, while the User dictionary receives the remaining candidates,
    which answer the next lookup.  Purging the only candidate changes no
    dictionary, so the reading still looks up as before.  No other reading
    is touched. *)
Theorem purge_of_system_reading (f : Skk.Frame) M B (r : Skk.Reply) (current : Z)
    pre X suf (e : string) :
  Session.region B pre X suf ->
  Skk.markerPos f = Go.len pre ->
  Skk.User M !! Skk.source f = None ->
  Skk.System M !! Skk.source f = Some (Skk.list_ f) ->
  Go.at_ (Skk.list_ f) current = Some e ->
  Skk.err r = false -> Skk.text r = "y" \/ Skk.text r = "yes" ->
  let l := Skk.list_ f in
  let rest := take (Z.to_nat current) l ++ drop (S (Z.to_nat current)) l in
  exists M',
    Skk.step (Skk.Wait f (Skk.Purging current) M B) r
    = Skk.Done Skk.CONTINUE M' (Session.line B pre [] suf) /\
    ((length l <= 1)%nat ->
     Skk.User M' = Skk.User M /\ Skk.System M' = Skk.System M /\
     Skk.lookup M' (Skk.source f) = (l, true)) /\
    ((1 < length l)%nat ->
     Skk.User M' !! Skk.source f = Some rest /\
     Skk.System M' !! Skk.source f = Some (rest ++ drop (length l - 1) l) /\
     Skk.lookup M' (Skk.source f) = (rest, true)) /\
    (forall k, k <> Skk.source f ->
       Skk.User M' !! k = Skk.User M !! k /\ Skk.System M' !! k = Skk.System M !! k).
Proof.
  intros HB Hpos HU HS Hat He Hans l rest.
  assert (Hheld : Skk.held_by_System M (Skk.source f) = true).
  { unfold Skk.held_by_System. now rewrite HU, HS. }
  rewrite (Purging_region f M B r current pre X suf e HB Hpos Hat).
  rewrite decide_True by auto. cbv zeta. fold l. fold rest. rewrite Hheld.
  eexists. split; [reflexivity|].
  destruct (decide (length l <= 1)%nat) as [Hone | Hmore].
  - assert (Hd : delete (Skk.source f) (Skk.User M) = Skk.User M)
      by now apply delete_id.
    cbn [Skk.User Skk.System Skk.set_User]. rewrite Hd.
    split; [|split; [intros; lia|]].
    + intros _. split; [reflexivity|]. split; [reflexivity|].
      apply lookup_exact_hit. rewrite _lookup_unfold.
      unfold Skk.set_User. cbn [Skk.User Skk.System]. now rewrite ?Hd, HU, HS.
    + auto.
  - cbn [Skk.User Skk.System Skk.set_User Skk.set_System].
    split; [intros; lia|]. split.
    + intros _. split; [apply lookup_insert_eq|]. split; [apply lookup_insert_eq|].
      apply lookup_exact_hit. rewrite _lookup_unfold.
      unfold Skk.set_User. cbn [Skk.User]. now rewrite lookup_insert_eq.
    + intros k Hk. now rewrite !lookup_insert_ne by congruence.
Qed.

End Entry.

(** ** The properties at sample sessions *)

Lemma removeOne_deletes_in_bounds_witness :
  Skk.Cursor Session.B0 <= Go.len (Skk.Buffer Session.B0) /\
  Skk.removeOne Session.B0 1 = Some (Skk.set_line Session.B0 ["x"; "か"; "く"; "z"] 3) /\
  Skk.removeOne Session.B0 5 = None /\
  Skk.removeOne (Skk.set_line Session.B0 ["x"] 0) 0 = None.
Proof.
  assert (h1 : Skk.Cursor Session.B0 <= Go.len (Skk.Buffer Session.B0))
    by (vm_compute; discriminate).
  assert (h2 : Skk.Cursor (Skk.set_line Session.B0 ["x"] 0)
               <= Go.len (Skk.Buffer (Skk.set_line Session.B0 ["x"] 0)))
    by (vm_compute; discriminate).
  split; [exact h1|].
  split; [exact (removeOne_deletes_in_bounds Session.B0 1 h1)|].
  split; [exact (removeOne_deletes_in_bounds Session.B0 5 h1)|].
  exact (removeOne_deletes_in_bounds (Skk.set_line Session.B0 ["x"] 0) 0 h2).
Defined.

Lemma trigger_opens_region_witness :
  Session.no_marker_left Session.B2 /\
  0 <= Skk.Cursor Session.B2 /\
  Skk._Trigger_Call "k" Session.M0 Session.B2
  = Skk.Done (Skk.RomajiCall "k") Session.M0
      (Session.line Session.B2 ["x"; "y"; "z"] ["▽"] []).
Proof.
  assert (h1 : Session.no_marker_left Session.B2)
    by (split; [simpl; lia | repeat constructor]).
  assert (h2 : 0 <= Skk.Cursor Session.B2) by (simpl; lia).
  split; [exact h1|]. split; [exact h2|].
  exact (proj1 (trigger_opens_region "k" Session.M0 Session.B2 h1 h2)).
Defined.

Lemma abbrev_mode_opens_region_once_witness :
  Session.no_marker_left Session.B2 /\
  0 <= Skk.Cursor Session.B2 /\
  Skk.cmdAbbrevMode Sample.GoCommand Session.M0 Session.B2
  = Skk.Done Skk.CONTINUE Session.M0
      (Skk.set_KeyMap (Session.line Session.B2 ["x"; "y"; "z"] ["▽"] [])
         (<[" " := "SKK_ABBREV_START_HENKAN"]> (Skk.KeyMap Session.B2))).
Proof.
  assert (h1 : Session.no_marker_left Session.B2)
    by (split; [simpl; lia | repeat constructor]).
  assert (h2 : 0 <= Skk.Cursor Session.B2) by (simpl; lia).
  split; [exact h1|]. split; [exact h2|].
  exact (proj1 (abbrev_mode_opens_region_once Sample.GoCommand
                  Session.M0 Session.B2 h1 h2)).
Defined.

Lemma start_henkan_without_marker_inserts_space_witness :
  Session.no_marker_left Session.B2 /\
  0 <= Skk.Cursor Session.B2 /\
  Skk.cmdStartHenkan Session.M0 Session.B2
  = Skk.Done Skk.CONTINUE Session.M0
      (Session.line Session.B2 ["x"; "y"; "z"] [" "] []).
Proof.
  assert (h1 : Session.no_marker_left Session.B2)
    by (split; [simpl; lia | repeat constructor]).
  assert (h2 : 0 <= Skk.Cursor Session.B2) by (simpl; lia).
  split; [exact h1|]. split; [exact h2|].
  exact (start_henkan_without_marker_inserts_space Session.M0 Session.B2 h1 h2).
Defined.

Lemma start_henkan_then_cancel_restores_line_witness :
  Session.region Session.B0 ["x"] ["▽"; "か"; "く"] ["z"] /\
  Forall (fun ch => Skk.is_marker ch = false) ["か"; "く"] /\
  Skk.StringToMoji "かく" = ["か"; "く"] /\
  Skk.run (Skk.cmdStartHenkan Session.M0 Session.B0) [Session.key Skk.CtrlG]
  = Skk.Done Skk.CONTINUE Session.M0 Session.B0.
Proof.
  assert (h1 : Session.region Session.B0 ["x"] ["▽"; "か"; "く"] ["z"])
    by (split; reflexivity).
  assert (h2 : Forall (fun ch => Skk.is_marker ch = false) ["か"; "く"])
    by (repeat constructor).
  assert (h3 : Skk.StringToMoji "かく" = ["か"; "く"]) by (vm_compute; reflexivity).
  split; [exact h1|]. split; [exact h2|]. split; [exact h3|].
  refine (proj2 (start_henkan_then_cancel_restores_line Session.M0 Session.B0
                   ["x"] ["か"; "く"] ["z"] h1 h2 h3)
            (Session.key Skk.CtrlG) _ (or_introl eq_refl)).
  discriminate.
Defined.

Lemma conversion_keeps_line_and_key_map_witness :
  Session.region Session.B0 ["x"] ["▽"; "か"; "く"] ["z"] /\
  Loop.in_loop Session.M0 (Skk.KeyMap Session.B0) ["x"] ["z"] "かく"
    (Skk.run (Skk.henkanMode Session.M0 Session.B0 1 "かく" EmptyString)
       [Session.key " "; Session.key Skk.CtrlJ]).
Proof.
  assert (h1 : Session.region Session.B0 ["x"] ["▽"; "か"; "く"] ["z"])
    by (split; reflexivity).
  split; [exact h1|].
  exact (conversion_keeps_line_and_key_map Session.M0 Session.B0 ["x"] "▽"
           ["か"; "く"] ["z"] "かく" EmptyString
           [Session.key " "; Session.key Skk.CtrlJ] h1).
Defined.

Lemma only_row_key_past_end_panics_witness :
  Loop.in_loop Session.M0 (Skk.KeyMap Session.B1p) ["x"] ["z"] "かk"
    (Skk.Wait Session.f1 (Skk.Paging 6) Session.M0 Session.B1p) /\
  Loop.row_key_past_end Session.f1 (Skk.Paging 6) (Session.key "a") /\
  exists M' B',
    Skk.step (Skk.Wait Session.f1 (Skk.Paging 6) Session.M0 Session.B1p)
      (Session.key "a")
    = Skk.Done Skk.Panic M' B'.
Proof.
  assert (h1 : Loop.in_loop Session.M0 (Skk.KeyMap Session.B1p) ["x"] ["z"] "かk"
                 (Skk.Wait Session.f1 (Skk.Paging 6) Session.M0 Session.B1p)).
  { split; [reflexivity|]. split; [reflexivity|]. split; [reflexivity|].
    split; [unfold Loop.point_ok, Skk.listingStartIndex, Go.len; simpl; lia|].
    split; [reflexivity|].
    exists "▼", ["駆"; "k"]. split; reflexivity. }
  assert (h2 : Loop.row_key_past_end Session.f1 (Skk.Paging 6) (Session.key "a")).
  { exists 6. split; [reflexivity|]. split; [reflexivity|].
    split; vm_compute; discriminate. }
  split; [exact h1|]. split; [exact h2|].
  exact (proj2 (only_row_key_past_end_panics Session.M0 (Skk.KeyMap Session.B1p)
                  ["x"] ["z"] "かk" Session.f1 (Skk.Paging 6) Session.B1p
                  (Session.key "a") h1) h2).
Defined.

Lemma kana_mode_round_trip_witness :
  Skk.saveMap Session.M0 = None /\
  Bindings.ascii_only Sample.romajiTrigger /\
  exists M1 km1,
    Bindings.cmdEnableRomaji Sample.GoCommand Sample._Romaji Sample._Trigger
      Sample.romajiTrigger Session.hiragana Session.M0 Session.B0
    = Skk.Done Skk.CONTINUE M1 (Skk.set_KeyMap Session.B0 km1) /\
    Skk.kana M1 = Session.hiragana /\
    Skk.User M1 = Skk.User Session.M0 /\ Skk.System M1 = Skk.System Session.M0 /\
    Bindings.kana_mode (Skk.KeyMap Session.B0) M1 km1 /\
    Skk.cmdLatinMode M1 (Skk.set_KeyMap Session.B0 km1)
    = Skk.Done Skk.CONTINUE M1 (Skk.set_KeyMap Session.B0 (Skk.KeyMap Session.B0)).
Proof.
  assert (h1 : Skk.saveMap Session.M0 = None) by reflexivity.
  assert (h2 : Bindings.ascii_only Sample.romajiTrigger) by (vm_compute; reflexivity).
  split; [exact h1|]. split; [exact h2|].
  exact (kana_mode_round_trip Sample.GoCommand Sample._Romaji Sample._Trigger
           Sample.romajiTrigger Session.hiragana Session.M0 Session.B0 h1 h2).
Defined.

Lemma switcher_keeps_snapshot_witness :
  Bindings.ascii_only Sample.romajiTrigger /\
  Bindings.kana_mode (Skk.KeyMap Session.B0) Sample.M0k (Skk.KeyMap Session.B0) /\
  Bindings.jis_kakutei Sample.GoCommand Sample._Romaji Sample._Trigger
    Sample.romajiTrigger Session.hiragana Sample.M0k Session.B0
  = Skk.Done Skk.CONTINUE (Bindings.set_kana Sample.M0k Session.hiragana)
      (Skk.set_KeyMap Session.B0
         (snd (Bindings.enableHiragana Sample.GoCommand Sample._Romaji Sample._Trigger
                 Sample.romajiTrigger Session.hiragana Sample.M0k
                 (Skk.KeyMap Session.B0)))).
Proof.
  assert (h1 : Bindings.ascii_only Sample.romajiTrigger) by (vm_compute; reflexivity).
  assert (h2 : Bindings.kana_mode (Skk.KeyMap Session.B0) Sample.M0k
                 (Skk.KeyMap Session.B0))
    by (split; [reflexivity | intros k _; reflexivity]).
  split; [exact h1|]. split; [exact h2|].
  exact (proj2 (proj2 (proj2 (proj2
           (switcher_keeps_snapshot Sample.GoCommand Sample._Romaji Sample._Trigger
              Sample.romajiTrigger Session.hiragana Sample.kanaTable
              Sample.M0k Session.B0 (Skk.KeyMap Session.B0) h1 h2))))).
Defined.

Lemma full_width_mode_keys_witness :
  32 <= 65 < 127 /\
  0 <= Skk.Cursor Session.B2 /\
  (Z.to_nat (Skk.Cursor Session.B2) <= length (Skk.Buffer Session.B2))%nat /\
  exists km',
    Bindings.cmdJis0208LatinMode Sample.GoCommand Session.M0 Session.B2
    = Skk.Done Skk.CONTINUE Session.M0 (Skk.set_KeyMap Session.B2 km') /\
    km' !! "A" = Some "SKK_JISX0208_LATIN_INSERT_Ａ" /\
    km' !! Skk.CtrlJ = Some "SKK_JISX0208_LATIN_KAKUTEI" /\
    Bindings.jis_insert 65 Session.M0 Session.B2
    = Skk.Done Skk.CONTINUE Session.M0
        (Session.line Session.B2 ["x"; "y"; "z"] ["Ａ"] []) /\
    (forall j, 32 <= j < 127 ->
       Utf8.EncodeRune (Skk.hanToZen 65) = Utf8.EncodeRune (Skk.hanToZen j) -> 65 = j).
Proof.
  assert (h1 : 32 <= 65 < 127) by lia.
  assert (h2 : 0 <= Skk.Cursor Session.B2) by (simpl; lia).
  assert (h3 : (Z.to_nat (Skk.Cursor Session.B2) <= length (Skk.Buffer Session.B2))%nat)
    by (simpl; lia).
  split; [exact h1|]. split; [exact h2|]. split; [exact h3|].
  exact (full_width_mode_keys Sample.GoCommand Session.M0 Session.B2 65 h1 h2 h3).
Defined.

Lemma hanToZenString_on_ascii_witness :
  Bindings.ascii_only "A 1" /\
  Utf8.range (Skk.hanToZenString "A 1") = [0xFF21; 0x3000; 0xFF11] /\
  Skk.hanToZenString (Skk.hanToZenString "A 1") = Skk.hanToZenString "A 1".
Proof.
  assert (h1 : Bindings.ascii_only "A 1") by (vm_compute; reflexivity).
  split; [exact h1|].
  exact (hanToZenString_on_ascii "A 1" h1).
Defined.

Lemma numberToKanji_drops_non_digits_witness :
  Bindings.ascii_only "a1b20" /\
  Skk.numberToKanji "a1b20" = Spec.per_digit Spec.kanji_digit "a1b20".
Proof.
  assert (h1 : Bindings.ascii_only "a1b20") by (vm_compute; reflexivity).
  split; [exact h1|].
  exact (numberToKanji_drops_non_digits "a1b20" h1).
Defined.

Lemma listing_prompt_witness :
  0 <= 4 /\
  Skk.page (Skk.list_ Session.f1) 4
  = Some (Loop.page_text (Skk.list_ Session.f1) 4,
          4 + Go.len (Loop.window (Skk.list_ Session.f1) 4)) /\
  Skk.prompt_of Session.f1 (Skk.Paging 4)
  = Some (Loop.page_text (Skk.list_ Session.f1) 4) /\
  Go.len (Loop.window (Skk.list_ Session.f1) 4)
  = Z.min 8 (Z.max 0 (Go.len (Skk.list_ Session.f1) - 4)).
Proof.
  assert (h1 : 0 <= 4) by lia.
  split; [exact h1|].
  exact (listing_prompt Session.f1 4 h1).
Defined.

Lemma advance_then_back_returns_witness :
  Session.region Session.B0 ["x"] ["▽"; "か"; "く"] ["z"] /\
  Skk.markerPos Session.f0 = Go.len ["x"] /\
  0 <= 0 /\
  0 + 1 < Go.len (Skk.list_ Session.f0) /\
  0 + 1 < Skk.listingStartIndex /\
  Skk.run (Skk.show Session.f0 Session.M0 Session.B0 0)
    [Session.key " "; Session.key "x"]
  = Skk.show Session.f0 Session.M0 Session.B0 0.
Proof.
  assert (h1 : Session.region Session.B0 ["x"] ["▽"; "か"; "く"] ["z"])
    by (split; reflexivity).
  assert (h2 : Skk.markerPos Session.f0 = Go.len ["x"]) by reflexivity.
  assert (h3 : 0 <= 0) by lia.
  assert (h4 : 0 + 1 < Go.len (Skk.list_ Session.f0)) by reflexivity.
  assert (h5 : 0 + 1 < Skk.listingStartIndex) by reflexivity.
  split; [exact h1|]. split; [exact h2|]. split; [exact h3|].
  split; [exact h4|]. split; [exact h5|].
  exact (advance_then_back_returns Session.f0 Session.M0 Session.B0
           (Session.key " ") (Session.key "x") 0 ["x"] ["▽"; "か"; "く"] ["z"]
           h1 h2 h3 h4 h5 eq_refl eq_refl).
Defined.

Lemma listing_back_rewinds_witness :
  0 <= 4 /\
  Skk.step (Skk.Wait Session.f1 (Skk.Paging 4) Session.M0 Session.B1p)
    (Session.key "x")
  = Skk.Wait Session.f1 (Skk.Selecting 0) Session.M0 Session.B1p.
Proof.
  assert (h1 : 0 <= 4) by lia.
  split; [exact h1|].
  exact (proj1 (listing_back_rewinds Session.f1 Session.M0 Session.B1p
                  (Session.key " ") (Session.key "x") 4 h1 eq_refl eq_refl)).
Defined.

Lemma register_then_purge_restores_lookup_witness :
  Session.region Session.B0 ["x"] ["▽"; "か"; "く"] ["z"] /\
  Skk.User Session.M0 !! "かく" <> Some [] /\
  exists M3,
    Skk.run
      (Skk.henkanMode
         (Skk.set_User Session.M0
            (<["かく" := "核" :: fst (Skk.lookup Session.M0 "かく")]>
               (Skk.User Session.M0)))
         Session.B0 (Go.len ["x"]) "かく" EmptyString)
      [Session.key "X"; Session.key "y"]
    = Skk.Done Skk.CONTINUE M3 (Session.line Session.B0 ["x"] [] ["z"]) /\
    Skk.lookup M3 "かく" = Skk.lookup Session.M0 "かく" /\
    forall k, k <> "かく" -> Skk.User M3 !! k = Skk.User Session.M0 !! k.
Proof.
  assert (h1 : Session.region Session.B0 ["x"] ["▽"; "か"; "く"] ["z"])
    by (split; reflexivity).
  assert (h2 : Skk.User Session.M0 !! "かく" <> Some [])
    by (vm_compute; discriminate).
  split; [exact h1|]. split; [exact h2|].
  exact (register_then_purge_restores_lookup Session.M0 Session.B0 ["x"]
           ["▽"; "か"; "く"] ["z"] "かく" EmptyString "核"
           (Session.key "X") (Session.key "y") h1 h2 eq_refl eq_refl
           (or_introl eq_refl)).
Defined.

Lemma okurigana_reading_and_postfix_witness :
  Session.region Session.B1 ["x"] ["▽"; "か"] ["z"] /\
  Skk.is_marker "▽" = true /\
  Forall (fun ch => Skk.is_marker ch = false) ["か"] /\
  Skk._Trigger_Call "k" Session.M0 Session.B1
  = Skk.henkanMode Session.M0 Session.B1 1 "かk" "k".
Proof.
  assert (h1 : Session.region Session.B1 ["x"] ["▽"; "か"] ["z"])
    by (split; reflexivity).
  assert (h2 : Skk.is_marker "▽" = true) by reflexivity.
  assert (h3 : Forall (fun ch => Skk.is_marker ch = false) ["か"])
    by (repeat constructor).
  split; [exact h1|]. split; [exact h2|]. split; [exact h3|].
  exact (okurigana_reading_and_postfix "k" Session.M0 Session.B1 ["x"] "▽"
           ["か"] ["z"] h1 h2 h3).
Defined.

Lemma henkanMode_entry_witness :
  Session.region Session.B0 ["x"] ["▽"; "か"; "く"] ["z"] /\
  Skk.henkanMode Session.M0 Session.B0 1 "かく" EmptyString
  = Skk.Wait Session.f0 (Skk.Selecting 0) Session.M0
      (Session.line Session.B0 ["x"] ["▼"; "書"; "く"] ["z"]).
Proof.
  assert (h1 : Session.region Session.B0 ["x"] ["▽"; "か"; "く"] ["z"])
    by (split; reflexivity).
  split; [exact h1|].
  exact (henkanMode_entry Session.M0 Session.B0 ["x"] ["▽"; "か"; "く"] ["z"]
           "かく" EmptyString h1).
Defined.

Lemma purge_of_system_reading_witness :
  Session.region Session.B1s ["x"] ["▼"; "書"; "k"] ["z"] /\
  Skk.User Session.M0 !! "かk" = None /\
  Skk.System Session.M0 !! "かk" = Some ["書"; "欠"; "掛"; "駆"; "懸"; "賭"] /\
  exists M',
    Skk.step (Skk.Wait Session.f1 (Skk.Purging 0) Session.M0 Session.B1s)
      (Session.key "y")
    = Skk.Done Skk.CONTINUE M' (Session.line Session.B1s ["x"] [] ["z"]) /\
    Skk.User M' !! "かk" = Some ["欠"; "掛"; "駆"; "懸"; "賭"] /\
    Skk.System M' !! "かk" = Some ["欠"; "掛"; "駆"; "懸"; "賭"; "賭"] /\
    Skk.lookup M' "かk" = (["欠"; "掛"; "駆"; "懸"; "賭"], true).
Proof.
  assert (h1 : Session.region Session.B1s ["x"] ["▼"; "書"; "k"] ["z"])
    by (split; reflexivity).
  assert (h2 : Skk.User Session.M0 !! "かk" = None) by (vm_compute; reflexivity).
  assert (h3 : Skk.System Session.M0 !! "かk" = Some (Skk.list_ Session.f1))
    by (vm_compute; reflexivity).
  split; [exact h1|]. split; [exact h2|]. split; [exact h3|].
  destruct (purge_of_system_reading Session.f1 Session.M0 Session.B1s
              (Session.key "y") 0 ["x"] ["▼"; "書"; "k"] ["z"] "書" h1 eq_refl h2 h3
              eq_refl eq_refl (or_introl eq_refl))
    as (M' & Hstep & _ & Hmore & _).
  exists M'. split; [exact Hstep|].
  exact (Hmore ltac:(simpl; lia)).
Defined.
